(** * MarketAnalyzer: a shallow embedding of src/analyzer/market_analyzer.py

    The development follows the Python class [MarketAnalyzer]:
    - Python floats (and numpy float64 scalars) are IEEE binary64 values, the
      kernel's primitive floats; comparisons are [PrimFloat.ltb] and friends,
      so NaN and signed zeros behave as they do in Python.
    - [try ... except] is an exception monad [py]; a function that catches
      everything is still written in [py], and "raises no error" is a theorem.
    - dictionaries whose key set is dynamic (the cache, the per-date news
      counters, the timeframe map) are [gmap]s; result dictionaries with a
      fixed set of possible keys are records with optional fields; the
      [Counter] of keywords is an insertion-ordered association list, since
      [most_common] breaks ties by insertion order.
    - a [str] is a [string] holding its UTF-8 bytes; the characters of ASCII
      are handled here, the code points outside ASCII by Unicode's own
      routines.
    - external library routines (TextBlob's scorer, [datetime.strptime],
      [numpy.corrcoef], the C library's [pow], Unicode's lowercasing and
      word characters, pandas' rolling and exponential windows) are Section
      variables: the theorems hold for every implementation of them. *)

From Stdlib Require Import Floats ZArith Ascii String.
From stdpp Require Import gmap strings list sorting.

Set Warnings "-inexact-float".
Local Open Scope string_scope.

(** ** Python exceptions *)

Inductive exn : Type :=
  | KeyError (key : string)
  | IndexError
  | ValueError
  | LibraryError (msg : string).

(** [str(e)] as used in the f-strings of the [except Exception as e] handlers. *)
Definition str_exn (e : exn) : string :=
  match e with
  | KeyError k => "'" ++ k ++ "'"
  | IndexError => "single positional indexer is out-of-bounds"
  | ValueError => "ValueError"
  | LibraryError msg => msg
  end.

Inductive py (A : Type) : Type :=
  | Ret (a : A)
  | Raise (e : exn).
Arguments Ret {A} a.
Arguments Raise {A} e.

Global Instance py_ret : MRet py := @Ret.
Global Instance py_bind : MBind py := λ A B f m,
  match m with Ret a => f a | Raise e => Raise e end.
Global Instance py_fmap : FMap py := λ A B f m,
  match m with Ret a => Ret (f a) | Raise e => Raise e end.

(** [try: m except Exception as e: h e] *)
Definition try_except {A} (m : py A) (h : exn → py A) : py A :=
  match m with Ret a => Ret a | Raise e => h e end.

Definition is_Ret {A} (m : py A) : Prop := ∃ a, m = Ret a.

(** * Part I: the embedding *)

Section MarketAnalyzer.

Set Default Proof Using "Type".

(** The cached payloads are opaque to the cache. *)
Context {V : Type}.
(** [datetime.strptime(s, '%Y-%m-%d %H:%M:%S')]: the parsed instant, or the
    exception it raises ([ValueError] on a string that does not match). *)
Variable strptime : string → py Z.
(** pandas' [Series.max()], [Series.min()] and [Series.sum()]. *)
Variables series_max series_min series_sum : list float → float.
(** Python's [format(x, '.2f')] and [format(x, '.1f')]. *)
Variable format_2f : float → string.
Variable format_1f : float → string.

(** pandas' windows over a column: [col.rolling(window=w).mean()],
    [col.rolling(window=w).std()] and [col.ewm(span=s, adjust=False).mean()]. *)
Variables rolling_mean rolling_std ewm_mean : nat → list float → list float.

(** TextBlob's scorer, [TextBlob(text).sentiment.polarity]: the score, or the
    exception the library raises. *)
Variable polarity : string → py float.
(** [datetime.now().strftime('%Y-%m-%d %H:%M:%S')] as read while the [i]-th
    valid item is processed. *)
Variable clock : nat → string.

(** Text is a [str], read here by its UTF-8 bytes; what Python does with the
    code points outside ASCII is Unicode's business.  [unicode_lower] is
    [s.lower()] on a text that holds such a code point, and [unicode_word]
    tells whether [\w] matches a code point outside ASCII, given by its bytes
    ([re] matches a [str] pattern against Unicode's word characters). *)
Variable unicode_lower : string → string.
Variable unicode_word : list ascii → bool.

(** [numpy.corrcoef(prices, neg_news_counts)[0, 1]]: the coefficient, or the
    exception the call raises. *)
Variable corrcoef : list float → list nat → py float.
(** [x ** y] on floats: CPython hands it to the C library's [pow], whose
    result need not be the correctly rounded one. *)
Variable float_pow : float → float → float.

(** ** Order keys of binary64 values

    [<] and [==] on Python floats are the IEEE comparisons.  Their
    specification compares sign, exponent and mantissa lexicographically;
    [rank] makes that explicit as a triple of integers, from which
    transitivity and the like follow by linear arithmetic (Part II). *)

Definition rank (f : spec_float) : option (Z * Z * Z) :=
  match f with
  | S754_nan => None
  | S754_infinity true => Some (-2, 0, 0)%Z
  | S754_infinity false => Some (2, 0, 0)%Z
  | S754_zero _ => Some (0, 0, 0)%Z
  | S754_finite true m e => Some (-1, - e, Z.neg m)%Z
  | S754_finite false m e => Some (1, e, Z.pos m)%Z
  end.

Definition lex_compare (a b : Z * Z * Z) : comparison :=
  match a, b with
  | (a1, a2, a3), (b1, b2, b3) =>
      match (a1 ?= b1)%Z with
      | Eq => match (a2 ?= b2)%Z with Eq => (a3 ?= b3)%Z | c => c end
      | c => c
      end
  end.

Definition frank (x : float) : option (Z * Z * Z) := rank (Prim2SF x).

(** ** Numbers *)

(** [float(n)] of a count (exact below 2^53, which list lengths are). *)
Definition float_of_nat (n : nat) : float := of_uint63 (Uint63.of_Z (Z.of_nat n)).

(** [sum(l)] over floats, left to right from 0. *)
Definition float_sum (l : list float) : float := fold_left PrimFloat.add l 0%float.

(** ** The cache (lines 46-70) *)

(** Instants and durations are counted in microseconds, the resolution of
    [datetime] and [timedelta]. *)
Definition timedelta_hours (h : Z) : Z := (h * 3600 * 1000000)%Z.

(** The first component of a cache entry: [_store_in_cache] writes a
    [datetime]; [_get_from_cache] also accepts a string. *)
Inductive cache_time : Type :=
  | CacheDatetime (t : Z)
  | CacheStr (s : string).

Record MarketAnalyzer : Type := {
  data_cache : gmap string (cache_time * V);
  cache_expiry : Z
}.

(** [__init__]: an empty cache and [timedelta(hours=1)]. *)
Definition init : MarketAnalyzer :=
  {| data_cache := ∅; cache_expiry := timedelta_hours 1 |}.

(** [_get_from_cache(cache_key)] at instant [now]; [Ret None] is Python's
    [return None].  The [try] covers the parsing only, and its handler
    catches [ValueError] only. *)
Definition _get_from_cache (self : MarketAnalyzer) (now : Z) (cache_key : string)
    : py (option V) :=
  match data_cache self !! cache_key with
  | Some (cache_time, cached_data) =>
      let if_fresh (cache_time : Z) : py (option V) :=
        if bool_decide (now - cache_time < cache_expiry self)%Z
        then Ret (Some cached_data) else Ret None in
      match cache_time with
      | CacheStr s =>
          match strptime s with
          | Ret parsed => if_fresh parsed
          | Raise ValueError => Ret None
          | Raise e => Raise e
          end
      | CacheDatetime t => if_fresh t
      end
  | None => Ret None
  end.

(** [_store_in_cache(cache_key, data)] at instant [now]. *)
Definition _store_in_cache (self : MarketAnalyzer) (now : Z) (cache_key : string)
    (data : V) : MarketAnalyzer :=
  {| data_cache := <[cache_key := (CacheDatetime now, data)]> (data_cache self);
     cache_expiry := cache_expiry self |}.

(** A [MarketAnalyzer] with a given cache content under the constructor's
    expiry.  [_store_in_cache] writes datetimes only; a string timestamp
    reaches a cache from outside the class. *)
Definition with_cache (c : gmap string (cache_time * V)) : MarketAnalyzer :=
  {| data_cache := c; cache_expiry := cache_expiry init |}.

(** The instant a stored timestamp denotes, when it denotes one. *)
Definition stored_time (ct : cache_time) : option Z :=
  match ct with
  | CacheDatetime t => Some t
  | CacheStr s => match strptime s with Ret t => Some t | Raise _ => None end
  end.


(** ** Price data *)

(** A pandas [DataFrame] as this module uses it: the row labels (the index
    entries, already formatted by [strftime('%Y-%m-%d')]) and the named
    columns of float64 values.  pandas keeps every column as long as the
    index ([df_wf]); [Series.iloc] outside the column raises [IndexError]. *)
Record DataFrame : Type := {
  index : list string;
  columns : gmap string (list float)
}.

Definition pd_DataFrame : DataFrame := {| index := []; columns := ∅ |}.

Definition df_wf (df : DataFrame) : Prop :=
  ∀ name col, columns df !! name = Some col → length col = length (index df).

(** [df.empty]: some axis has length zero. *)
Definition df_empty (df : DataFrame) : bool :=
  Nat.eqb (length (index df)) 0 || Nat.eqb (size (columns df)) 0.

(** [len(df)] *)
Definition df_len (df : DataFrame) : nat := length (index df).

(** [df[name]] *)
Definition getitem (df : DataFrame) (name : string) : py (list float) :=
  match columns df !! name with
  | Some col => Ret col
  | None => Raise (KeyError name)
  end.

(** [series.iloc[i]], [series.iloc[0]] and [series.iloc[-1]] *)
Definition iloc (col : list float) (i : nat) : py float :=
  match col !! i with Some x => Ret x | None => Raise IndexError end.
Definition iloc_first (col : list float) : py float := iloc col 0.
Definition iloc_last (col : list float) : py float :=
  match last col with Some x => Ret x | None => Raise IndexError end.

(** [df.iloc[-n:]] for [0 < n]: the last [n] rows. *)
Definition lastn {A} (n : nat) (l : list A) : list A := drop (length l - n) l.
Definition df_tail (n : nat) (df : DataFrame) : DataFrame :=
  {| index := lastn n (index df); columns := lastn n <$> columns df |}.

(** The [security_data] dictionary, by the keys this module reads:
    ['data'] maps a timeframe to its frame, ['stats'] maps a statistic to its
    value ([None] for Python's [None]).  A key that is absent is [None] here;
    the argument itself is an [option], [None] standing for a missing or empty
    dictionary. *)
Record SecurityData : Type := {
  sd_data : option (gmap string DataFrame);
  sd_stats : option (gmap string (option float))
}.

(** ** The price paragraph of the narrative (lines 780-817) *)

(** The holes of the f-strings of [_generate_price_summary]. *)
Record PriceSummary : Type := {
  ps_ticker : string;
  ps_direction : string;
  ps_magnitude : string;
  ps_abs_change_pct : float;
  ps_current_price : float;
  ps_open_price : float;
  ps_day_low : float;
  ps_day_high : float;
  ps_volume_desc : option string
}.

Definition direction_of (price_change : float) : string :=
  if (0 <? price_change)%float then "up" else "down".

Definition magnitude_of (price_change_pct : float) : string :=
  if (abs price_change_pct <? 1)%float then "slightly"
  else if (3 <? abs price_change_pct)%float then "significantly"
  else "moderately".

(** [if avg_volume and avg_volume > 0] and the three-way qualifier. *)
Definition volume_desc_of (current_volume : float) (avg_volume : option float)
    : option string :=
  match avg_volume with
  | Some avg =>
      if negb (avg =? 0)%float && (0 <? avg)%float then
        let volume_ratio := (current_volume / avg)%float in
        Some (if (1.2 <? volume_ratio)%float then "higher than"
              else if (volume_ratio <? 0.8)%float then "lower than"
              else "in line with")
      else None
  | None => None
  end.

(** The body of the [try] block, up to the rendering of the text. *)
Definition price_summary_body (security_data : option SecurityData) (ticker : string)
    : py (option PriceSummary) :=
  match security_data with
  | None => Ret None
  | Some sd =>
    match sd_data sd with
    | None => Ret None
    | Some data =>
      match data !! "today" with
      | None => Ret None
      | Some today_data =>
        if df_empty today_data then Ret None else
        close ← getitem today_data "Close";
        current_price ← iloc_last close;
        open ← getitem today_data "Open";
        open_price ← iloc_first open;
        let price_change := (current_price - open_price)%float in
        let price_change_pct := (price_change / open_price * 100)%float in
        high ← getitem today_data "High";
        let day_high := series_max high in
        low ← getitem today_data "Low";
        let day_low := series_min low in
        let direction := direction_of price_change in
        let magnitude := magnitude_of price_change_pct in
        let volume_desc :=
          match columns today_data !! "Volume" with
          | Some volume =>
              let current_volume := series_sum volume in
              match sd_stats sd with
              | Some stats =>
                  match stats !! "Average Volume" with
                  | Some avg_volume => volume_desc_of current_volume avg_volume
                  | None => None
                  end
              | None => None
              end
          | None => None
          end in
        Ret (Some {| ps_ticker := ticker;
                     ps_direction := direction;
                     ps_magnitude := magnitude;
                     ps_abs_change_pct := abs price_change_pct;
                     ps_current_price := current_price;
                     ps_open_price := open_price;
                     ps_day_low := day_low;
                     ps_day_high := day_high;
                     ps_volume_desc := volume_desc |})
      end
    end
  end.

(** [try: ... except Exception: return None] *)
Definition price_summary_parts (security_data : option SecurityData) (ticker : string)
    : py (option PriceSummary) :=
  try_except (price_summary_body security_data ticker) (λ _, Ret None).

Definition render_price_summary (s : PriceSummary) : string :=
  ps_ticker s ++ " is " ++ ps_direction s ++ " " ++ ps_magnitude s ++ " by "
  ++ format_2f (ps_abs_change_pct s) ++ "% today, currently trading at $"
  ++ format_2f (ps_current_price s) ++ "."
  ++ " The stock opened at $" ++ format_2f (ps_open_price s)
  ++ " and has ranged from $" ++ format_2f (ps_day_low s) ++ " to $"
  ++ format_2f (ps_day_high s) ++ " during the session."
  ++ match ps_volume_desc s with
     | Some volume_desc => " Trading volume is " ++ volume_desc ++ " average."
     | None => ""
     end.

(** [_generate_price_summary(security_data, ticker)]: the text, or [None]. *)
Definition _generate_price_summary (security_data : option SecurityData)
    (ticker : string) : py (option string) :=
  match price_summary_parts security_data ticker with
  | Ret (Some s) => Ret (Some (render_price_summary s))
  | Ret None => Ret None
  | Raise e => Raise e
  end.

(** The intraday move of a frame: last close, first open. *)
Definition intraday (today_data : DataFrame) : option (float * float) :=
  close ← columns today_data !! "Close";
  c ← last close;
  open ← columns today_data !! "Open";
  o ← head open;
  Some (c, o).

Definition has_columns (df : DataFrame) (names : list string) : Prop :=
  Forall (λ n, is_Some (columns df !! n)) names.


(** ** The indicator engine (lines 1181-1278) *)

Record SmaAnalysis : Type := {
  sma5 : float;
  sma10 : float;
  sma5_signal : string;
  sma10_signal : string;
  crossover : string
}.

Record BollingerAnalysis : Type := {
  upper : float;
  middle : float;
  lower : float;
  signal : string
}.

Record Signals : Type := {
  sig_sma : string;
  sig_rsi : string;
  sig_macd : string;
  sig_bollinger : string
}.

(** The [analysis] dictionary: a key that was never assigned is [None]. *)
Record TechnicalAnalysis : Type := {
  ta_sma : option SmaAnalysis;
  ta_rsi : option float;
  ta_rsi_signal : option string;
  ta_macd : option float;
  ta_macd_signal : option string;
  ta_macd_histogram : option float;
  ta_bollinger : option BollingerAnalysis;
  ta_signals : option Signals
}.

(** The empty dictionary [{}]. *)
Definition empty_bundle : TechnicalAnalysis :=
  {| ta_sma := None; ta_rsi := None; ta_rsi_signal := None; ta_macd := None;
     ta_macd_signal := None; ta_macd_histogram := None; ta_bollinger := None;
     ta_signals := None |}.

(** Element-wise arithmetic of two columns of one frame. *)
Definition col_sub (a b : list float) : list float := zip_with PrimFloat.sub a b.
Definition col_add (a b : list float) : list float := zip_with PrimFloat.add a b.
Definition col_div (a b : list float) : list float := zip_with PrimFloat.div a b.

(** [col.diff()]: NaN, then the successive differences. *)
Definition col_diff (col : list float) : list float :=
  match col with
  | [] => []
  | _ :: rest => nan :: zip_with PrimFloat.sub rest col
  end.

(** [col.where(cond, 0)] *)
Definition col_where (cond : float → bool) (col : list float) : list float :=
  (λ d, if cond d then d else 0%float) <$> col.

(** The block computing the moving averages.  The source stores the windows
    as new columns of its private copy [df]; no later block reads a column
    another block wrote, so the columns are local values here. *)
Definition sma_block (df : DataFrame) : py SmaAnalysis :=
  close ← getitem df "Close";
  let SMA_5 := rolling_mean 5 close in
  let SMA_10 := rolling_mean 10 close in
  last_close ← iloc_last close;
  last_sma5 ← iloc_last SMA_5;
  last_sma10 ← iloc_last SMA_10;
  Ret {| sma5 := last_sma5;
         sma10 := last_sma10;
         sma5_signal := if (last_sma5 <? last_close)%float then "buy" else "sell";
         sma10_signal := if (last_sma10 <? last_close)%float then "buy" else "sell";
         crossover := if (last_sma10 <? last_sma5)%float then "bullish" else "bearish" |}.

Definition rsi_signal_of (last_rsi : float) : string :=
  if (70 <? last_rsi)%float then "sell"
  else if (last_rsi <? 30)%float then "buy" else "neutral".

Definition rsi_block (df : DataFrame) : py (float * string) :=
  close ← getitem df "Close";
  let delta := col_diff close in
  let gain := rolling_mean 14 (col_where (λ d, 0 <? d)%float delta) in
  let loss := PrimFloat.opp <$> rolling_mean 14 (col_where (λ d, d <? 0)%float delta) in
  let rs := col_div gain loss in
  let RSI := (λ r, 100 - 100 / (1 + r))%float <$> rs in
  last_rsi ← iloc_last RSI;
  Ret (last_rsi, rsi_signal_of last_rsi).

Definition macd_block (df : DataFrame) : py (float * string * float) :=
  close ← getitem df "Close";
  let EMA_12 := ewm_mean 12 close in
  let EMA_26 := ewm_mean 26 close in
  let MACD := col_sub EMA_12 EMA_26 in
  let Signal_Line := ewm_mean 9 MACD in
  let MACD_Histogram := col_sub MACD Signal_Line in
  last_macd ← iloc_last MACD;
  last_signal ← iloc_last Signal_Line;
  last_hist ← iloc_last MACD_Histogram;
  Ret (last_macd, if (last_signal <? last_macd)%float then "buy" else "sell", last_hist).

Definition bollinger_block (df : DataFrame) : py BollingerAnalysis :=
  close ← getitem df "Close";
  let SMA_20 := rolling_mean 20 close in
  let Std_Dev := rolling_std 20 close in
  let band := (λ s, s * 2)%float <$> Std_Dev in
  let Upper_Band := col_add SMA_20 band in
  let Lower_Band := col_sub SMA_20 band in
  last_close ← iloc_last close;
  last_upper ← iloc_last Upper_Band;
  last_lower ← iloc_last Lower_Band;
  last_middle ← iloc_last SMA_20;
  Ret {| upper := last_upper;
         middle := last_middle;
         lower := last_lower;
         signal := if (last_upper <? last_close)%float then "sell"
                   else if (last_close <? last_lower)%float then "buy"
                   else "neutral" |}.

(** [try: block except Exception: log]: the result when the block returned. *)
Definition attempt {A} (block : py A) : option A :=
  match block with Ret a => Some a | Raise _ => None end.

(** [analysis.get(key, 'neutral')] and [analysis.get(key, {}).get(field, 'neutral')] *)
Definition get_or_neutral (entry : option string) : string := default "neutral" entry.

Definition aggregate_signals (sma : option SmaAnalysis) (rsi_signal macd_signal : option string)
    (bollinger : option BollingerAnalysis) : Signals :=
  {| sig_sma := get_or_neutral (sma5_signal <$> sma);
     sig_rsi := get_or_neutral rsi_signal;
     sig_macd := get_or_neutral macd_signal;
     sig_bollinger := get_or_neutral (signal <$> bollinger) |}.

(** [_get_technical_analysis(price_data)]; [None] is a missing or empty
    [price_data]. *)
Definition _get_technical_analysis (price_data : option (gmap string DataFrame))
    : py TechnicalAnalysis :=
  match price_data with
  | None => Ret empty_bundle
  | Some data =>
    match data !! "week" with
    | None => Ret empty_bundle
    | Some week =>
      if df_empty week then Ret empty_bundle else
      let df := week in
      if (df_len df <? 10)%nat then Ret empty_bundle else
      let sma := attempt (sma_block df) in
      let rsi := attempt (rsi_block df) in
      let macd := attempt (macd_block df) in
      let bollinger := attempt (bollinger_block df) in
      Ret {| ta_sma := sma;
             ta_rsi := fst <$> rsi;
             ta_rsi_signal := snd <$> rsi;
             ta_macd := (λ m, fst (fst m)) <$> macd;
             ta_macd_signal := (λ m, snd (fst m)) <$> macd;
             ta_macd_histogram := snd <$> macd;
             ta_bollinger := bollinger;
             ta_signals :=
               Some (aggregate_signals sma (snd <$> rsi)
                                       ((λ m, snd (fst m)) <$> macd) bollinger) |}
    end
  end.

(** A family is present in a bundle when the bundle holds its entry. *)
Definition family_signal (b : TechnicalAnalysis) (family : string) : option string :=
  if String.eqb family "sma" then sma5_signal <$> ta_sma b
  else if String.eqb family "rsi" then ta_rsi_signal b
  else if String.eqb family "macd" then ta_macd_signal b
  else if String.eqb family "bollinger" then signal <$> ta_bollinger b
  else None.

(** [analysis['signals'][family]] *)
Definition aggregate_entry (sg : Signals) (family : string) : option string :=
  if String.eqb family "sma" then Some (sig_sma sg)
  else if String.eqb family "rsi" then Some (sig_rsi sg)
  else if String.eqb family "macd" then Some (sig_macd sg)
  else if String.eqb family "bollinger" then Some (sig_bollinger sg)
  else None.

Definition families : list string := ["sma"; "rsi"; "macd"; "bollinger"].

(** ** The news classifier (lines 576-731) *)

(** A raw news item; a key the dictionary does not have is [None]. *)
Record NewsItem : Type := {
  ni_title : option string;
  ni_summary : option string;
  ni_source : option string;
  ni_url : option string;
  ni_timestamp : option string;
  ni_entities : option (list (string * list string));
  ni_sentiment : option float
}.

(** An entry of [analysis['sentiments']]. *)
Record SentimentItem : Type := {
  si_title : string;
  si_sentiment : float;
  si_sentiment_category : string;
  si_source : string;
  si_url : string;
  si_timestamp : string;
  si_topics : list string;
  si_entities : option (list (string * list string))
}.

Record SentimentDistribution : Type := {
  positive : nat;
  negative : nat;
  neutral : nat
}.

(** The analysis dictionary.  [entities] are sets in the source until the
    last step turns them into lists in an order Python does not fix; they stay
    sets here. *)
Record NewsAnalysis : Type := {
  sentiments : list SentimentItem;
  topics : gmap string nat;
  entities : gmap string (gset string);
  keywords : list string;
  average_sentiment : float;
  sentiment_distribution : SentimentDistribution;
  sources : gmap string nat;
  sentiment_label : string;
  news_items : option (list SentimentItem)
}.

(** [_get_empty_news_analysis()] *)
Definition _get_empty_news_analysis : NewsAnalysis :=
  {| sentiments := [];
     topics := ∅;
     entities := list_to_map [("tickers", ∅); ("companies", ∅); ("people", ∅); ("topics", ∅)];
     keywords := [];
     average_sentiment := 0%float;
     sentiment_distribution := {| positive := 0; negative := 0; neutral := 0 |};
     sources := ∅;
     sentiment_label := "Neutral";
     news_items := Some [] |}.

(** *** Text: [str.lower], [re.findall], [in]

    A [str] is read by its UTF-8 bytes: a character of ASCII is one byte
    below 128, any other code point a group of two to four bytes that are all
    128 or above. *)

Definition in_range (lo hi c : ascii) : bool :=
  (N_of_ascii lo <=? N_of_ascii c)%N && (N_of_ascii c <=? N_of_ascii hi)%N.

Definition is_ascii (c : ascii) : bool := (N_of_ascii c <? 128)%N.

Definition ascii_text (s : string) : bool :=
  forallb is_ascii (list_ascii_of_string s).

(** [[A-Za-z]] *)
Definition is_letter (c : ascii) : bool := in_range "A" "Z" c || in_range "a" "z" c.
(** [\w] on a character of ASCII *)
Definition is_word (c : ascii) : bool :=
  is_letter c || in_range "0" "9" c || Ascii.eqb c "_".
(** [[A-Za-z\-]] *)
Definition is_body (c : ascii) : bool := is_letter c || Ascii.eqb c "-".

Definition lower_char (c : ascii) : ascii :=
  if in_range "A" "Z" c then ascii_of_N (N_of_ascii c + 32) else c.

(** [s.lower()]: on a text of ASCII the letters A to Z are replaced; any
    other text is lowered as Unicode prescribes. *)
Definition py_lower (s : string) : string :=
  if ascii_text s then string_of_list_ascii (lower_char <$> list_ascii_of_string s)
  else unicode_lower s.

(** The number of bytes of the code point that starts with the byte [c]
    (1 for a character of ASCII, and for a byte that starts none). *)
Definition utf8_width (c : ascii) : nat :=
  if (N_of_ascii c <? 192)%N then 1
  else if (N_of_ascii c <? 224)%N then 2
  else if (N_of_ascii c <? 240)%N then 3
  else 4.

(** The text as the pattern [\b[A-Za-z][A-Za-z\-]{2,}\b] sees it, one
    character per code point.  The pattern tells apart the letters of ASCII,
    the hyphen, the other word characters and the rest.  A character of ASCII
    stands for itself; a code point outside ASCII is neither a letter of
    [[A-Za-z]] nor a hyphen, so it is put down as "_" when [\w] matches it and
    as " " when not.  [skip] counts the bytes of the current code point that
    are still to pass. *)
Fixpoint regex_view (skip : nat) (s : list ascii) : list ascii :=
  match s with
  | [] => []
  | c :: rest =>
      match skip with
      | S skip' => regex_view skip' rest
      | 0 =>
          if is_ascii c then c :: regex_view 0 rest
          else (if unicode_word (c :: take (utf8_width c - 1) rest)
                then "_" else " ")%char
               :: regex_view (utf8_width c - 1) rest
      end
  end.

(** [\b] between two neighbours of the view; the ends of the text count as
    non-word. *)
Definition boundary (prev next : option ascii) : bool :=
  xorb (from_option is_word false prev) (from_option is_word false next).

(** The length of the longest prefix of [[A-Za-z\-]] characters. *)
Fixpoint body_run (s : list ascii) : nat :=
  match s with
  | c :: s' => if is_body c then S (body_run s') else 0
  | [] => 0
  end.

(** The greedy [{2,}] followed by [\b]: after the first letter [c0] the
    matcher takes [k] more characters, the largest [k] first, down to 2, and
    keeps the first [k] at whose end [\b] holds. *)
Fixpoint match_end (c0 : ascii) (rest : list ascii) (k : nat) : option nat :=
  match k with
  | 0 => None
  | S k' =>
      if (2 <=? k)%nat && boundary (last (c0 :: take k rest)) (rest !! k)
      then Some k
      else match_end c0 rest k'
  end.

(** A match of [\b[A-Za-z][A-Za-z\-]{2,}\b] starting at the head of [s],
    [prev] being the character before it. *)
Definition match_at (prev : option ascii) (s : list ascii) : option (list ascii) :=
  match s with
  | c0 :: rest =>
      if is_letter c0 && boundary prev (Some c0) then
        k ← match_end c0 rest (body_run rest);
        Some (c0 :: take k rest)
      else None
  | [] => None
  end.

(** The scan of [re.findall]: left to right, resumed after each match;
    [skip] counts the characters of the current match still to pass. *)
Fixpoint findall_from (prev : option ascii) (skip : nat) (s : list ascii)
    : list string :=
  match s with
  | [] => []
  | c :: s' =>
      match skip with
      | S skip' => findall_from (Some c) skip' s'
      | 0 =>
          match match_at prev s with
          | Some tok => string_of_list_ascii tok
                        :: findall_from (Some c) (length tok - 1) s'
          | None => findall_from (Some c) 0 s'
          end
      end
  end.

(** [re.findall(r'\b[A-Za-z][A-Za-z\-]{2,}\b', text)] *)
Definition re_findall_words (text : string) : list string :=
  findall_from None 0 (regex_view 0 (list_ascii_of_string text)).

(** [needle in hay] *)
Fixpoint contains (needle hay : string) : bool :=
  String.prefix needle hay ||
  match hay with
  | String _ hay' => contains needle hay'
  | EmptyString => false
  end.

Definition stop_words : list string :=
  ["this"; "that"; "these"; "those"; "there"; "their"; "they";
   "what"; "when"; "where"; "which"; "while"; "with"; "would";
   "about"; "above"; "after"; "again"; "against"; "could"; "should";
   "from"; "have"; "having"; "here"; "more"; "once"; "only"; "same"; "some";
   "such"; "than"; "then"; "through"].

(** [w in words] on a list of strings *)
Definition str_in (w : string) (words : list string) : bool :=
  existsb (String.eqb w) words.

(** The filter of line 646: [len(w) > 3 and w not in [...]]. *)
Definition keeps_word (w : string) : bool :=
  (3 <? String.length w)%nat && negb (str_in w stop_words).

(** [filtered_words] of a content. *)
Definition filtered_words (content : string) : list string :=
  filter (λ w, keeps_word w = true) (re_findall_words (py_lower content)).

(** *** [collections.Counter]

    The counter keeps its keys in the order of their first insertion, and
    [most_common(n)] is [sorted(items, key=count, reverse=True)[:n]]: a stable
    sort, so equal counts stay in insertion order. *)
Definition Counter : Type := list (string * nat).

Fixpoint counter_add (w : string) (c : Counter) : Counter :=
  match c with
  | [] => [(w, 1)]
  | (k, n) :: c' => if String.eqb k w then (k, S n) :: c' else (k, n) :: counter_add w c'
  end.

(** [counter.update(words)] *)
Definition counter_update (c : Counter) (words : list string) : Counter :=
  fold_left (λ acc w, counter_add w acc) words c.

(** A stable sort into descending order: [x] goes before the first element
    that is not above it; [above x y] reads "the key of [y] is greater than
    the key of [x]". *)
Fixpoint insert_desc {A} (above : A → A → bool) (x : A) (l : list A) : list A :=
  match l with
  | [] => [x]
  | y :: l' => if above x y then y :: insert_desc above x l' else x :: y :: l'
  end.

Definition sort_desc {A} (above : A → A → bool) (l : list A) : list A :=
  foldr (insert_desc above) [] l.

Definition count_above (x y : string * nat) : bool := (snd x <? snd y)%nat.

(** [counter.most_common(n)] *)
Definition most_common (n : nat) (c : Counter) : list (string * nat) :=
  take n (sort_desc count_above c).

(** *** Topics *)

Definition topic_keywords : list (string * list string) :=
  [("earnings", ["earnings"; "revenue"; "profit"; "loss"; "quarter"; "financial"; "eps"; "income"; "guidance"]);
   ("merger_acquisition", ["merger"; "acquisition"; "takeover"; "deal"; "buyout"; "purchase"; "acquire"]);
   ("product_launch", ["launch"; "release"; "new product"; "update"; "unveil"; "introduce"; "announcement"]);
   ("leadership", ["ceo"; "executive"; "appoint"; "resign"; "management"; "leader"; "director"; "board"]);
   ("legal_regulatory", ["lawsuit"; "court"; "legal"; "sue"; "settlement"; "regulation"; "compliance"; "fine"]);
   ("market_trend", ["market"; "index"; "dow"; "nasdaq"; "s&p"; "bull"; "bear"; "trend"; "correction"]);
   ("technology_innovation", ["tech"; "technology"; "innovation"; "patent"; "ai"; "artificial intelligence"; "research"]);
   ("economic_indicators", ["fed"; "inflation"; "interest rate"; "economy"; "growth"; "recession"; "gdp"]);
   ("analyst_rating", ["analyst"; "upgrade"; "downgrade"; "rating"; "target"; "buy"; "sell"; "hold"; "overweight"]);
   ("competition", ["competitor"; "rivalry"; "market share"; "outperform"; "versus"; "competition"]);
   ("international", ["global"; "international"; "foreign"; "overseas"; "export"; "import"; "tariff"; "trade"])].

Definition detect_topics (content_lower : string) : list string :=
  fst <$> filter (λ tk, existsb (λ keyword, contains keyword content_lower) (snd tk) = true)
                 topic_keywords.

(** [d[k] += 1] on a [defaultdict(int)] *)
Definition incr (k : string) (d : gmap string nat) : gmap string nat :=
  <[k := S (default 0 (d !! k))]> d.

(** *** The per-item step *)

(** Lines 634-642. *)
Definition sentiment_category_of (sentiment_score : float) : string :=
  if (0.2 <? sentiment_score)%float then "positive"
  else if (sentiment_score <? -0.2)%float then "negative"
  else "neutral".

Definition count_category (category : string) (d : SentimentDistribution)
    : SentimentDistribution :=
  if String.eqb category "positive" then
    {| positive := S (positive d); negative := negative d; neutral := neutral d |}
  else if String.eqb category "negative" then
    {| positive := positive d; negative := S (negative d); neutral := neutral d |}
  else
    {| positive := positive d; negative := negative d; neutral := S (neutral d) |}.

(** [title + ' ' + summary] of lines 625-627. *)
Definition content_of (item : NewsItem) : string :=
  default "" (ni_title item) ++ " " ++ default "" (ni_summary item).

(** The variables of the loop of lines 618-686. *)
Record LoopState : Type := {
  ls_analysis : NewsAnalysis;
  ls_total_sentiment : float;
  ls_keyword_counter : Counter;
  ls_news_items_with_sentiment : list (SentimentItem * float)
}.

Definition merge_entities (found : list (string * list string))
    (known : gmap string (gset string)) : gmap string (gset string) :=
  fold_left (λ acc e, <[e.1 := default ∅ (acc !! e.1) ∪ list_to_set e.2]> acc) found known.

(** One turn of the loop. *)
Definition process_item (st : LoopState) (item : NewsItem) : py LoopState :=
  let analysis := ls_analysis st in
  let title := default "" (ni_title item) in
  let content := content_of item in
  sentiment_score ← polarity content;
  let sentiment_category := sentiment_category_of sentiment_score in
  let keyword_counter := counter_update (ls_keyword_counter st) (filtered_words content) in
  let content_lower := py_lower content in
  let detected_topics := detect_topics content_lower in
  let source := default "Unknown" (ni_source item) in
  let sentiment_item :=
    {| si_title := title;
       si_sentiment := sentiment_score;
       si_sentiment_category := sentiment_category;
       si_source := source;
       si_url := default "" (ni_url item);
       si_timestamp := default (clock (length (sentiments analysis))) (ni_timestamp item);
       si_topics := detected_topics;
       si_entities := ni_entities item |} in
  Ret {| ls_analysis :=
           {| sentiments := sentiments analysis ++ [sentiment_item];
              topics := foldr incr (topics analysis) detected_topics;
              entities := from_option (λ found, merge_entities found (entities analysis))
                                      (entities analysis) (ni_entities item);
              keywords := keywords analysis;
              average_sentiment := average_sentiment analysis;
              sentiment_distribution :=
                count_category sentiment_category (sentiment_distribution analysis);
              sources := incr source (sources analysis);
              sentiment_label := sentiment_label analysis;
              news_items := news_items analysis |};
         ls_total_sentiment := (ls_total_sentiment st + sentiment_score)%float;
         ls_keyword_counter := keyword_counter;
         ls_news_items_with_sentiment :=
           ls_news_items_with_sentiment st ++ [(sentiment_item, sentiment_score)] |}.

(** [for item in valid_news_items: ...] *)
Fixpoint process_items (st : LoopState) (items : list NewsItem) : py LoopState :=
  match items with
  | [] => Ret st
  | item :: rest => st' ← process_item st item; process_items st' rest
  end.

(** [item and 'title' in item and item['title']] *)
Definition is_valid_item (item : NewsItem) : bool :=
  match ni_title item with
  | Some t => negb (String.eqb t "")
  | None => false
  end.

Definition valid_news_items (news_items : list NewsItem) : list NewsItem :=
  filter (λ item, is_valid_item item = true) news_items.

Definition initial_state : LoopState :=
  {| ls_analysis :=
       {| sentiments := []; topics := ∅; entities := ∅; keywords := [];
          average_sentiment := 0%float;
          sentiment_distribution := {| positive := 0; negative := 0; neutral := 0 |};
          sources := ∅; sentiment_label := "Neutral"; news_items := None |};
     ls_total_sentiment := 0%float;
     ls_keyword_counter := [];
     ls_news_items_with_sentiment := [] |}.

Definition sentiment_label_of (average : float) : string :=
  if (0.1 <? average)%float then "Positive"
  else if (average <? -0.1)%float then "Negative"
  else "Neutral".

(** [abs(x[1])] as the descending key of line 701. *)
Definition impact_above (x y : SentimentItem * float) : bool :=
  (abs (snd x) <? abs (snd y))%float.

(** Lines 688-712, after the loop. *)
Definition finish_analysis (n_valid : nat) (st : LoopState) : NewsAnalysis :=
  let analysis := ls_analysis st in
  let average := (ls_total_sentiment st / float_of_nat n_valid)%float in
  {| sentiments := sentiments analysis;
     topics := topics analysis;
     entities := entities analysis;
     keywords := fst <$> most_common 20 (ls_keyword_counter st);
     average_sentiment := average;
     sentiment_distribution := sentiment_distribution analysis;
     sources := sources analysis;
     sentiment_label := sentiment_label_of average;
     news_items := Some (fst <$> sort_desc impact_above (ls_news_items_with_sentiment st)) |}.

(** The body of the [try] block of [analyze_news_impact]. *)
Definition analyze_news_impact_body (news_items : list NewsItem) : py NewsAnalysis :=
  match news_items with
  | [] => Ret _get_empty_news_analysis
  | _ =>
      let valid := valid_news_items news_items in
      match valid with
      | [] => Ret _get_empty_news_analysis
      | _ =>
          st ← process_items initial_state valid;
          Ret (finish_analysis (length valid) st)
      end
  end.

(** [analyze_news_impact(news_items)]: any exception yields the empty
    structure. *)
Definition analyze_news_impact (news_items : list NewsItem) : NewsAnalysis :=
  match analyze_news_impact_body news_items with
  | Ret analysis => analysis
  | Raise _ => _get_empty_news_analysis
  end.

(** ** The correlation engine (lines 383-574) *)

(** The [news_items] argument: [None], the dictionary built by
    [analyze_news_impact], or a list of raw items. *)
Inductive NewsArg : Type :=
  | NoNews
  | Analysed (analysis : NewsAnalysis)
  | RawItems (items : list NewsItem).

(** [not news_items]: a dictionary with keys is true, a list is true when it
    has an element. *)
Definition news_is_empty (news_items : NewsArg) : bool :=
  match news_items with
  | NoNews => true
  | Analysed _ => false
  | RawItems items => match items with [] => true | _ => false end
  end.

Record Counts : Type := {
  total : nat;
  c_negative : nat;
  c_neutral : nat;
  c_positive : nat
}.

Definition zero_counts : Counts :=
  {| total := 0; c_negative := 0; c_neutral := 0; c_positive := 0 |}.

Record CorrelationRow : Type := {
  date : string;
  price : float;
  total_news : nat;
  negative_news : nat;
  neutral_news : nat;
  positive_news : nat
}.

Record CorrelationResult : Type := {
  correlation_coefficient : option float;
  days_analyzed : nat;
  data : list CorrelationRow;
  error : option string
}.

(** [c in s] for a character, and [s.split(c)[0]]. *)
Fixpoint has_char (c : ascii) (s : string) : bool :=
  match s with
  | EmptyString => false
  | String x s' => Ascii.eqb x c || has_char c s'
  end.

Fixpoint before_char (c : ascii) (s : string) : string :=
  match s with
  | EmptyString => EmptyString
  | String x s' => if Ascii.eqb x c then EmptyString else String x (before_char c s')
  end.

(** Lines 438-447: the date of a timestamp, when it has one. *)
Definition date_of (timestamp : string) : option string :=
  let date_str :=
    if has_char " " timestamp then before_char " " timestamp
    else if has_char "T" timestamp then before_char "T" timestamp
    else String.substring 0 10 timestamp in
  if (String.length date_str <? 10)%nat then None else Some date_str.

(** Lines 457-462 and 500-505. *)
Definition count_sentiment (sentiment : float) (c : Counts) : Counts :=
  if (sentiment <? -0.1)%float then
    {| total := total c; c_negative := S (c_negative c);
       c_neutral := c_neutral c; c_positive := c_positive c |}
  else if (0.1 <? sentiment)%float then
    {| total := total c; c_negative := c_negative c;
       c_neutral := c_neutral c; c_positive := S (c_positive c) |}
  else
    {| total := total c; c_negative := c_negative c;
       c_neutral := S (c_neutral c); c_positive := c_positive c |}.

Definition count_total (c : Counts) : Counts :=
  {| total := S (total c); c_negative := c_negative c;
     c_neutral := c_neutral c; c_positive := c_positive c |}.

(** The body shared by the two loops once the date and the score are known:
    create the entry of the date, count the item, count its sentiment. *)
Definition add_news (date_str : string) (sentiment : float)
    (news_by_date : gmap string Counts) : gmap string Counts :=
  let entry := default zero_counts (news_by_date !! date_str) in
  <[date_str := count_sentiment sentiment (count_total entry)]> news_by_date.

(** The date and score the first loop reads from an entry of
    [news_items['sentiments']]. *)
Definition dated_of_sentiment (item : SentimentItem) : option (string * float) :=
  date_str ← date_of (si_timestamp item);
  Some (date_str, si_sentiment item).

(** The date and score the second loop reads from a raw item: the item's
    own score when it has one, the scorer's otherwise, 0 when the scorer
    raises. *)
Definition dated_of_raw (item : NewsItem) : option (string * float) :=
  timestamp ← ni_timestamp item;
  date_str ← date_of timestamp;
  let sentiment :=
    match ni_sentiment item with
    | Some sentiment => sentiment
    | None =>
        match polarity (content_of item) with
        | Ret sentiment => sentiment
        | Raise _ => 0%float
        end
    end in
  Some (date_str, sentiment).

(** The items the loops count, in order, each with its date and score. *)
Definition dated_news (news_items : NewsArg) : list (string * float) :=
  match news_items with
  | NoNews => []
  | Analysed analysis => omap dated_of_sentiment (sentiments analysis)
  | RawItems items => omap dated_of_raw items
  end.

(** Lines 427-507. *)
Definition group_news_by_date (news_items : NewsArg) : gmap string Counts :=
  fold_left (λ news_by_date ds, add_news ds.1 ds.2 news_by_date)
            (dated_news news_items) ∅.

(** Lines 412-421: week, else month, else year. *)
Definition nonempty_frame (data : gmap string DataFrame) (timeframe : string)
    : option DataFrame :=
  match data !! timeframe with
  | Some df => if df_empty df then None else Some df
  | None => None
  end.

Definition select_price_data (data : gmap string DataFrame) : option DataFrame :=
  match nonempty_frame data "week" with
  | Some df => Some df
  | None =>
      match nonempty_frame data "month" with
      | Some df => Some df
      | None => nonempty_frame data "year"
      end
  end.

(** Lines 514-532: one row per selected price row. *)
Definition news_row (news_by_date : gmap string Counts) (date : string) (price : float)
    : CorrelationRow :=
  let news_counts := default zero_counts (news_by_date !! date) in
  {| date := date;
     price := price;
     total_news := total news_counts;
     negative_news := c_negative news_counts;
     neutral_news := c_neutral news_counts;
     positive_news := c_positive news_counts |}.

Definition correlation_row (price_data : DataFrame) (news_by_date : gmap string Counts)
    (i : nat) (date : string) : py CorrelationRow :=
  close ← getitem price_data "Close";
  price ← iloc close i;
  Ret (news_row news_by_date date price).

Fixpoint correlation_rows (price_data : DataFrame) (news_by_date : gmap string Counts)
    (i : nat) (dates : list string) : py (list CorrelationRow) :=
  match dates with
  | [] => Ret []
  | date :: rest =>
      row ← correlation_row price_data news_by_date i date;
      rows ← correlation_rows price_data news_by_date (S i) rest;
      Ret (row :: rows)
  end.

(** [set(prices)]: one representative per class of [==]; a NaN equals
    nothing, so each NaN stays. *)
Definition float_set (prices : list float) : list float :=
  fold_left (λ seen x, if existsb (λ y, (y =? x)%float) seen then seen else (seen ++ [x])%list)
            prices [].

(** [sum(counts)] *)
Definition nat_sum (counts : list nat) : nat := foldr Nat.add 0 counts.

(** Lines 548-559, the handler's own computation.  [sum] over floats is the
    left-to-right sum; [x ** 2] and [x ** 0.5] are the C library's [pow]. *)
Definition mean_price (prices : list float) : float :=
  (float_sum prices / float_of_nat (length prices))%float.

Definition mean_news (neg_news_counts : list nat) : float :=
  (float_of_nat (nat_sum neg_news_counts) / float_of_nat (length neg_news_counts))%float.

Definition numerator (prices : list float) (neg_news_counts : list nat) : float :=
  float_sum (zip_with (λ p n, ((p - mean_price prices)
                               * (float_of_nat n - mean_news neg_news_counts))%float)
                      prices neg_news_counts).

Definition denom_price (prices : list float) : float :=
  float_sum ((λ p, float_pow (p - mean_price prices) 2) <$> prices).

Definition denom_news (neg_news_counts : list nat) : float :=
  float_sum ((λ n, float_pow (float_of_nat n - mean_news neg_news_counts) 2)
             <$> neg_news_counts).

Definition manual_pearson (prices : list float) (neg_news_counts : list nat)
    : option float :=
  if Nat.eqb (length prices) (length neg_news_counts) && (0 <? length prices)%nat then
    if (0 <? denom_price prices)%float && (0 <? denom_news neg_news_counts)%float then
      Some (numerator prices neg_news_counts
            / float_pow (denom_price prices * denom_news neg_news_counts) 0.5)%float
    else None
  else None.

(** Lines 534-559. *)
Definition coefficient_of (prices : list float) (neg_news_counts : list nat)
    : option float :=
  if (2 <=? length prices)%nat then
    if (1 <? length (float_set prices))%nat && (0 <? nat_sum neg_news_counts)%nat then
      match corrcoef prices neg_news_counts with
      | Ret correlation_coef =>
          Some (if is_nan correlation_coef then 0%float else correlation_coef)
      | Raise _ => manual_pearson prices neg_news_counts
      end
    else None
  else None.

Definition error_result (message : string) : CorrelationResult :=
  {| correlation_coefficient := None; days_analyzed := 0; data := [];
     error := Some message |}.

(** The body of the [try] block. *)
Definition correlation_body (security_data : option SecurityData) (news_items : NewsArg)
    : py CorrelationResult :=
  match security_data ≫= sd_data with
  | None => Ret (error_result "No security data available")
  | Some frames =>
    if news_is_empty news_items then Ret (error_result "No news items available") else
    match select_price_data frames with
    | None => Ret (error_result "No historical price data available")
    | Some price_data =>
      let days_to_analyze := min 10 (df_len price_data) in
      let price_data := df_tail days_to_analyze price_data in
      let news_by_date := group_news_by_date news_items in
      correlation_data ← correlation_rows price_data news_by_date 0 (index price_data);
      let prices := price <$> correlation_data in
      let neg_news_counts := negative_news <$> correlation_data in
      Ret {| correlation_coefficient := coefficient_of prices neg_news_counts;
             days_analyzed := length correlation_data;
             data := correlation_data;
             error := None |}
    end
  end.

(** [compute_price_news_correlation(security_data, news_items)] *)
Definition compute_price_news_correlation (security_data : option SecurityData)
    (news_items : NewsArg) : py CorrelationResult :=
  try_except (correlation_body security_data news_items)
    (λ e, Ret (error_result ("Error in correlation calculation: " ++ str_exn e))).

(** *** Vocabulary of the statements about the correlation engine *)

(** The class the engine counts a score in. *)
Definition news_class (sentiment : float) : string :=
  if (sentiment <? -0.1)%float then "negative"
  else if (0.1 <? sentiment)%float then "positive"
  else "neutral".

(** The number of counted items of a date, and of a date and a class. *)
Definition count_date (d : string) (dated : list (string * float)) : nat :=
  length (filter (λ ds, ds.1 = d) dated).

Definition count_class (d cls : string) (dated : list (string * float)) : nat :=
  length (filter (λ ds, ds.1 = d ∧ news_class ds.2 = cls) dated).

(** The row of a price when no news is counted on its date. *)
Definition zero_row (date : string) (price : float) : CorrelationRow :=
  {| date := date; price := price; total_news := 0; negative_news := 0;
     neutral_news := 0; positive_news := 0 |}.


(** *** Vocabulary of the statements about the classifier *)

(** The scores of a list of items, when the scorer returns on each. *)
Fixpoint scores_of (items : list NewsItem) : py (list float) :=
  match items with
  | [] => Ret []
  | item :: rest =>
      sc ← polarity (content_of item);
      scs ← scores_of rest;
      Ret (sc :: scs)
  end.

(** The words the loop feeds to the counter, in order. *)
Fixpoint word_stream (items : list NewsItem) : list string :=
  match items with
  | [] => []
  | item :: rest => filtered_words (content_of item) ++ word_stream rest
  end.

(** The position of the first occurrence of [w] (the length when absent). *)
Fixpoint first_index (w : string) (ws : list string) : nat :=
  match ws with
  | [] => 0
  | x :: rest => if String.eqb x w then 0 else S (first_index w rest)
  end.

(** The number of occurrences of [w]. *)
Definition occurrences (w : string) (ws : list string) : nat :=
  length (filter (λ x, x = w) ws).

(** [a] ranks before [b]: more frequent, or as frequent and met first. *)
Definition ranks_before (ws : list string) (a b : string) : Prop :=
  occurrences b ws < occurrences a ws
  ∨ (occurrences a ws = occurrences b ws ∧ first_index a ws < first_index b ws).

(** The order of two counter entries, read on their keys; an entry is
    [counted] when its number is the number of occurrences of its key. *)
Definition entry_ranks (ws : list string) (a b : string * nat) : Prop :=
  ranks_before ws a.1 b.1.

Definition counted (ws : list string) (e : string * nat) : Prop :=
  e.2 = occurrences e.1 ws.

(** A lowercase word: a letter, then letters or hyphens, none in upper
    case. *)
Definition word_chars (chars : list ascii) : Prop :=
  match chars with
  | c0 :: body =>
      is_letter c0 = true ∧ Forall (λ c, is_body c = true) body
  | [] => False
  end.

(** A character that separates words: no word character and no hyphen. *)
Definition is_separator (c : ascii) : bool := negb (is_word c) && negb (is_body c).

(** A word of the view [s]: a run [w] of at least [n] letters that stands
    between separators or ends of the text. *)
Definition word_of_view (n : nat) (w s : list ascii) : Prop :=
  ∃ pre post,
    s = (pre ++ w ++ post)%list
    ∧ Forall (λ c, is_letter c = true) w ∧ (n ≤ length w)%nat
    ∧ from_option is_separator true (last pre) = true
    ∧ from_option is_separator true (head post) = true.

(** A text without a capital of ASCII, as every [s.lower()] is. *)
Definition no_capital (s : string) : Prop :=
  Forall (λ c, in_range "A" "Z" c = false) (list_ascii_of_string s).

Definition is_lower_word (w : string) : Prop :=
  word_chars (list_ascii_of_string w)
  ∧ Forall (λ c, in_range "A" "Z" c = false) (list_ascii_of_string w).

(** The distinct words of a stream, in the order they are first met. *)
Definition distinct_add (w : string) (seen : list string) : list string :=
  if str_in w seen then seen else seen ++ [w].

Definition distinct (ws : list string) : list string :=
  fold_left (λ seen w, distinct_add w seen) ws [].

(** The keyword list as the specification words it: the same counting and
    ranking, over the words of at least 3 letters. *)
Definition keeps_word_claimed (w : string) : bool :=
  (3 <=? String.length w)%nat && negb (str_in w stop_words).

Fixpoint word_stream_claimed (items : list NewsItem) : list string :=
  match items with
  | [] => []
  | item :: rest =>
      filter (λ w, keeps_word_claimed w = true)
             (re_findall_words (py_lower (content_of item)))
      ++ word_stream_claimed rest
  end.

Definition keywords_claimed (news_items : list NewsItem) : list string :=
  fst <$> most_common 20
            (counter_update [] (word_stream_claimed (valid_news_items news_items))).

(** ** Concrete readings and inputs for Part III

    Part III evaluates the theorems at concrete inputs; the library routines
    are read there by these plain definitions (NaN entries are skipped, as
    pandas' reductions do by default). *)

Definition ref_series_sum (col : list float) : float :=
  fold_left (λ a x, if is_nan x then a else (a + x)%float) col 0%float.

Definition ref_series_max (col : list float) : float :=
  fold_left (λ a x, if is_nan x then a else if is_nan a then x
                    else if (a <? x)%float then x else a) col nan.

Definition ref_series_min (col : list float) : float :=
  fold_left (λ a x, if is_nan x then a else if is_nan a then x
                    else if (x <? a)%float then x else a) col nan.

Definition frame (dates : list string) (cols : list (string * list float)) : DataFrame :=
  {| index := dates; columns := list_to_map cols |}.

(** One intraday bar: open 100, close 97. *)
Definition today_100_97 : DataFrame :=
  frame ["2025-04-11"]
        [("Open", [100%float]); ("High", [101%float]); ("Low", [96%float]);
         ("Close", [97%float]); ("Volume", [1000%float])].

(** One intraday bar that closes where it opened. *)
Definition today_flat : DataFrame :=
  frame ["2025-04-11"]
        [("Open", [50%float]); ("High", [51%float]); ("Low", [49%float]);
         ("Close", [50%float]); ("Volume", [1000%float])].

Definition security_with (frames : list (string * DataFrame)) : SecurityData :=
  {| sd_data := Some (list_to_map frames); sd_stats := None |}.

(** Readings of the pandas windows: a window is defined from its [w]-th row
    on (NaN before), the deviation is the sample one, and the exponential
    mean is the recursive one ([adjust=False]) with [alpha = 2 / (span + 1)]. *)
Definition window_at (w i : nat) (col : list float) : list float :=
  take w (drop (i + 1 - w) col).

Definition ref_rolling_mean (w : nat) (col : list float) : list float :=
  imap (λ i _, if (i + 1 <? w)%nat then nan
               else (float_sum (window_at w i col) / float_of_nat w)%float) col.

Definition ref_rolling_std (w : nat) (col : list float) : list float :=
  imap (λ i _, if (i + 1 <? w)%nat then nan
               else
                 let win := window_at w i col in
                 let m := (float_sum win / float_of_nat w)%float in
                 sqrt (float_sum ((λ x, (x - m) * (x - m))%float <$> win)
                       / float_of_nat (w - 1))%float) col.

Definition ref_ewm_mean (span : nat) (col : list float) : list float :=
  let alpha := (2 / float_of_nat (span + 1))%float in
  match col with
  | [] => []
  | x0 :: rest =>
      reverse (fold_left (λ acc x,
                 match acc with
                 | y :: _ => ((1 - alpha) * y + alpha * x)%float :: acc
                 | [] => [x]
                 end) rest [x0])
  end.

(** Ten hourly bars of the week; and the same rows without their closing
    column. *)
Definition ten_days : list string :=
  ["2025-04-01"; "2025-04-02"; "2025-04-03"; "2025-04-04"; "2025-04-07";
   "2025-04-08"; "2025-04-09"; "2025-04-10"; "2025-04-11"; "2025-04-14"].

Definition ten_closes : list float :=
  [100; 101; 99; 102; 103; 101; 104; 105; 103; 106]%float.

Definition week_ten : DataFrame := frame ten_days [("Close", ten_closes)].

Definition week_no_close : DataFrame := frame ten_days [("Open", ten_closes)].

Definition week_nine : DataFrame :=
  frame (take 9 ten_days) [("Close", take 9 ten_closes)].

(** A scorer and a clock for the examples: the score depends on a few
    marker words of the text. *)
Definition ref_polarity (text : string) : py float :=
  if contains "surges" text then Ret 0.5%float
  else if contains "edges up" text then Ret 0.2%float
  else if contains "gains" text then Ret 0.25%float
  else if contains "dips" text then Ret (-0.15)%float
  else if contains "slips" text then Ret (-0.2)%float
  else if contains "plunges" text then Ret (-0.5)%float
  else Ret 0%float.

Definition ref_clock (i : nat) : string := "2025-04-14 09:30:00".

Definition headline (title : string) (timestamp : string) : NewsItem :=
  {| ni_title := Some title; ni_summary := None; ni_source := None; ni_url := None;
     ni_timestamp := Some timestamp; ni_entities := None; ni_sentiment := None |}.

Definition tax_news : list NewsItem :=
  [headline "Tax cut lifts retail stocks as tax debate ends" "2025-04-14 08:00:00"].

Definition boundary_news : list NewsItem :=
  [headline "Acme edges up" "2025-04-14 08:00:00";
   headline "Acme gains" "2025-04-14 08:05:00";
   headline "Acme slips" "2025-04-14 08:10:00";
   headline "Acme plunges" "2025-04-14 08:15:00"].

(** [numpy.clip(c, -1, 1)], the last step of [numpy.corrcoef]. *)
Definition clip_unit (c : float) : float :=
  if (c <? -1)%float then (-1)%float else if (1 <? c)%float then 1%float else c.

(** A reading of [numpy.corrcoef]: the Pearson quotient clipped to [-1, 1]
    (NaN when a variance is zero). *)
Definition ref_corrcoef (prices : list float) (neg_news_counts : list nat) : py float :=
  let square := λ x : float, (x * x)%float in
  let var_price := float_sum ((λ p, square (p - mean_price prices)%float) <$> prices) in
  let var_news :=
    float_sum ((λ n, square (float_of_nat n - mean_news neg_news_counts)%float)
               <$> neg_news_counts) in
  Ret (clip_unit (numerator prices neg_news_counts / sqrt (var_price * var_news))).

(** A reading of [pow] at the two exponents the code uses, by the correctly
    rounded square and square root; the C library's [pow] may differ from it
    in the last place. *)
Definition ref_pow (x y : float) : float :=
  if (y =? 2)%float then (x * x)%float
  else if (y =? 0.5)%float then sqrt x
  else nan.

(** Readings of the two Unicode routines for the inputs below, whose texts
    are ASCII: no character is lowered but A to Z, and the letters of
    Latin-1 (U+00C0 to U+00FF but the signs U+00D7 and U+00F7) are the word
    characters outside ASCII. *)
Definition ref_unicode_lower (s : string) : string :=
  string_of_list_ascii (lower_char <$> list_ascii_of_string s).

Definition ref_unicode_word (code_point : list ascii) : bool :=
  match code_point with
  | [lead; cont] =>
      Ascii.eqb lead "195"
      && in_range "128" "191" cont
      && negb (Ascii.eqb cont "151") && negb (Ascii.eqb cont "183")
  | _ => false
  end.

Definition week_two : DataFrame :=
  frame ["2025-04-11"; "2025-04-14"] [("Close", [61.32; 167.01]%float)].

Definition dip_news : list NewsItem :=
  [headline "Acme dips" "2025-04-14 08:00:00"].


(** A reading of [strptime] that knows one string; and a cache with an entry
    stamped by a datetime, one stamped by that string, and one stamped by a
    string that does not parse.  Instants are microseconds since the epoch;
    09:00:00 on 2025-04-14 is [t0]. *)
Definition t0 : Z := 1744621200000000.

Definition ref_strptime (s : string) : py Z :=
  if String.eqb s "2025-04-14 09:00:00" then Ret t0 else Raise ValueError.

Definition example_cache : gmap string (cache_time * string) :=
  list_to_map [("AAPL_security_20250414_09", (CacheDatetime t0, "aapl"));
               ("MSFT_security_20250414_09", (CacheStr "2025-04-14 09:00:00", "msft"));
               ("TSLA_security_20250414_09", (CacheStr "yesterday", "tsla"))].

(** ** The price history of a security (lines 147-169) *)

(** The timeframes and the parameters of their requests, in the order of
    the loop. *)
Definition timeframes : list (string * (string * string)) :=
  [("today", ("1d", "5m")); ("week", ("5d", "1h"));
   ("month", ("1mo", "1d")); ("year", ("1y", "1d"))].

(** One turn of the loop: the frame stored for a timeframe.  [history] is
    [security.history(period=..., interval=...)]: the frame, or the exception
    the request raises. *)
Definition fetch_frame (history : string → string → py DataFrame)
    (params : string * string) : DataFrame :=
  match history params.1 params.2 with
  | Ret df => if df_empty df then pd_DataFrame else df
  | Raise _ => pd_DataFrame
  end.

(** [_get_historical_data(security)] *)
Definition _get_historical_data (history : string → string → py DataFrame)
    : gmap string DataFrame :=
  fold_left (λ data tp, <[tp.1 := fetch_frame history tp.2]> data) timeframes ∅.

(** ** The key statistics (lines 171-182) *)

(** [info.get(key)]: the value, [None] for a key that is absent or holds
    [None]. *)
Definition info_get (info : gmap string (option float)) (key : string) : option float :=
  default None (info !! key).

(** [_calculate_statistics(info)], on the numeric entries of [info]. *)
Definition _calculate_statistics (info : gmap string (option float))
    : gmap string (option float) :=
  list_to_map
    [("Market Cap", info_get info "marketCap");
     ("PE Ratio", info_get info "trailingPE");
     ("EPS", info_get info "trailingEps");
     ("Dividend Yield", info_get info "dividendYield");
     ("52 Week High", info_get info "fiftyTwoWeekHigh");
     ("52 Week Low", info_get info "fiftyTwoWeekLow");
     ("Average Volume", info_get info "averageVolume");
     ("Beta", info_get info "beta")].

(** ** The other paragraphs of the narrative (lines 856-970) *)

(** The dictionary [analyze_security] returns, by the keys the paragraphs
    read: ['data'] and ['stats'] as before; [info.get('sector')];
    ['sector_context'], a sector's percent change by sector name;
    ['market_context'], in the order of the dictionary, with each value
    read as the paragraphs read it: its ['change_pct'] when it is a
    dictionary that has one, [None] otherwise; and ['technical_analysis'].
    A key that is absent is [None]. *)
Record Analysis : Type := {
  an_security : SecurityData;
  an_sector : option string;
  an_sector_context : option (gmap string float);
  an_market_context : option (list (string * option float));
  an_technical_analysis : option TechnicalAnalysis
}.

(** [sep.join(parts)] *)
Fixpoint join (sep : string) (parts : list string) : string :=
  match parts with
  | [] => ""
  | [p] => p
  | p :: rest => p ++ sep ++ join sep rest
  end.

(** *** The indicator paragraph (lines 928-970) *)

(** [not tech_analysis]: the dictionary has no key. *)
Definition bundle_is_empty (b : TechnicalAnalysis) : bool :=
  match ta_sma b, ta_rsi b, ta_rsi_signal b, ta_macd b, ta_macd_signal b,
        ta_macd_histogram b, ta_bollinger b, ta_signals b with
  | None, None, None, None, None, None, None, None => true
  | _, _, _, _, _, _, _, _ => false
  end.

(** [signals.items()]: the four entries of the aggregate. *)
Definition signal_values (signals : Signals) : list string :=
  [sig_sma signals; sig_rsi signals; sig_macd signals; sig_bollinger signals].

(** [sum(1 for signal, value in signals.items() if value == word)] *)
Definition count_signal (word : string) (signals : Signals) : nat :=
  length (filter (λ value, value = word) (signal_values signals)).

Definition signal_summary_of (signals : Signals) : string :=
  let buy_signals := count_signal "buy" signals in
  let sell_signals := count_signal "sell" signals in
  let neutral_signals := count_signal "neutral" signals in
  if (sell_signals <? buy_signals)%nat && (neutral_signals <? buy_signals)%nat
  then "bullish"
  else if (buy_signals <? sell_signals)%nat && (neutral_signals <? sell_signals)%nat
  then "bearish"
  else "neutral".

Definition rsi_desc_of (rsi : float) : string :=
  if (70 <? rsi)%float then "overbought"
  else if (rsi <? 30)%float then "oversold" else "neutral".

Definition macd_desc_of (macd : float) : string :=
  if (0 <? macd)%float then "bullish" else "bearish".

Definition key_indicators_of (tech_analysis : TechnicalAnalysis) : list string :=
  let rsi_indicator :=
    match ta_rsi tech_analysis with
    | Some rsi => ["RSI is " ++ format_1f rsi ++ " (" ++ rsi_desc_of rsi ++ ")"]
    | None => []
    end in
  let macd_indicator :=
    match ta_macd tech_analysis with
    | Some macd => ["MACD is " ++ macd_desc_of macd]
    | None => []
    end in
  (rsi_indicator ++ macd_indicator)%list.

Definition technical_summary_text (signal_summary : string)
    (key_indicators : list string) : string :=
  "Technical Analysis: Technical indicators are showing " ++ signal_summary
  ++ " signals."
  ++ match key_indicators with
     | [] => ""
     | _ => " " ++ join ", " key_indicators ++ "."
     end.

(** [_generate_technical_summary(security_data)].  No operation of the body
    raises on a bundle, so the handler of its [try] is not reached. *)
Definition _generate_technical_summary (security_data : Analysis) : option string :=
  match an_technical_analysis security_data with
  | None => None
  | Some tech_analysis =>
      if bundle_is_empty tech_analysis then None else
      match ta_signals tech_analysis with
      | Some signals =>
          Some (technical_summary_text (signal_summary_of signals)
                                       (key_indicators_of tech_analysis))
      | None => None
      end
  end.

(** *** The market paragraph (lines 856-891) *)

(** The entries the loop lists: the values that are dictionaries with a
    ['change_pct']. *)
Definition listed_indices (context : list (string * option float))
    : list (string * float) :=
  omap (λ entry, match entry.2 with
                 | Some change => Some (entry.1, change)
                 | None => None
                 end) context.

Definition index_direction (change : float) : string :=
  if (0 <? change)%float then "up" else "down".

Definition index_perf (entry : string * float) : string :=
  entry.1 ++ " is " ++ index_direction entry.2 ++ " " ++ format_2f (abs entry.2) ++ "%".

Definition up_count (context : list (string * option float)) : nat :=
  length (filter (λ entry, (0 <? entry.2)%float = true) (listed_indices context)).

Definition down_count (context : list (string * option float)) : nat :=
  length (filter (λ entry, (entry.2 <? 0)%float = true) (listed_indices context)).

Definition market_mood (context : list (string * option float)) : string :=
  if (down_count context <? up_count context)%nat
  then " The broader market is showing positive momentum today."
  else if (up_count context <? down_count context)%nat
  then " The broader market is trending lower today."
  else " Market sentiment is mixed today.".

(** [_generate_market_context(security_data)].  No operation of the body
    raises on these values. *)
Definition _generate_market_context (security_data : Analysis) : option string :=
  match an_market_context security_data with
  | None => None
  | Some context =>
      match context with
      | [] => None
      | _ =>
          let indices_perf := index_perf <$> listed_indices context in
          match indices_perf with
          | [] => None
          | _ => Some ("Market Context: " ++ join ", " indices_perf ++ "."
                       ++ market_mood context)
          end
      end
  end.

(** *** The sector paragraph (lines 893-926) *)

(** [if sector and sector in sector_context]: the sector's change. *)
Definition sector_perf_of (security_data : Analysis) (sector_context : gmap string float)
    : option (string * float) :=
  match an_sector security_data with
  | Some sector =>
      if String.eqb sector "" then None
      else match sector_context !! sector with
           | Some sector_perf => Some (sector, sector_perf)
           | None => None
           end
  | None => None
  end.

(** Lines 916-920: the stock against its sector. *)
Definition sector_relative (price_change_pct sector_perf : float) : string :=
  if ((0 <? price_change_pct)%float && (0 <? sector_perf)%float)
     || ((price_change_pct <? 0)%float && (sector_perf <? 0)%float)
  then " The stock is "
       ++ (if (abs sector_perf <? abs price_change_pct)%float
           then "outperforming" else "underperforming")
       ++ " its sector."
  else " The stock is moving contrary to its sector today.".

(** Lines 909-920: the comparison, when the frame of the day has rows. *)
Definition sector_comparison (security_data : Analysis) (sector_perf : float)
    : py string :=
  match sd_data (an_security security_data) with
  | None => Ret ""
  | Some data =>
      match data !! "today" with
      | None => Ret ""
      | Some today_data =>
          if df_empty today_data then Ret "" else
          close ← getitem today_data "Close";
          current_price ← iloc_last close;
          open ← getitem today_data "Open";
          open_price ← iloc_first open;
          let price_change_pct :=
            ((current_price - open_price) / open_price * 100)%float in
          Ret (sector_relative price_change_pct sector_perf)
      end
  end.

(** Lines 904-906: the sentence on the sector. *)
Definition sector_headline (sector : string) (sector_perf : float) : string :=
  let direction := if (0 <? sector_perf)%float then "up" else "down" in
  "Sector Performance: The " ++ sector ++ " sector is " ++ direction
  ++ " " ++ format_2f (abs sector_perf) ++ "% today.".

Definition sector_summary_body (security_data : Analysis) : py (option string) :=
  match an_sector_context security_data with
  | None => Ret None
  | Some sector_context =>
      if bool_decide (sector_context = ∅) then Ret None else
      match sector_perf_of security_data sector_context with
      | Some (sector, sector_perf) =>
          let summary := sector_headline sector sector_perf in
          comparison ← sector_comparison security_data sector_perf;
          Ret (Some (summary ++ comparison))
      | None => Ret None
      end
  end.

(** [_generate_sector_summary(security_data)]:
    [try: ... except Exception: return None]. *)
Definition _generate_sector_summary (security_data : Analysis) : py (option string) :=
  try_except (sector_summary_body security_data) (λ _, Ret None).

(** ** More inputs for Part III *)

(** A security whose every request fails, and one whose week request fails
    while the month request returns ten rows. *)
Definition history_unavailable (period interval : string) : py DataFrame :=
  Raise (LibraryError "No data found, symbol may be delisted").

Definition history_month_only (period interval : string) : py DataFrame :=
  if String.eqb period "1mo" then Ret week_ten
  else Raise (LibraryError "No data found, symbol may be delisted").

(** The day of [today_100_97] with an average volume of 500 on record. *)
Definition security_with_volume : SecurityData :=
  {| sd_data := Some (list_to_map [("today", today_100_97)]);
     sd_stats := Some (_calculate_statistics {[ "averageVolume" := Some 500%float ]}) |}.

(** The analysis of a security of the given sector, from frames, a sector
    change, a market context and a bundle. *)
Definition analysis_with (frames : list (string * DataFrame)) (sector : string)
    (sector_change : float) (context : list (string * option float))
    (bundle : option TechnicalAnalysis) : Analysis :=
  {| an_security := security_with frames;
     an_sector := Some sector;
     an_sector_context := Some {[ sector := sector_change ]};
     an_market_context := Some context;
     an_technical_analysis := bundle |}.

(** A day on which the stock loses 3 percent. *)
Definition falling_day : Analysis :=
  analysis_with [("today", today_100_97)] "Technology" (-1)%float
                [("S&P 500", Some (-0.5)%float); ("VIX", Some 0%float)] None.

(** A reading of Python's fixed-point [format(x, '.Nf')]: the exact binary
    value, rounded to [digits] decimals with ties to even. *)
Definition digit_char (d : Z) : ascii := ascii_of_nat (48 + Z.to_nat d).

Fixpoint decimal_digits (fuel : nat) (n : Z) (acc : string) : string :=
  match fuel with
  | O => acc
  | S fuel' =>
      let acc' := String (digit_char (n mod 10)) acc in
      if (n / 10 =? 0)%Z then acc' else decimal_digits fuel' (n / 10) acc'
  end.

Definition string_of_Z (n : Z) : string :=
  decimal_digits (S (Z.to_nat (Z.log2 n))) n "".

Fixpoint fraction_digits (digits : nat) (n : Z) (acc : string) : string :=
  match digits with
  | O => acc
  | S digits' => fraction_digits digits' (n / 10) (String (digit_char (n mod 10)) acc)
  end.

Definition round_half_even (num den : Z) : Z :=
  let q := (num / den)%Z in
  let r := (num mod den)%Z in
  if (2 * r <? den)%Z then q
  else if (den <? 2 * r)%Z then (q + 1)%Z
  else if Z.even q then q else (q + 1)%Z.

Definition fixed_point (digits : nat) (negative : bool) (n : Z) : string :=
  let scale := (10 ^ Z.of_nat digits)%Z in
  (if negative then "-" else "")
  ++ string_of_Z (n / scale)
  ++ match digits with
     | O => ""
     | _ => String "." (fraction_digits digits (n mod scale) "")
     end.

Definition ref_format_fixed (digits : nat) (x : float) : string :=
  match Prim2SF x with
  | S754_nan => "nan"
  | S754_infinity negative => if negative then "-inf" else "inf"
  | S754_zero negative => fixed_point digits negative 0
  | S754_finite negative m e =>
      let scale := (10 ^ Z.of_nat digits)%Z in
      let n := if (0 <=? e)%Z then (Z.pos m * 2 ^ e * scale)%Z
               else round_half_even (Z.pos m * scale) (2 ^ (- e)) in
      fixed_point digits negative n
  end.

Definition ref_format_2f : float → string := ref_format_fixed 2.
Definition ref_format_1f : float → string := ref_format_fixed 1.

(** * Part II: properties of the embedding *)

Local Open Scope list_scope.
Local Open Scope nat_scope.

(** ** Order facts on binary64 values *)

Lemma SFcompare_rank f g :
  SFcompare f g =
    match rank f, rank g with
    | Some a, Some b => Some (lex_compare a b)
    | _, _ => None
    end.
Proof.
  destruct f as [[]|[]| |[] m1 e1], g as [[]|[]| |[] m2 e2]; simpl; try reflexivity.
  rewrite Z.compare_opp, (Z.compare_antisym e1 e2).
  destruct (e1 ?= e2)%Z; reflexivity.
Qed.

Lemma lex_compare_Lt a1 a2 a3 b1 b2 b3 :
  lex_compare (a1, a2, a3) (b1, b2, b3) = Lt ↔
  (a1 < b1 ∨ (a1 = b1 ∧ (a2 < b2 ∨ (a2 = b2 ∧ a3 < b3))))%Z.
Proof.
  unfold lex_compare.
  destruct (Z.compare_spec a1 b1), (Z.compare_spec a2 b2), (Z.compare_spec a3 b3);
    split; intros; try discriminate; try reflexivity; lia.
Qed.

Lemma lex_compare_Eq a1 a2 a3 b1 b2 b3 :
  lex_compare (a1, a2, a3) (b1, b2, b3) = Eq ↔ (a1 = b1 ∧ a2 = b2 ∧ a3 = b3)%Z.
Proof.
  unfold lex_compare.
  destruct (Z.compare_spec a1 b1), (Z.compare_spec a2 b2), (Z.compare_spec a3 b3);
    split; intros; try discriminate; try reflexivity; lia.
Qed.

Lemma ltb_rank x y :
  (x <? y)%float = true ↔
  ∃ a b, frank x = Some a ∧ frank y = Some b ∧ lex_compare a b = Lt.
Proof.
  rewrite FloatAxioms.ltb_spec. unfold SFltb, frank. rewrite SFcompare_rank.
  destruct (rank (Prim2SF x)) as [a|], (rank (Prim2SF y)) as [b|]; split;
    try (intros; discriminate); try (intros (?&?&?&?&?); discriminate).
  - destruct (lex_compare a b) eqn:E; try discriminate. eauto.
  - intros (a'&b'&[= <-]&[= <-]&->). reflexivity.
Qed.

Lemma eqb_rank x y :
  (x =? y)%float = true ↔ ∃ a, frank x = Some a ∧ frank y = Some a.
Proof.
  rewrite FloatAxioms.eqb_spec. unfold SFeqb, frank. rewrite SFcompare_rank.
  destruct (rank (Prim2SF x)) as [[[a1 a2] a3]|], (rank (Prim2SF y)) as [[[b1 b2] b3]|];
    split; try (intros; discriminate); try (intros (?&?&?); discriminate).
  - destruct (lex_compare _ _) eqn:E; try discriminate.
    apply lex_compare_Eq in E as (->&->&->). eauto.
  - intros (a&?&?); simplify_eq.
    replace (lex_compare _ _) with Eq; [done|].
    symmetry. by apply lex_compare_Eq.
Qed.

Lemma ltb_trans x y z :
  (x <? y)%float = true → (y <? z)%float = true → (x <? z)%float = true.
Proof.
  rewrite !ltb_rank.
  intros ([[a1 a2] a3]&[[b1 b2] b3]&Hx&Hy&Hab) ([[b1' b2'] b3']&[[c1 c2] c3]&Hy'&Hz&Hbc).
  rewrite Hy in Hy'. injection Hy' as <- <- <-.
  eexists _, _. repeat split; [done..|].
  apply lex_compare_Lt in Hab, Hbc. apply lex_compare_Lt. lia.
Qed.

Lemma ltb_irrefl x : (x <? x)%float = false.
Proof.
  destruct (x <? x)%float eqn:E; [|done].
  apply ltb_rank in E as ([[a1 a2] a3]&[[b1 b2] b3]&Hx&Hy&Hab).
  rewrite Hx in Hy. injection Hy as <- <- <-.
  apply lex_compare_Lt in Hab. lia.
Qed.

Lemma ltb_asym x y : (x <? y)%float = true → (y <? x)%float = false.
Proof.
  intros H. destruct (y <? x)%float eqn:E; [|done].
  by rewrite <-(ltb_irrefl x), (ltb_trans x y x).
Qed.

(** No value lies above [hi] and below [lo] when [hi] is not below [lo]. *)
Lemma ltb_between_false lo hi x :
  (hi <? lo)%float = false → (hi <? x)%float = true → (x <? lo)%float = false.
Proof.
  intros Hhl Hx. destruct (x <? lo)%float eqn:E; [|done].
  by rewrite <-Hhl, (ltb_trans hi x lo).
Qed.





(** ** The cache *)

Lemma store_keeps_expiry self now k d :
  cache_expiry (_store_in_cache self now k d) = cache_expiry self.
Proof. reflexivity. Qed.

Lemma expiry_one_hour c : cache_expiry (with_cache c) = 3600000000%Z.
Proof. reflexivity. Qed.

Local Ltac expiry_arith :=
  cbn [cache_expiry with_cache init] in *; unfold timedelta_hours in *; lia.

Lemma get_after_store self now now' k d :
  (now' - now < cache_expiry self)%Z →
  _get_from_cache (_store_in_cache self now k d) now' k = Ret (Some d).
Proof.
  intros Hfresh. unfold _get_from_cache, _store_in_cache; simpl.
  rewrite lookup_insert_eq. by rewrite bool_decide_eq_true_2.
Qed.

Lemma get_absent self now k :
  data_cache self !! k = None → _get_from_cache self now k = Ret None.
Proof. intros H. unfold _get_from_cache. by rewrite H. Qed.

Lemma get_datetime self now k t v :
  data_cache self !! k = Some (CacheDatetime t, v) →
  _get_from_cache self now k =
    Ret (if bool_decide (now - t < cache_expiry self)%Z then Some v else None).
Proof. intros H. unfold _get_from_cache. rewrite H. by case_bool_decide. Qed.

Lemma get_string_parsed self now k s t v :
  data_cache self !! k = Some (CacheStr s, v) → strptime s = Ret t →
  _get_from_cache self now k =
    Ret (if bool_decide (now - t < cache_expiry self)%Z then Some v else None).
Proof.
  intros H Hs. unfold _get_from_cache. rewrite H, Hs; simpl.
  by case_bool_decide.
Qed.

Lemma get_string_unparsed self now k s v :
  data_cache self !! k = Some (CacheStr s, v) → strptime s = Raise ValueError →
  _get_from_cache self now k = Ret None.
Proof. intros H Hs. unfold _get_from_cache. by rewrite H, Hs. Qed.

(** C9. With the expiry fixed by the constructor (one hour), a lookup
    returns a value [v] only when the key holds [v] under a timestamp [t]
    (a datetime, or a string that parses to [t]) with [now - t] below one
    hour; an entry whose age is at least one hour reads as [None]; an entry
    whose string timestamp makes [strptime] raise [ValueError] reads as
    [None]; and in each of these cases the call returns, it does not
    raise. *)
Theorem get_from_cache_ttl (c : gmap string (cache_time * V)) (now : Z) (k : string) :
  (∀ v, _get_from_cache (with_cache c) now k = Ret (Some v) →
      ∃ ct t, c !! k = Some (ct, v) ∧ stored_time ct = Some t
              ∧ (now - t < 3600000000)%Z)
  ∧ (∀ ct v t, c !! k = Some (ct, v) → stored_time ct = Some t →
      (3600000000 ≤ now - t)%Z →
      _get_from_cache (with_cache c) now k = Ret None)
  ∧ (∀ ct v t, c !! k = Some (ct, v) → stored_time ct = Some t →
      (now - t < 3600000000)%Z →
      _get_from_cache (with_cache c) now k = Ret (Some v))
  ∧ (∀ s v, c !! k = Some (CacheStr s, v) → strptime s = Raise ValueError →
      _get_from_cache (with_cache c) now k = Ret None)
  ∧ (c !! k = None → _get_from_cache (with_cache c) now k = Ret None).
Proof.
  repeat split.
  - intros v Hget. unfold _get_from_cache in Hget; simpl in Hget.
    destruct (c !! k) as [[ct w]|] eqn:Hk; [|discriminate].
    destruct ct as [t|s]; simpl in Hget.
    + case_bool_decide; [|discriminate]. injection Hget as ->.
      exists (CacheDatetime t), t. repeat split; [done..|expiry_arith].
    + destruct (strptime s) as [t|e] eqn:Hs; simpl in Hget.
      * case_bool_decide; [|discriminate]. injection Hget as ->.
        exists (CacheStr s), t. simpl. rewrite Hs.
        repeat split; [done..|expiry_arith].
      * destruct e; discriminate.
  - intros ct v t Hk Ht Hold. destruct ct as [t'|s]; simpl in Ht.
    + injection Ht as ->. rewrite (get_datetime _ _ _ t v); [|done].
      rewrite bool_decide_eq_false_2; [done|]. expiry_arith.
    + destruct (strptime s) as [t'|] eqn:Hs; [|discriminate].
      injection Ht as ->. rewrite (get_string_parsed _ _ _ s t v); [|done..].
      rewrite bool_decide_eq_false_2; [done|]. expiry_arith.
  - intros ct v t Hk Ht Hfresh. destruct ct as [t'|s]; simpl in Ht.
    + injection Ht as ->. rewrite (get_datetime _ _ _ t v); [|done].
      rewrite bool_decide_eq_true_2; [done|]. expiry_arith.
    + destruct (strptime s) as [t'|] eqn:Hs; [|discriminate].
      injection Ht as ->. rewrite (get_string_parsed _ _ _ s t v); [|done..].
      rewrite bool_decide_eq_true_2; [done|]. expiry_arith.
  - intros s v Hk Hs. by apply (get_string_unparsed _ _ _ s v).
  - intros Hk. by apply get_absent.
Qed.


(** ** The price paragraph *)

Lemma eqb_not_ltb x y :
  (x =? y)%float = true → (x <? y)%float = false ∧ (y <? x)%float = false.
Proof.
  intros H. apply eqb_rank in H as ([[a1 a2] a3]&Hx&Hy).
  split.
  - destruct (x <? y)%float eqn:E; [|done].
    apply ltb_rank in E as (a&b&Ha&Hb&Hlt). simplify_eq.
    apply lex_compare_Lt in Hlt. lia.
  - destruct (y <? x)%float eqn:E; [|done].
    apply ltb_rank in E as (a&b&Ha&Hb&Hlt). simplify_eq.
    apply lex_compare_Lt in Hlt. lia.
Qed.

Lemma magnitude_of_cases pct :
  (magnitude_of pct = "slightly" ↔ (abs pct <? 1)%float = true)
  ∧ (magnitude_of pct = "significantly" ↔ (3 <? abs pct)%float = true)
  ∧ (magnitude_of pct = "moderately" ↔
       (abs pct <? 1)%float = false ∧ (3 <? abs pct)%float = false).
Proof.
  unfold magnitude_of.
  destruct (abs pct <? 1)%float eqn:H1.
  - assert ((3 <? abs pct)%float = false) as H3.
    { destruct (3 <? abs pct)%float eqn:E; [|done].
      by rewrite (ltb_between_false 1 3 (abs pct)) in H1. }
    rewrite H3. repeat split; try done; intros; try discriminate.
    by destruct H.
  - destruct (3 <? abs pct)%float eqn:H3; repeat split; try done;
      intros; try discriminate; by destruct H.
Qed.

Lemma direction_of_cases change :
  (direction_of change = "up" ↔ (0 <? change)%float = true)
  ∧ (direction_of change = "down" ↔ (0 <? change)%float = false).
Proof.
  unfold direction_of. destruct (0 <? change)%float; repeat split; done.
Qed.

(** When the frame of the day has its four price columns and at least one
    row, the summary is produced, from the last close and the first open. *)
Lemma price_summary_parts_some sd ticker data today c o :
  sd_data sd = Some data → data !! "today" = Some today →
  df_empty today = false →
  has_columns today ["Close"; "Open"; "High"; "Low"] →
  intraday today = Some (c, o) →
  ∃ s, price_summary_parts (Some sd) ticker = Ret (Some s)
       ∧ ps_direction s = direction_of (c - o)
       ∧ ps_magnitude s = magnitude_of ((c - o) / o * 100)
       ∧ ps_abs_change_pct s = abs ((c - o) / o * 100).
Proof.
  intros Hdata Htoday Hne Hcols Hco.
  unfold price_summary_parts, price_summary_body. rewrite Hdata, Htoday, Hne.
  unfold intraday in Hco.
  destruct (columns today !! "Close") as [close|] eqn:Hclose; [|done].
  simpl in Hco. destruct (last close) as [c'|] eqn:Hlast; [|done].
  simpl in Hco. destruct (columns today !! "Open") as [open|] eqn:Hopen; [|done].
  simpl in Hco. destruct open as [|o' open]; [done|]. simpl in Hco.
  injection Hco as -> ->.
  apply Forall_cons in Hcols as [_ Hcols]. apply Forall_cons in Hcols as [_ Hcols].
  apply Forall_cons in Hcols as [[high Hhigh] Hcols].
  apply Forall_cons in Hcols as [[low Hlow] _].
  unfold getitem, iloc_last, iloc_first, iloc.
  rewrite Hclose; simpl. rewrite Hlast; simpl. rewrite Hopen; simpl.
  rewrite Hhigh; simpl. rewrite Hlow; simpl.
  eexists. repeat split.
Qed.

Lemma intraday_some today c o :
  intraday today = Some (c, o) →
  ∃ close open, columns today !! "Close" = Some close ∧ last close = Some c
                ∧ columns today !! "Open" = Some open ∧ head open = Some o.
Proof.
  unfold intraday. intros Hco.
  destruct (columns today !! "Close") as [close|]; [|done]. simpl in Hco.
  destruct (last close) as [c'|] eqn:Hlast; [|done]. simpl in Hco.
  destruct (columns today !! "Open") as [open|]; [|done]. simpl in Hco.
  destruct (head open) as [o'|] eqn:Hhead; [|done]. simpl in Hco.
  injection Hco as -> ->. by exists close, open.
Qed.

(** The text of the paragraph, sentence by sentence (lines 801, 802 and
    812). *)
Lemma price_summary_text sd ticker data today close open high low c o :
  sd_data sd = Some data → data !! "today" = Some today →
  df_empty today = false →
  columns today !! "Close" = Some close → columns today !! "Open" = Some open →
  columns today !! "High" = Some high → columns today !! "Low" = Some low →
  last close = Some c → head open = Some o →
  _generate_price_summary (Some sd) ticker
  = Ret (Some (ticker ++ " is " ++ direction_of (c - o) ++ " "
               ++ magnitude_of ((c - o) / o * 100) ++ " by "
               ++ format_2f (abs ((c - o) / o * 100))
               ++ "% today, currently trading at $" ++ format_2f c ++ "."
               ++ " The stock opened at $" ++ format_2f o
               ++ " and has ranged from $" ++ format_2f (series_min low) ++ " to $"
               ++ format_2f (series_max high) ++ " during the session."
               ++ match
                    volume ← columns today !! "Volume";
                    stats ← sd_stats sd;
                    avg_volume ← stats !! "Average Volume";
                    volume_desc_of (series_sum volume) avg_volume
                  with
                  | Some volume_desc => " Trading volume is " ++ volume_desc ++ " average."
                  | None => ""
                  end)%string).
Proof.
  intros Hdata Htoday Hne Hclose Hopen Hhigh Hlow Hlast Hhead.
  unfold _generate_price_summary, price_summary_parts, price_summary_body.
  rewrite Hdata, Htoday, Hne.
  destruct open as [|o' open]; [done|]. injection Hhead as ->.
  unfold getitem, iloc_last, iloc_first, iloc.
  rewrite Hclose; simpl. rewrite Hlast; simpl. rewrite Hopen; simpl.
  rewrite Hhigh; simpl. rewrite Hlow; simpl.
  unfold render_price_summary; simpl.
  destruct (columns today !! "Volume") as [volume|]; [|done]; simpl.
  destruct (sd_stats sd) as [stats|]; [|done]; simpl.
  by destruct (stats !! "Average Volume") as [avg_volume|].
Qed.

(** C8. For every intraday frame with a row and its price columns, the
    paragraph is produced and reads "<ticker> is <direction> <word> by
    <change>% today, ...", where the change printed is the absolute percent
    change from the first open to the last close, and the word is "slightly"
    exactly when that change is below 1, "significantly" exactly when it is
    strictly above 3, and "moderately" otherwise; a change of exactly 3
    percent is "moderately". *)
Theorem price_summary_magnitude sd ticker data today c o :
  sd_data sd = Some data → data !! "today" = Some today →
  df_empty today = false →
  has_columns today ["Close"; "Open"; "High"; "Low"] →
  intraday today = Some (c, o) →
  let pct := abs ((c - o) / o * 100) in
  ∃ word rest,
    _generate_price_summary (Some sd) ticker
    = Ret (Some (ticker ++ " is " ++ (if (0 <? c - o)%float then "up" else "down")
                 ++ " " ++ word ++ " by " ++ format_2f pct
                 ++ "% today, currently trading at $" ++ format_2f c ++ "."
                 ++ " The stock opened at $" ++ format_2f o
                 ++ " and has ranged from $" ++ rest)%string)
    ∧ (word = "slightly" ↔ (pct <? 1)%float = true)
    ∧ (word = "significantly" ↔ (3 <? pct)%float = true)
    ∧ (word = "moderately" ↔
         (pct <? 1)%float = false ∧ (3 <? pct)%float = false)
    ∧ (pct = 3%float → word = "moderately").
Proof.
  intros Hdata Htoday Hne Hcols Hco pct.
  apply intraday_some in Hco as (close&open&Hclose&Hlast&Hopen&Hhead).
  apply Forall_cons in Hcols as [_ Hcols]. apply Forall_cons in Hcols as [_ Hcols].
  apply Forall_cons in Hcols as [[high Hhigh] Hcols].
  apply Forall_cons in Hcols as [[low Hlow] _].
  exists (magnitude_of ((c - o) / o * 100)). eexists. split.
  - rewrite (price_summary_text sd ticker data today close open high low c o)
      by done.
    reflexivity.
  - destruct (magnitude_of_cases ((c - o) / o * 100)) as (H1&H2&H3).
    split; [exact H1|]. split; [exact H2|]. split; [exact H3|].
    intros Hpct. apply H3. fold pct. rewrite Hpct. split; reflexivity.
Qed.

(** C10. For every intraday frame with a row and its price columns, the
    paragraph is produced and reads "<ticker> is <direction> ...", where the
    direction is "up" exactly when last close minus first open is strictly
    positive; it is "down" otherwise, in particular when the change is
    zero. *)
Theorem price_summary_direction sd ticker data today c o :
  sd_data sd = Some data → data !! "today" = Some today →
  df_empty today = false →
  has_columns today ["Close"; "Open"; "High"; "Low"] →
  intraday today = Some (c, o) →
  ∃ direction rest,
    _generate_price_summary (Some sd) ticker
    = Ret (Some (ticker ++ " is " ++ direction ++ " " ++ rest)%string)
    ∧ (direction = "up" ↔ (0 <? c - o)%float = true)
    ∧ (direction = "down" ↔ (0 <? c - o)%float = false)
    ∧ ((c - o =? 0)%float = true → direction = "down").
Proof.
  intros Hdata Htoday Hne Hcols Hco.
  apply intraday_some in Hco as (close&open&Hclose&Hlast&Hopen&Hhead).
  apply Forall_cons in Hcols as [_ Hcols]. apply Forall_cons in Hcols as [_ Hcols].
  apply Forall_cons in Hcols as [[high Hhigh] Hcols].
  apply Forall_cons in Hcols as [[low Hlow] _].
  exists (direction_of (c - o)). eexists. split.
  - rewrite (price_summary_text sd ticker data today close open high low c o)
      by done.
    reflexivity.
  - destruct (direction_of_cases (c - o)) as (Hup&Hdown).
    split; [exact Hup|]. split; [exact Hdown|].
    intros Hzero. apply Hdown. by apply eqb_not_ltb in Hzero as [_ ?].
Qed.

(** ** The indicator engine *)

Lemma technical_analysis_returns price_data :
  is_Ret (_get_technical_analysis price_data).
Proof.
  unfold _get_technical_analysis, is_Ret.
  destruct price_data as [data|]; [|eauto].
  destruct (data !! "week") as [week|]; [|eauto].
  destruct (df_empty week); [eauto|].
  destruct (df_len week <? 10)%nat; eauto.
Qed.

(** C7. When the week series is absent, empty, or has fewer than 10 rows,
    the indicator engine returns the empty bundle; it does not raise. *)
Theorem technical_analysis_short_series price_data :
  (∀ data week, price_data = Some data → data !! "week" = Some week →
     df_len week < 10) →
  _get_technical_analysis price_data = Ret empty_bundle.
Proof.
  intros Hshort. unfold _get_technical_analysis.
  destruct price_data as [data|]; [|done].
  destruct (data !! "week") as [week|] eqn:Hweek; [|done].
  destruct (df_empty week); [done|].
  specialize (Hshort data week eq_refl Hweek).
  by apply Nat.ltb_lt in Hshort as ->.
Qed.

Lemma aggregate_entry_spec sma rsi_signal macd_signal bollinger family :
  family ∈ families →
  aggregate_entry (aggregate_signals sma rsi_signal macd_signal bollinger) family =
    Some (default "neutral"
            (if String.eqb family "sma" then sma5_signal <$> sma
             else if String.eqb family "rsi" then rsi_signal
             else if String.eqb family "macd" then macd_signal
             else signal <$> bollinger)).
Proof.
  unfold families. rewrite !elem_of_cons, elem_of_nil.
  intros [->|[->|[->|[->|[]]]]]; reflexivity.
Qed.

(** C3 (amended). The engine always returns; a bundle that is not empty
    carries a [signals] aggregate with one entry for each of the four
    families: the family's own signal when the bundle holds that family, and
    the word "neutral" when the family's computation failed and the bundle
    does not hold it. *)
Theorem technical_signals_aggregate price_data :
  ∃ b, _get_technical_analysis price_data = Ret b
       ∧ (b = empty_bundle
          ∨ ∃ sg, ta_signals b = Some sg
                  ∧ ∀ family, family ∈ families →
                      (∀ s, family_signal b family = Some s →
                            aggregate_entry sg family = Some s)
                      ∧ (family_signal b family = None →
                            aggregate_entry sg family = Some "neutral")).
Proof.
  unfold _get_technical_analysis.
  destruct price_data as [data|]; [|by eauto].
  destruct (data !! "week") as [week|]; [|by eauto].
  destruct (df_empty week); [by eauto|].
  destruct (df_len week <? 10)%nat; [by eauto|].
  eexists. split; [reflexivity|]. right. eexists. split; [reflexivity|].
  intros family Hfam. rewrite aggregate_entry_spec by done.
  unfold family_signal; simpl.
  unfold families in Hfam. rewrite !elem_of_cons, elem_of_nil in Hfam.
  destruct Hfam as [->|[->|[->|[->|[]]]]]; simpl;
    (split; [by intros s ->|by intros ->]).
Qed.

(** ** The news classifier *)

Lemma sentiment_category_of_cases sc :
  (sentiment_category_of sc = "positive" ↔ (0.2 <? sc)%float = true)
  ∧ (sentiment_category_of sc = "negative" ↔ (sc <? -0.2)%float = true)
  ∧ (sentiment_category_of sc = "neutral" ↔
       (0.2 <? sc)%float = false ∧ (sc <? -0.2)%float = false).
Proof.
  unfold sentiment_category_of.
  destruct (0.2 <? sc)%float eqn:Hpos.
  - assert ((sc <? -0.2)%float = false) as ->
      by (by apply (ltb_between_false (-0.2) 0.2 sc)).
    split; [done|]. split; (split; [done|]); [done|by intros []].
  - destruct (sc <? -0.2)%float; split; try done;
      split; (split; [done|]); try done; by intros [].
Qed.

(** What one turn of the loop does to the variables the claims read. *)
Lemma process_item_ret st item st' :
  process_item st item = Ret st' →
  ∃ sc rec,
    polarity (content_of item) = Ret sc
    ∧ si_sentiment rec = sc
    ∧ si_sentiment_category rec = sentiment_category_of sc
    ∧ sentiments (ls_analysis st') = (sentiments (ls_analysis st) ++ [rec])%list
    ∧ ls_keyword_counter st' =
        counter_update (ls_keyword_counter st) (filtered_words (content_of item)).
Proof.
  unfold process_item. destruct (polarity (content_of item)) as [sc|e]; [|done].
  simpl. intros [= <-]. eexists sc, _. simpl.
  split; [done|]. split; [|split; [|split]].
  3: reflexivity. all: reflexivity.
Qed.

Lemma process_item_raise st item e :
  polarity (content_of item) = Raise e → process_item st item = Raise e.
Proof. intros H. unfold process_item. by rewrite H. Qed.

Lemma counter_update_app c ws1 ws2 :
  counter_update c (ws1 ++ ws2)%list = counter_update (counter_update c ws1) ws2.
Proof. unfold counter_update. by rewrite fold_left_app. Qed.

Lemma process_items_ret items : ∀ st st',
  process_items st items = Ret st' →
  ∃ recs,
    scores_of items = Ret (si_sentiment <$> recs)
    ∧ Forall (λ rec, si_sentiment_category rec
                     = sentiment_category_of (si_sentiment rec)) recs
    ∧ sentiments (ls_analysis st') = (sentiments (ls_analysis st) ++ recs)%list
    ∧ ls_keyword_counter st' =
        counter_update (ls_keyword_counter st) (word_stream items).
Proof.
  induction items as [|item rest IH]; intros st st' Hrun; simpl in Hrun.
  - injection Hrun as <-. exists []. by rewrite app_nil_r.
  - destruct (process_item st item) as [st1|e] eqn:Hstep; [|done].
    simpl in Hrun. apply process_item_ret in Hstep as (sc&rec&Hsc&Hrec&Hcat&Hsent&Hkw).
    apply IH in Hrun as (recs&Hscores&Hcats&Hsents&Hkws).
    exists (rec :: recs). simpl. rewrite Hsc; simpl. rewrite Hscores; simpl.
    repeat split.
    + by rewrite Hrec.
    + constructor; [by rewrite Hcat, Hrec|done].
    + by rewrite Hsents, Hsent, <-app_assoc.
    + rewrite Hkws, Hkw. simpl. by rewrite counter_update_app.
Qed.

Lemma process_items_scored items : ∀ st scores,
  scores_of items = Ret scores → is_Ret (process_items st items).
Proof.
  induction items as [|item rest IH]; intros st scores Hsc; simpl in *.
  - by eexists.
  - destruct (polarity (content_of item)) as [sc|] eqn:Hp; [|done]. simpl in Hsc.
    destruct (scores_of rest) as [scs|] eqn:Hrest; [|done].
    unfold process_item at 1. rewrite Hp; simpl. by eapply IH.
Qed.

(** The analysis, when the scorer returns on every valid item. *)
Lemma analyze_news_impact_scored news_items scores :
  valid_news_items news_items ≠ [] →
  scores_of (valid_news_items news_items) = Ret scores →
  ∃ recs,
    si_sentiment <$> recs = scores
    ∧ Forall (λ rec, si_sentiment_category rec
                     = sentiment_category_of (si_sentiment rec)) recs
    ∧ sentiments (analyze_news_impact news_items) = recs
    ∧ keywords (analyze_news_impact news_items) =
        fst <$> most_common 20
                  (counter_update [] (word_stream (valid_news_items news_items))).
Proof.
  intros Hne Hscores. unfold analyze_news_impact, analyze_news_impact_body.
  destruct news_items as [|item0 rest0]; [done|].
  destruct (valid_news_items (item0 :: rest0)) as [|v vs] eqn:Hvalid; [done|].
  destruct (process_items_scored (v :: vs) initial_state scores Hscores) as [st Hst].
  rewrite Hst; simpl.
  apply process_items_ret in Hst as (recs&Hsc&Hcats&Hsents&Hkws).
  exists recs. rewrite Hscores in Hsc. injection Hsc as ->.
  repeat split; [done|done|]. by rewrite Hkws.
Qed.

Lemma analyze_news_impact_categories news_items :
  Forall (λ rec, si_sentiment_category rec = sentiment_category_of (si_sentiment rec))
         (sentiments (analyze_news_impact news_items)).
Proof.
  unfold analyze_news_impact, analyze_news_impact_body.
  destruct news_items as [|item0 rest0]; [by constructor|].
  destruct (valid_news_items (item0 :: rest0)) as [|v vs]; [by constructor|].
  destruct (process_items initial_state (v :: vs)) as [st|e] eqn:Hst; simpl;
    [|by constructor].
  apply process_items_ret in Hst as (recs&_&Hcats&Hsents&_).
  by rewrite Hsents.
Qed.

(** C6. Every record of [analysis['sentiments']] is "positive" exactly when
    its score is above 0.2, "negative" exactly when its score is below -0.2
    and "neutral" otherwise; a score of exactly 0.2 or exactly -0.2 is
    "neutral".  When the scorer returns on every valid item, the records are
    those of the valid items, in order, each with the score of its item. *)
Theorem sentiment_category_boundaries news_items :
  Forall (λ rec,
      (si_sentiment_category rec = "positive" ↔ (0.2 <? si_sentiment rec)%float = true)
    ∧ (si_sentiment_category rec = "negative" ↔ (si_sentiment rec <? -0.2)%float = true)
    ∧ (si_sentiment_category rec = "neutral" ↔
         (0.2 <? si_sentiment rec)%float = false
         ∧ (si_sentiment rec <? -0.2)%float = false)
    ∧ (si_sentiment rec = 0.2%float → si_sentiment_category rec = "neutral")
    ∧ (si_sentiment rec = (-0.2)%float → si_sentiment_category rec = "neutral"))
    (sentiments (analyze_news_impact news_items))
  ∧ (∀ scores, valid_news_items news_items ≠ [] →
       scores_of (valid_news_items news_items) = Ret scores →
       si_sentiment <$> sentiments (analyze_news_impact news_items) = scores).
Proof.
  split.
  - eapply Forall_impl; [apply analyze_news_impact_categories|].
    intros rec Hcat; simpl in Hcat. rewrite Hcat.
    destruct (sentiment_category_of_cases (si_sentiment rec)) as (Hp&Hn&Hz).
    split; [exact Hp|]. split; [exact Hn|]. split; [exact Hz|].
    split; intros Heq; apply Hz; rewrite Heq; split; reflexivity.
  - intros scores Hne Hscores.
    destruct (analyze_news_impact_scored news_items scores Hne Hscores)
      as (recs&Hsc&_&Hsents&_).
    by rewrite Hsents.
Qed.

(** *** The counter and its most common keys *)

Lemma str_in_elem_of w l : str_in w l = true ↔ w ∈ l.
Proof.
  unfold str_in. rewrite existsb_exists. split.
  - intros (x&Hx&Heq). apply String.eqb_eq in Heq as ->. by apply list_elem_of_In.
  - intros H. exists w. split; [by apply list_elem_of_In|apply String.eqb_refl].
Qed.

Lemma str_in_not_elem_of w l : str_in w l = false ↔ w ∉ l.
Proof. rewrite <-str_in_elem_of. by destruct (str_in w l). Qed.

Lemma first_index_lt w ws : w ∈ ws ↔ first_index w ws < length ws.
Proof.
  induction ws as [|x ws IH]; simpl.
  - rewrite elem_of_nil. lia.
  - rewrite elem_of_cons. destruct (String.eqb_spec x w) as [->|Hne].
    + split; [lia|auto].
    + rewrite IH. split; [intros [?|?]; [congruence|lia]|right; lia].
Qed.

Lemma first_index_app_l w ws l :
  w ∈ ws → first_index w (ws ++ l) = first_index w ws.
Proof.
  induction ws as [|x ws IH]; simpl.
  - by rewrite elem_of_nil.
  - rewrite elem_of_cons. destruct (String.eqb_spec x w) as [->|Hne]; [done|].
    intros [?|?]; [congruence|]. by rewrite IH.
Qed.

Lemma first_index_snoc_new w ws :
  w ∉ ws → first_index w (ws ++ [w]) = length ws.
Proof.
  induction ws as [|x ws IH]; simpl.
  - by rewrite String.eqb_refl.
  - rewrite not_elem_of_cons. intros [Hne Hnot].
    destruct (String.eqb_spec x w) as [->|_]; [done|]. by rewrite IH.
Qed.

Lemma occurrences_snoc w x ws :
  occurrences w (ws ++ [x]) = occurrences w ws + (if decide (x = w) then 1 else 0).
Proof.
  unfold occurrences. rewrite filter_app, length_app. f_equal.
  rewrite filter_cons, filter_nil. by destruct (decide (x = w)).
Qed.

Lemma occurrences_pos w ws : w ∈ ws ↔ 0 < occurrences w ws.
Proof.
  unfold occurrences. split.
  - intros H. assert (w ∈ filter (λ x, x = w) ws) as Hin
      by (by apply list_elem_of_filter).
    destruct (filter (λ x, x = w) ws) as [|y l]; [inversion Hin|simpl; lia].
  - intros H. destruct (filter (λ x, x = w) ws) as [|y l] eqn:E; [simpl in H; lia|].
    assert (y ∈ filter (λ x, x = w) ws) as Hin by (rewrite E; left).
    by apply list_elem_of_filter in Hin as [-> Hy].
Qed.

Lemma distinct_snoc ws w : distinct (ws ++ [w]) = distinct_add w (distinct ws).
Proof. unfold distinct. by rewrite fold_left_app. Qed.

Lemma counter_update_snoc c ws w :
  counter_update c (ws ++ [w]) = counter_add w (counter_update c ws).
Proof. unfold counter_update. by rewrite fold_left_app. Qed.

Lemma elem_of_distinct ws w : w ∈ distinct ws ↔ w ∈ ws.
Proof.
  induction ws as [|x ws IH] using rev_ind; [done|].
  rewrite distinct_snoc. unfold distinct_add.
  destruct (str_in x (distinct ws)) eqn:Hin.
  - apply str_in_elem_of in Hin. rewrite elem_of_app, list_elem_of_singleton.
    rewrite IH. split; [auto|]. intros [Hw | ->]; [done|by apply IH].
  - by rewrite !elem_of_app, IH.
Qed.

Lemma NoDup_distinct ws : NoDup (distinct ws).
Proof.
  induction ws as [|x ws IH] using rev_ind; [constructor|].
  rewrite distinct_snoc. unfold distinct_add.
  destruct (str_in x (distinct ws)) eqn:Hin; [done|].
  apply str_in_not_elem_of in Hin. apply NoDup_app. split; [done|].
  split; [|apply NoDup_singleton].
  intros y Hy. rewrite list_elem_of_singleton. by intros ->.
Qed.

(** The keys of the counter are kept in the order of their first
    occurrence. *)
Lemma distinct_sorted ws :
  StronglySorted (λ a b, first_index a ws < first_index b ws) (distinct ws).
Proof.
  induction ws as [|x ws IH] using rev_ind; [constructor|].
  rewrite distinct_snoc. unfold distinct_add.
  assert (StronglySorted (λ a b, first_index a (ws ++ [x]) < first_index b (ws ++ [x]))
            (distinct ws)) as Hkeep.
  { assert (∀ l, (∀ k, k ∈ l → k ∈ ws) →
        StronglySorted (λ a b, first_index a ws < first_index b ws) l →
        StronglySorted (λ a b, first_index a (ws ++ [x]) < first_index b (ws ++ [x])) l)
      as Hgen.
    { intros l Hl Hs. induction Hs as [|a l Hs IHs Hall]; constructor.
      - apply IHs. intros k Hk. apply Hl. by right.
      - apply Forall_forall. intros b Hb.
        rewrite !first_index_app_l.
        + by eapply Forall_forall in Hall.
        + apply Hl. by right.
        + apply Hl. by left. }
    apply Hgen; [|done]. intros k. by rewrite elem_of_distinct. }
  destruct (str_in x (distinct ws)) eqn:Hin; [done|].
  apply str_in_not_elem_of in Hin.
  apply StronglySorted_app_2; [|done|repeat constructor].
  intros a b Ha Hb. apply list_elem_of_singleton in Hb as ->.
  rewrite elem_of_distinct in Ha, Hin.
  rewrite first_index_app_l, first_index_snoc_new by done.
  by apply first_index_lt.
Qed.

Lemma counter_add_new w (g : string → nat) (d : list string) :
  w ∉ d → counter_add w ((λ k, (k, g k)) <$> d) = ((λ k, (k, g k)) <$> d) ++ [(w, 1)].
Proof.
  induction d as [|k d IH]; [done|]. rewrite not_elem_of_cons. intros [Hne Hnot].
  csimpl. destruct (String.eqb_spec k w) as [->|_]; [done|]. by rewrite IH.
Qed.

Lemma counter_add_known w (g : string → nat) (d : list string) :
  NoDup d → w ∈ d →
  counter_add w ((λ k, (k, g k)) <$> d)
  = (λ k, (k, if decide (k = w) then S (g k) else g k)) <$> d.
Proof.
  induction d as [|k d IH]; [by rewrite elem_of_nil|].
  intros [Hk Hd]%NoDup_cons Hin. csimpl.
  destruct (String.eqb_spec k w) as [->|Hne].
  - rewrite decide_True by done. f_equal.
    apply list_fmap_ext. intros i k' Hk'. apply list_elem_of_lookup_2 in Hk'.
    rewrite decide_False; [done|]. by intros ->.
  - rewrite decide_False by done. f_equal. apply IH; [done|].
    apply elem_of_cons in Hin as [?|?]; [congruence|done].
Qed.

(** The counter after the loop: each distinct word with its number of
    occurrences, in the order of first occurrence. *)
Lemma counter_update_distinct ws :
  counter_update [] ws = (λ k, (k, occurrences k ws)) <$> distinct ws.
Proof.
  induction ws as [|x ws IH] using rev_ind; [done|].
  rewrite counter_update_snoc, IH, distinct_snoc. unfold distinct_add.
  destruct (str_in x (distinct ws)) eqn:Hin.
  - apply str_in_elem_of in Hin.
    rewrite counter_add_known by (done || apply NoDup_distinct).
    apply list_fmap_ext. intros i k _. rewrite occurrences_snoc.
    destruct (decide (k = x)) as [->|Hne].
    + rewrite decide_True by done. f_equal. lia.
    + rewrite decide_False by done. f_equal. lia.
  - apply str_in_not_elem_of in Hin.
    rewrite counter_add_new by done. rewrite fmap_app. simpl. f_equal.
    + apply list_fmap_ext. intros i k Hk. apply list_elem_of_lookup_2 in Hk.
      rewrite occurrences_snoc, decide_False; [f_equal; lia|by intros ->].
    + rewrite occurrences_snoc, decide_True by done.
      rewrite elem_of_distinct, occurrences_pos in Hin.
      do 2 f_equal. lia.
Qed.

Lemma insert_desc_perm {A} (above : A → A → bool) x l :
  insert_desc above x l ≡ₚ x :: l.
Proof.
  induction l as [|y l IH]; simpl; [done|].
  destruct (above x y); [|done]. rewrite IH. apply perm_swap.
Qed.

Lemma sort_desc_perm {A} (above : A → A → bool) l : sort_desc above l ≡ₚ l.
Proof.
  induction l as [|x l IH]; simpl; [done|].
  by rewrite insert_desc_perm, IH.
Qed.

Lemma insert_desc_ranked ws x l :
  counted ws x → Forall (counted ws) l →
  Forall (λ z, first_index x.1 ws < first_index z.1 ws) l →
  StronglySorted (entry_ranks ws) l →
  StronglySorted (entry_ranks ws) (insert_desc count_above x l).
Proof.
  intros Hx. induction l as [|y l IH]; intros Hl Hfirst Hs; simpl.
  - repeat constructor.
  - apply Forall_cons in Hl as [Hy Hl]. apply Forall_cons in Hfirst as [Hxy Hfirst].
    apply StronglySorted_cons in Hs as [Hyl Hs].
    unfold count_above. destruct (x.2 <? y.2)%nat eqn:Habove.
    + apply Nat.ltb_lt in Habove. constructor; [by apply IH|].
      rewrite insert_desc_perm. constructor; [|done].
      left. unfold counted in *. lia.
    + apply Nat.ltb_ge in Habove. constructor; [by constructor|].
      constructor.
      * unfold entry_ranks, ranks_before, counted in *. lia.
      * apply Forall_forall. intros z Hz.
        assert (entry_ranks ws y z) as Hyz by (by eapply Forall_forall in Hyl).
        assert (first_index x.1 ws < first_index z.1 ws) as Hxz
          by (by eapply Forall_forall in Hfirst).
        assert (counted ws z) as Hcz by (by eapply Forall_forall in Hl).
        unfold entry_ranks, ranks_before, counted in *. lia.
Qed.

Lemma sort_desc_ranked ws c :
  Forall (counted ws) c →
  StronglySorted (λ a b, first_index a.1 ws < first_index b.1 ws) c →
  StronglySorted (entry_ranks ws) (sort_desc count_above c).
Proof.
  induction c as [|x c IH]; intros Hc Hs; simpl; [constructor|].
  apply Forall_cons in Hc as [Hx Hc]. apply StronglySorted_cons in Hs as [Hxc Hs].
  apply insert_desc_ranked; [done| | |by apply IH].
  - by rewrite sort_desc_perm.
  - by rewrite sort_desc_perm.
Qed.

(** The keys of the counter, most common first: they are the distinct words
    of the stream, each ranking before those after it. *)
Lemma ranked_keys ws :
  let ks := fst <$> sort_desc count_above (counter_update [] ws) in
  StronglySorted (ranks_before ws) ks ∧ ks ≡ₚ distinct ws.
Proof.
  intros ks. subst ks. rewrite counter_update_distinct. split.
  - apply (StronglySorted_fmap _ (entry_ranks ws)); [done|].
    apply sort_desc_ranked.
    + apply Forall_fmap, Forall_forall. by intros k _.
    + apply (StronglySorted_fmap _ (λ a b, first_index a ws < first_index b ws));
        [done|apply distinct_sorted].
  - rewrite sort_desc_perm, <-list_fmap_compose.
    replace (fst ∘ (λ k, (k, occurrences k ws)) <$> distinct ws)
      with (id <$> distinct ws); [by rewrite list_fmap_id|].
    by apply list_fmap_ext.
Qed.

Lemma StronglySorted_lookup {A} (R : relation A) l i j a b :
  StronglySorted R l → i < j → l !! i = Some a → l !! j = Some b → R a b.
Proof.
  intros Hs. revert i j. induction Hs as [|x l Hs IH Hall]; intros i j Hij Hi Hj.
  - done.
  - destruct j as [|j]; [lia|]. simpl in Hj. destruct i as [|i]; simpl in Hi.
    + injection Hi as <-. eapply Forall_forall in Hall; [done|].
      by eapply list_elem_of_lookup_2.
    + apply (IH i j); [lia|done..].
Qed.

(** *** The shape of the tokens *)

Lemma match_end_bounds c0 rest k k' :
  match_end c0 rest k = Some k' → (2 ≤ k' ≤ k)%nat.
Proof.
  induction k as [|k IH]; [done|]. cbn [match_end].
  match goal with |- context [if ?b then _ else _] => destruct b eqn:E end.
  - intros [= <-]. apply andb_true_iff in E as [E _]. apply Nat.leb_le in E. lia.
  - intros H. apply IH in H. lia.
Qed.

Lemma body_run_length s : body_run s ≤ length s.
Proof. induction s as [|c s IH]; simpl; [done|]. destruct (is_body c); lia. Qed.

Lemma body_run_take s k :
  k ≤ body_run s → Forall (λ c, is_body c = true) (take k s).
Proof.
  revert k. induction s as [|c s IH]; intros k Hk; simpl in *.
  - by rewrite take_nil.
  - destruct k as [|k]; [constructor|]. simpl.
    destruct (is_body c) eqn:Hc; [|lia]. constructor; [done|]. apply IH. lia.
Qed.

Lemma match_at_shape prev s tok :
  match_at prev s = Some tok →
  word_chars tok ∧ 3 ≤ length tok ∧ tok `prefix_of` s.
Proof.
  unfold match_at. destruct s as [|c0 rest]; [done|].
  destruct (is_letter c0) eqn:Hc0; simpl; [|done].
  destruct (boundary prev (Some c0)); [|done].
  destruct (match_end c0 rest (body_run rest)) as [k|] eqn:Hk; simpl; [|done].
  intros [= <-]. apply match_end_bounds in Hk.
  pose proof (body_run_length rest). repeat split.
  - done.
  - apply body_run_take. lia.
  - simpl. rewrite length_take. lia.
  - apply prefix_cons, prefix_take.
Qed.

(** Every token found is a letter followed by at least two letters or
    hyphens, made of characters of the text. *)
Lemma findall_from_shape s : ∀ prev skip tok,
  tok ∈ findall_from prev skip s →
  ∃ chars, tok = string_of_list_ascii chars
           ∧ word_chars chars ∧ 3 ≤ length chars ∧ chars ⊆ s.
Proof.
  induction s as [|c s IH]; intros prev skip tok Htok; cbn [findall_from] in Htok.
  - by apply elem_of_nil in Htok.
  - assert (∀ chars, chars ⊆ s → chars ⊆ c :: s) as Hsub.
    { intros chars H x Hx. right. by apply H. }
    destruct skip as [|skip].
    + destruct (match_at prev (c :: s)) as [found|] eqn:Hm.
      * apply elem_of_cons in Htok as [->|Htok].
        -- apply match_at_shape in Hm as (Hw&Hlen&Hpre).
           exists found. repeat split; [done..|].
           intros x Hx. destruct Hpre as [k ->]. apply elem_of_app. by left.
        -- apply IH in Htok as (chars&?&?&?&?). exists chars. eauto.
      * apply IH in Htok as (chars&?&?&?&?). exists chars. eauto.
    + apply IH in Htok as (chars&?&?&?&?). exists chars. eauto.
Qed.

(** *** The words that are found *)

Lemma is_letter_body c : is_letter c = true → is_body c = true.
Proof. unfold is_body. by intros ->. Qed.

Lemma is_letter_word c : is_letter c = true → is_word c = true.
Proof. unfold is_word. by intros ->. Qed.

Lemma is_separator_spec c :
  is_separator c = true → is_word c = false ∧ is_body c = false ∧ is_letter c = false.
Proof.
  unfold is_separator. intros [Hw Hb]%andb_true_iff.
  apply negb_true_iff in Hw, Hb. repeat split; [done..|].
  destruct (is_letter c) eqn:E; [|done]. by rewrite (is_letter_word c E) in Hw.
Qed.

Lemma body_run_letters w post :
  Forall (λ c, is_letter c = true) w →
  from_option is_separator true (head post) = true →
  body_run (w ++ post) = length w.
Proof.
  intros Hw Hpost. induction Hw as [|c w Hc Hw IH]; simpl.
  - destruct post as [|q post]; [done|]. simpl in *.
    by apply is_separator_spec in Hpost as (_&->&_).
  - by rewrite (is_letter_body c Hc), IH.
Qed.

(** The characters a match leaves to pass belong to [[A-Za-z\-]]. *)
Lemma match_at_run prev c0 rest tok :
  match_at prev (c0 :: rest) = Some tok → length tok - 1 ≤ body_run rest.
Proof.
  unfold match_at. destruct (is_letter c0 && boundary prev (Some c0)); [|done].
  destruct (match_end c0 rest (body_run rest)) as [k|] eqn:Hk; simpl; [|done].
  intros [= <-]. apply match_end_bounds in Hk. simpl. rewrite length_take. lia.
Qed.

(** At a run of letters that starts after a non-word character and ends
    before a separator, the match is the run. *)
Lemma match_at_word prev c0 body post :
  from_option is_word false prev = false →
  is_letter c0 = true → Forall (λ c, is_letter c = true) body → 2 ≤ length body →
  from_option is_separator true (head post) = true →
  match_at prev (c0 :: body ++ post) = Some (c0 :: body).
Proof.
  intros Hprev Hc0 Hbody Hlen Hpost. unfold match_at.
  assert (boundary prev (Some c0) = true) as ->.
  { unfold boundary. simpl. by rewrite Hprev, (is_letter_word c0 Hc0). }
  rewrite Hc0, (body_run_letters body post) by done. simpl.
  destruct (length body) as [|k] eqn:Hk; [lia|]. cbn [match_end].
  rewrite <-Hk. rewrite (proj2 (Nat.leb_le 2 (length body))) by lia.
  rewrite take_app_length.
  assert (boundary (last (c0 :: body)) ((body ++ post) !! length body) = true) as ->.
  { unfold boundary.
    assert (from_option is_word false (last (c0 :: body)) = true) as ->.
    { destruct (last (c0 :: body)) as [l|] eqn:Hl.
      - apply last_Some_elem_of in Hl. simpl. apply is_letter_word.
        apply elem_of_cons in Hl as [->|Hl]; [done|].
        by eapply Forall_forall in Hbody.
      - by apply last_None in Hl. }
    rewrite lookup_app_r, Nat.sub_diag by done.
    destruct post as [|q post]; [done|]. simpl in *.
    by apply is_separator_spec in Hpost as (->&_). }
  simpl. by rewrite take_app_length.
Qed.

(** The scan reaches every word: while it runs through [pre] the characters
    it still has to pass belong to [[A-Za-z\-]], so it stops before the
    separator that ends [pre]. *)
Lemma findall_from_word w post :
  Forall (λ c, is_letter c = true) w → 3 ≤ length w →
  from_option is_separator true (head post) = true →
  ∀ pre prev skip,
    skip ≤ body_run (pre ++ w ++ post) →
    match last pre with
    | Some p => is_separator p = true
    | None => skip = 0 ∧ from_option is_word false prev = false
    end →
    string_of_list_ascii w ∈ findall_from prev skip (pre ++ w ++ post).
Proof.
  intros Hw Hlen Hpost. induction pre as [|c pre IH]; intros prev skip Hskip Hpre.
  - simpl in Hpre. destruct Hpre as [-> Hprev].
    destruct w as [|c0 body]; [simpl in Hlen; lia|].
    apply Forall_cons in Hw as [Hc0 Hbody]. simpl in Hlen.
    cbn [app findall_from].
    rewrite (match_at_word prev c0 body post) by (done || lia). left.
  - assert (∀ skip',
              (pre = [] → is_separator c = true → skip' = 0) →
              match last pre with
              | Some p => is_separator p = true
              | None => skip' = 0 ∧ from_option is_word false (Some c) = false
              end) as Hnext.
    { intros skip' Hzero. destruct pre as [|c' pre].
      - simpl in *. split; [by apply Hzero|].
        by apply is_separator_spec in Hpre as (?&_).
      - change (last (c :: c' :: pre)) with (last (c' :: pre)) in Hpre.
        destruct (last (c' :: pre)) eqn:E; [done|]. by apply last_None in E. }
    change ((c :: pre) ++ w ++ post) with (c :: (pre ++ w ++ post)) in *.
    cbn [findall_from]. destruct skip as [|skip].
    + destruct (match_at prev (c :: pre ++ w ++ post)) as [tok|] eqn:Hm.
      * right. apply IH; [by eapply match_at_run|].
        apply Hnext. intros _ (_&_&Hc)%is_separator_spec.
        unfold match_at in Hm. by rewrite Hc in Hm.
      * apply IH; [lia|]. by apply Hnext.
    + cbn [body_run] in Hskip. destruct (is_body c) eqn:Hc; [|lia].
      apply IH; [lia|].
      apply Hnext. intros _ (_&Hb&_)%is_separator_spec. congruence.
Qed.

(** Every word of the view is a token. *)
Lemma re_findall_words_complete text w :
  word_of_view 3 w (regex_view 0 (list_ascii_of_string text)) →
  string_of_list_ascii w ∈ re_findall_words text.
Proof.
  intros (pre&post&Hview&Hw&Hlen&Hpre&Hpost). unfold re_findall_words.
  rewrite Hview. apply findall_from_word; [done..|lia|].
  by destruct (last pre).
Qed.

Lemma lower_char_not_upper c : in_range "A" "Z" (lower_char c) = false.
Proof. destruct c as [[] [] [] [] [] [] [] []]; reflexivity. Qed.

(** The view of a text holds characters of the text, underscores and
    spaces, one per code point at most. *)
Lemma regex_view_chars s : ∀ skip c,
  c ∈ regex_view skip s → c ∈ s ∨ c = "_"%char ∨ c = " "%char.
Proof.
  induction s as [|x s IH]; intros skip c Hc; cbn [regex_view] in Hc.
  - by apply elem_of_nil in Hc.
  - assert (c ∈ s ∨ c = "_"%char ∨ c = " "%char → c ∈ x :: s ∨ c = "_"%char ∨ c = " "%char)
      as Hstep by (intros [?|?]; [left; by right|by right]).
    destruct skip as [|skip]; [|by eapply Hstep, IH].
    destruct (is_ascii x).
    + apply elem_of_cons in Hc as [->|Hc]; [left; by left|by eapply Hstep, IH].
    + apply elem_of_cons in Hc as [->|Hc]; [|by eapply Hstep, IH].
      right. destruct (unicode_word _); auto.
Qed.

Lemma regex_view_length s : ∀ skip, length (regex_view skip s) ≤ length s.
Proof.
  induction s as [|x s IH]; intros skip; cbn [regex_view]; [done|].
  destruct skip as [|skip]; [|specialize (IH skip); simpl; lia].
  destruct (is_ascii x); simpl.
  - specialize (IH 0). lia.
  - specialize (IH (utf8_width x - 1)). lia.
Qed.

(** A text of ASCII is its own view. *)
Lemma regex_view_ascii s : forallb is_ascii s = true → regex_view 0 s = s.
Proof.
  induction s as [|x s IH]; simpl; [done|].
  intros [Hx Hs]%andb_true_iff. rewrite Hx. by rewrite IH.
Qed.

Lemma py_lower_no_capital s :
  ascii_text s = true ∨ no_capital (unicode_lower s) → no_capital (py_lower s).
Proof.
  unfold py_lower, no_capital. destruct (ascii_text s); [intros _|by intros [?|?]].
  rewrite list_ascii_of_string_of_list_ascii. apply Forall_fmap, Forall_forall.
  intros c _. apply lower_char_not_upper.
Qed.

Lemma length_string_of_list_ascii l :
  String.length (string_of_list_ascii l) = length l.
Proof. induction l as [|x l IH]; simpl; [done|by rewrite IH]. Qed.

(** The tokens of any text: a letter of ASCII followed by at least two
    letters or hyphens; without capitals in the text, none in the tokens. *)
Lemma re_findall_words_shape text tok :
  tok ∈ re_findall_words text →
  word_chars (list_ascii_of_string tok) ∧ 3 ≤ String.length tok
  ∧ (no_capital text → is_lower_word tok).
Proof.
  unfold re_findall_words. intros Htok.
  apply findall_from_shape in Htok as (chars&->&Hw&Hlen&Hsub).
  unfold is_lower_word. rewrite list_ascii_of_string_of_list_ascii.
  rewrite length_string_of_list_ascii.
  split; [done|]. split; [done|]. intros Hcap. split; [done|].
  apply Forall_forall. intros x Hx. apply Hsub, regex_view_chars in Hx.
  destruct Hx as [Hx|[->| ->]]; [|done..].
  unfold no_capital in Hcap. by eapply Forall_forall in Hcap.
Qed.

Lemma re_findall_lower_words text tok :
  ascii_text text = true ∨ no_capital (unicode_lower text) →
  tok ∈ re_findall_words (py_lower text) →
  is_lower_word tok ∧ 3 ≤ String.length tok.
Proof.
  intros Hlow%py_lower_no_capital Htok.
  apply re_findall_words_shape in Htok as (_&Hlen&Hword). auto.
Qed.

Lemma elem_of_filtered_words content w :
  w ∈ filtered_words content ↔
  w ∈ re_findall_words (py_lower content) ∧ 3 < String.length w ∧ w ∉ stop_words.
Proof.
  unfold filtered_words. rewrite list_elem_of_filter. unfold keeps_word.
  rewrite andb_true_iff, Nat.ltb_lt, negb_true_iff, str_in_not_elem_of.
  split; [intros [[Hlen Hstop] Hw]|intros (Hw&Hlen&Hstop)]; auto.
Qed.

Lemma elem_of_word_stream items w :
  w ∈ word_stream items ↔
  ∃ item, item ∈ items
          ∧ w ∈ re_findall_words (py_lower (content_of item))
          ∧ 3 < String.length w ∧ w ∉ stop_words.
Proof.
  induction items as [|item rest IH]; simpl.
  - rewrite elem_of_nil. split; [done|]. intros (item&H&_). by apply elem_of_nil in H.
  - rewrite elem_of_app, IH, elem_of_filtered_words. split.
    + intros [H|(item'&Hin&H)].
      * exists item. split; [left|done].
      * exists item'. split; [by right|done].
    + intros (item'&Hin&H). apply elem_of_cons in Hin as [->|Hin]; [by left|].
      right. eauto.
Qed.

(** *** The keyword list *)

Lemma analyze_news_impact_no_valid news_items :
  valid_news_items news_items = [] →
  analyze_news_impact news_items = _get_empty_news_analysis.
Proof.
  intros H. unfold analyze_news_impact, analyze_news_impact_body.
  destruct news_items; [done|]. by rewrite H.
Qed.

Lemma take_ranked (ws ks : list string) n :
  StronglySorted (ranks_before ws) ks → NoDup ks →
  let kws := take n ks in
  length kws ≤ n
  ∧ NoDup kws
  ∧ (∀ w, w ∈ kws → w ∈ ks)
  ∧ (∀ i j a b, i < j → kws !! i = Some a → kws !! j = Some b → ranks_before ws a b)
  ∧ (∀ w, w ∈ ks → w ∉ kws → length kws = n ∧ ∀ k, k ∈ kws → ranks_before ws k w).
Proof.
  intros Hs Hnd kws. subst kws. repeat split.
  - rewrite length_take. lia.
  - eapply sublist_NoDup; [done|apply sublist_take].
  - intros w Hw. apply elem_of_take in Hw as (i&Hi&_). by eapply list_elem_of_lookup_2.
  - intros i j a b Hij Hi Hj.
    apply lookup_take_Some in Hi as [Hi _]. apply lookup_take_Some in Hj as [Hj _].
    by eapply (StronglySorted_lookup _ ks i j).
  - rewrite <-(take_drop n ks) in H. apply elem_of_app in H as [?|Hd]; [done|].
    rewrite length_take. destruct (decide (length ks ≤ n)) as [Hle|]; [|lia].
    rewrite drop_ge in Hd by done. by apply elem_of_nil in Hd.
  - intros k Hk. rewrite <-(take_drop n ks) in H, Hs.
    apply elem_of_app in H as [?|Hd]; [done|].
    by eapply StronglySorted_app_1_elem_of.
Qed.

Lemma word_stream_kept items :
  word_stream items
  = items ≫= (λ item, filter (λ w, 4 ≤ String.length w ∧ w ∉ stop_words)
                             (re_findall_words (py_lower (content_of item)))).
Proof.
  induction items as [|item rest IH]; [done|].
  cbn [word_stream]. rewrite IH. unfold filtered_words.
  change ((item :: rest) ≫= ?f) with (f item ++ rest ≫= f). f_equal.
  apply list_filter_iff. intros w. unfold keeps_word.
  rewrite andb_true_iff, Nat.ltb_lt, negb_true_iff, str_in_not_elem_of.
  split; intros [? ?]; (split; [lia|done]).
Qed.

(** C4 (amended). The stream of kept words is spelled out: the tokens of the
    lowercased content of each valid item, in order, that have at least 4
    characters and are not on the stop list, each as often as it occurs.
    When the scorer returns on every valid item, the keyword list holds at
    most 20 distinct words of that stream, in descending order of their
    number of occurrences, words of equal number in the order they were first
    met; and a kept word that is not in the list ranks after each of the 20
    that are.  Every kept word is a letter followed by letters or hyphens,
    in lower case as far as [lower()] leaves no capital; and every run of at
    least 4 letters that stands between separators in the lowercased content
    of a valid item, and is not on the stop list, is a kept word. *)
Theorem keywords_top_twenty news_items scores :
  let valid := valid_news_items news_items in
  let stops :=
    ["this"; "that"; "these"; "those"; "there"; "their"; "they";
     "what"; "when"; "where"; "which"; "while"; "with"; "would";
     "about"; "above"; "after"; "again"; "against"; "could"; "should";
     "from"; "have"; "having"; "here"; "more"; "once"; "only"; "same"; "some";
     "such"; "than"; "then"; "through"] in
  let ws :=
    valid ≫= (λ item, filter (λ w, 4 ≤ String.length w ∧ w ∉ stops)
                             (re_findall_words (py_lower (content_of item)))) in
  let kws := keywords (analyze_news_impact news_items) in
  scores_of valid = Ret scores →
  length kws ≤ 20
  ∧ NoDup kws
  ∧ (∀ w, w ∈ kws → w ∈ ws)
  ∧ (∀ w, w ∈ ws → word_chars (list_ascii_of_string w))
  ∧ ((∀ s, no_capital (unicode_lower s)) → ∀ w, w ∈ ws → is_lower_word w)
  ∧ (∀ item w, item ∈ valid →
       word_of_view 4 w
         (regex_view 0 (list_ascii_of_string (py_lower (content_of item)))) →
       string_of_list_ascii w ∉ stops →
       string_of_list_ascii w ∈ ws)
  ∧ (∀ i j a b, i < j → kws !! i = Some a → kws !! j = Some b →
       ranks_before ws a b)
  ∧ (∀ w, w ∈ ws → w ∉ kws →
       length kws = 20 ∧ ∀ k, k ∈ kws → ranks_before ws k w).
Proof.
  intros valid stops ws kws Hscores.
  assert (ws = word_stream valid) as Hws by (symmetry; apply word_stream_kept).
  clearbody ws. subst ws. set (ws := word_stream valid).
  assert (∀ item w, item ∈ valid →
            word_of_view 4 w
              (regex_view 0 (list_ascii_of_string (py_lower (content_of item)))) →
            string_of_list_ascii w ∉ stops →
            string_of_list_ascii w ∈ ws) as Hfound.
  { intros item w Hitem (pre&post&Hview&Hw&Hlen&Hpre&Hpost) Hstop.
    apply elem_of_word_stream. exists item. split; [done|].
    split; [|split; [rewrite length_string_of_list_ascii; lia|done]].
    apply re_findall_words_complete. exists pre, post.
    repeat split; [done..|lia|done|done]. }
  assert (∀ w, w ∈ ws →
            ∃ item, w ∈ re_findall_words (py_lower (content_of item))) as Htokens.
  { intros w Hw. apply elem_of_word_stream in Hw as (item&_&Htok&_). eauto. }
  assert (∀ w, w ∈ ws → word_chars (list_ascii_of_string w)) as Hchars.
  { intros w [item Htok]%Htokens. by apply re_findall_words_shape in Htok as [? _]. }
  assert ((∀ s, no_capital (unicode_lower s)) → ∀ w, w ∈ ws → is_lower_word w)
    as Hlower.
  { intros Hlow w [item Htok]%Htokens.
    apply re_findall_lower_words in Htok as [? _]; [done|]. right. apply Hlow. }
  destruct (decide (valid = [])) as [Hnone|Hsome].
  - subst kws. rewrite analyze_news_impact_no_valid by done. simpl.
    subst ws. rewrite Hnone in *. simpl.
    repeat split; try done; try lia; try constructor;
      intros; by match goal with H : _ ∈ [] |- _ => apply elem_of_nil in H end.
  - destruct (analyze_news_impact_scored news_items scores Hsome Hscores)
      as (recs&_&_&_&Hkw).
    subst kws. rewrite Hkw. unfold most_common. rewrite fmap_take.
    destruct (ranked_keys ws) as [Hsorted Hperm].
    set (ks := fst <$> sort_desc count_above (counter_update [] ws)) in *.
    assert (NoDup ks) as Hnd by (rewrite Hperm; apply NoDup_distinct).
    assert (∀ w, w ∈ ks ↔ w ∈ ws) as Hks
      by (intros w; by rewrite Hperm, elem_of_distinct).
    destruct (take_ranked ws ks 20 Hsorted Hnd) as (H1&H2&H3&H4&H5).
    split; [done|]. split; [done|].
    split; [|split; [done|split; [done|split; [done|split; [done|]]]]].
    + intros w Hw. by apply Hks, H3.
    + intros w Hw. apply H5. by apply Hks.
Qed.

(** ** The correlation engine *)

Lemma news_class_cases s :
  (news_class s = "negative" ↔ (s <? -0.1)%float = true)
  ∧ (news_class s = "positive" ↔ (0.1 <? s)%float = true)
  ∧ (news_class s = "neutral" ↔
       (s <? -0.1)%float = false ∧ (0.1 <? s)%float = false).
Proof.
  unfold news_class.
  destruct (s <? -0.1)%float eqn:Hneg.
  - assert ((0.1 <? s)%float = false) as Hpos.
    { destruct (0.1 <? s)%float eqn:E; [|done].
      by rewrite (ltb_between_false (-0.1) 0.1 s) in Hneg. }
    rewrite Hpos. split; [done|]. split; (split; [done|]); [done|by intros []].
  - destruct (0.1 <? s)%float; split; try done;
      split; (split; [done|]); try done; by intros [].
Qed.

Lemma count_sentiment_class s c :
  count_sentiment s c =
    {| total := total c;
       c_negative := c_negative c + (if decide (news_class s = "negative") then 1 else 0);
       c_neutral := c_neutral c + (if decide (news_class s = "neutral") then 1 else 0);
       c_positive := c_positive c + (if decide (news_class s = "positive") then 1 else 0) |}.
Proof.
  unfold count_sentiment, news_class.
  destruct (s <? -0.1)%float; [simpl; f_equal; lia|].
  destruct (0.1 <? s)%float; simpl; f_equal; lia.
Qed.

Lemma count_date_snoc d dated x :
  count_date d (dated ++ [x]) = count_date d dated + (if decide (x.1 = d) then 1 else 0).
Proof.
  unfold count_date. rewrite filter_app, length_app. f_equal.
  rewrite filter_cons, filter_nil. by destruct (decide (x.1 = d)).
Qed.

Lemma count_class_snoc d cls dated x :
  count_class d cls (dated ++ [x])
  = count_class d cls dated
    + (if decide (x.1 = d ∧ news_class x.2 = cls) then 1 else 0).
Proof.
  unfold count_class. rewrite filter_app, length_app. f_equal.
  rewrite filter_cons, filter_nil. by destruct (decide (x.1 = d ∧ news_class x.2 = cls)).
Qed.

(** The counters after the loop, date by date. *)
Lemma fold_add_news dated d :
  default zero_counts (fold_left (λ m ds, add_news ds.1 ds.2 m) dated ∅ !! d) =
    {| total := count_date d dated;
       c_negative := count_class d "negative" dated;
       c_neutral := count_class d "neutral" dated;
       c_positive := count_class d "positive" dated |}.
Proof.
  induction dated as [|[d' s] dated IH] using rev_ind; [done|].
  rewrite fold_left_app; simpl. unfold add_news at 1.
  rewrite count_date_snoc, !count_class_snoc; simpl.
  destruct (decide (d' = d)) as [->|Hne].
  - rewrite lookup_insert_eq; simpl. rewrite IH, count_sentiment_class; simpl.
    f_equal; try lia;
      match goal with
      | |- context [decide (news_class s = ?cls)] =>
          destruct (decide (news_class s = cls));
          [rewrite decide_True by done|rewrite decide_False by (by intros [_ ?])];
          lia
      end.
  - rewrite lookup_insert_ne by done. rewrite IH.
    rewrite !decide_False by (by intros [? _]). f_equal; lia.
Qed.

Lemma fold_add_news_dom dated d :
  is_Some (fold_left (λ m ds, add_news ds.1 ds.2 m) dated ∅ !! d)
  ↔ 0 < count_date d dated.
Proof.
  induction dated as [|[d' s] dated IH] using rev_ind.
  - simpl. rewrite lookup_empty. unfold count_date; simpl.
    split; [by intros [? ?]|lia].
  - rewrite fold_left_app; simpl. unfold add_news at 1.
    rewrite count_date_snoc; simpl.
    destruct (decide (d' = d)) as [->|Hne].
    + rewrite lookup_insert_eq. split; [lia|eauto].
    + rewrite lookup_insert_ne by done. rewrite IH. split; lia.
Qed.

(** C2 (amended). For every news argument and date, the counters of the
    date count each item that has a valid timestamp of that date once in
    [total] and once in the class of its score, the class being "negative"
    exactly when the score is below -0.1, "positive" exactly when it is
    above 0.1, and "neutral" otherwise; a date has counters exactly when
    some item carries it. *)
Theorem news_counts_by_date news_items d :
  let dated := dated_news news_items in
  let counts := default zero_counts (group_news_by_date news_items !! d) in
  total counts = count_date d dated
  ∧ c_negative counts = count_class d "negative" dated
  ∧ c_neutral counts = count_class d "neutral" dated
  ∧ c_positive counts = count_class d "positive" dated
  ∧ (is_Some (group_news_by_date news_items !! d) ↔ 0 < count_date d dated)
  ∧ (∀ s, (news_class s = "negative" ↔ (s <? -0.1)%float = true)
          ∧ (news_class s = "positive" ↔ (0.1 <? s)%float = true)
          ∧ (news_class s = "neutral" ↔
               (s <? -0.1)%float = false ∧ (0.1 <? s)%float = false)).
Proof.
  intros dated counts. subst counts. unfold group_news_by_date.
  rewrite fold_add_news; simpl.
  repeat (split; [done|]). split; [apply fold_add_news_dom|apply news_class_cases].
Qed.

(** *** The rows and the result *)

Lemma length_lastn {A} n (l : list A) : length (lastn n l) = min n (length l).
Proof. unfold lastn. rewrite length_drop. lia. Qed.

Lemma correlation_rows_ok price_data news_by_date closes dates : ∀ i,
  columns price_data !! "Close" = Some closes →
  i + length dates ≤ length closes →
  correlation_rows price_data news_by_date i dates
  = Ret (zip_with (news_row news_by_date) dates (drop i closes)).
Proof.
  induction dates as [|d dates IH]; intros i Hclose Hlen; simpl; [done|].
  simpl in Hlen. unfold correlation_row, getitem, iloc. rewrite Hclose; simpl.
  destruct (closes !! i) as [p|] eqn:Hp.
  - simpl. rewrite IH by (done || lia). simpl.
    by rewrite (drop_S closes p i).
  - apply lookup_ge_None in Hp. lia.
Qed.

Lemma correlation_rows_no_close price_data news_by_date d dates i :
  columns price_data !! "Close" = None →
  correlation_rows price_data news_by_date i (d :: dates) = Raise (KeyError "Close").
Proof.
  intros H. simpl. unfold correlation_row, getitem. by rewrite H.
Qed.

Lemma nat_sum_zero counts : nat_sum counts = 0 ↔ Forall (λ n, n = 0) counts.
Proof.
  induction counts as [|n counts IH]; simpl.
  - split; [constructor|done].
  - rewrite Forall_cons, <-IH. lia.
Qed.


(** *** The set of prices *)





(** *** The coefficient *)

Lemma coefficient_of_short prices negs :
  length prices < 2 → coefficient_of prices negs = None.
Proof.
  intros H. unfold coefficient_of.
  by rewrite (proj2 (Nat.leb_gt 2 (length prices))).
Qed.


Lemma coefficient_of_no_negative prices negs :
  Forall (λ n, n = 0) negs → coefficient_of prices negs = None.
Proof.
  intros H%nat_sum_zero. unfold coefficient_of. rewrite H.
  destruct (2 <=? length prices); [|done]. by rewrite andb_false_r.
Qed.








Lemma news_row_empty d p : news_row ∅ d p = zero_row d p.
Proof. unfold news_row. by rewrite lookup_empty. Qed.

Lemma selected_frame_nonempty frames price_data :
  select_price_data frames = Some price_data → 0 < df_len price_data.
Proof.
  assert (∀ tf df, nonempty_frame frames tf = Some df → 0 < df_len df) as Hne.
  { intros tf df. unfold nonempty_frame, df_empty, df_len.
    destruct (frames !! tf) as [df'|]; [|done].
    destruct (length (index df') =? 0) eqn:Hlen; simpl; [done|].
    destruct (size (columns df') =? 0); [done|].
    intros [= <-]. apply Nat.eqb_neq in Hlen. lia. }
  unfold select_price_data.
  destruct (nonempty_frame frames "week") eqn:Hw; [intros [= <-]; by eapply Hne|].
  destruct (nonempty_frame frames "month") eqn:Hm; [intros [= <-]; by eapply Hne|].
  apply Hne.
Qed.

Lemma correlation_body_selected security_data news_items frames price_data :
  security_data ≫= sd_data = Some frames →
  select_price_data frames = Some price_data →
  compute_price_news_correlation security_data news_items =
    if news_is_empty news_items then Ret (error_result "No news items available") else
    let n := min 10 (df_len price_data) in
    let tail := df_tail n price_data in
    match correlation_rows tail (group_news_by_date news_items) 0 (index tail) with
    | Ret rows =>
        Ret {| correlation_coefficient :=
                 coefficient_of (price <$> rows) (negative_news <$> rows);
               days_analyzed := length rows;
               data := rows;
               error := None |}
    | Raise e => Ret (error_result ("Error in correlation calculation: " ++ str_exn e))
    end.
Proof.
  intros Hframes Hsel. unfold compute_price_news_correlation, correlation_body.
  rewrite Hframes, Hsel. destruct (news_is_empty news_items); [done|].
  cbv zeta. by destruct (correlation_rows _ _ _ _).
Qed.

(** C1 (amended). With the empty news-analysis structure as the news
    argument the call returns, and never with the error "No news items
    available" (the structure is a dictionary with keys): without ['data'] in
    the security data the error is "No security data available"; without a
    non-empty week, month or year frame it is "No historical price data
    available"; with a selected frame that has its closing column the error
    is null, the coefficient is null, and the data hold one row per selected
    price row (the last 10 at most, at least one), each with zero news
    counts; and with a selected frame without closing column the error is
    the one of the handler, "Error in correlation calculation: 'Close'". *)
Theorem correlation_of_empty_analysis security_data :
  ∃ r, compute_price_news_correlation security_data (Analysed _get_empty_news_analysis)
       = Ret r
    ∧ error r ≠ Some "No news items available"
    ∧ (security_data ≫= sd_data = None →
         r = error_result "No security data available")
    ∧ (∀ frames, security_data ≫= sd_data = Some frames →
         select_price_data frames = None →
         r = error_result "No historical price data available")
    ∧ (∀ frames price_data closes,
         security_data ≫= sd_data = Some frames →
         select_price_data frames = Some price_data →
         columns price_data !! "Close" = Some closes →
         df_wf price_data →
         let n := min 10 (df_len price_data) in
         0 < n
         ∧ r = {| correlation_coefficient := None;
                  days_analyzed := n;
                  data := zip_with zero_row (lastn n (index price_data)) (lastn n closes);
                  error := None |})
    ∧ (∀ frames price_data,
         security_data ≫= sd_data = Some frames →
         select_price_data frames = Some price_data →
         columns price_data !! "Close" = None →
         r = error_result "Error in correlation calculation: 'Close'").
Proof.
  destruct (security_data ≫= sd_data) as [frames|] eqn:Hframes.
  2: { exists (error_result "No security data available"). split.
       - unfold compute_price_news_correlation, correlation_body. by rewrite Hframes.
       - split; [done|]. split; [done|]. repeat split; intros; simplify_eq. }
  destruct (select_price_data frames) as [price_data|] eqn:Hsel.
  2: { exists (error_result "No historical price data available"). split.
       - unfold compute_price_news_correlation, correlation_body.
         by rewrite Hframes, Hsel.
       - split; [done|]. split; [intros; simplify_eq|].
         split; [done|]. split; intros; simplify_eq. }
  set (n := min 10 (df_len price_data)).
  pose proof (selected_frame_nonempty _ _ Hsel) as Hpos.
  rewrite (correlation_body_selected _ _ frames price_data) by done.
  cbn [news_is_empty]. cbv zeta. fold n.
  change (group_news_by_date (Analysed _get_empty_news_analysis))
    with (∅ : gmap string Counts).
  destruct (columns price_data !! "Close") as [closes|] eqn:Hclose.
  - destruct (decide (length closes = df_len price_data)) as [Hlen|Hlen].
    + rewrite (correlation_rows_ok _ _ (lastn n closes)).
      2: { simpl. by rewrite lookup_fmap, Hclose. }
      2: { simpl. rewrite !length_lastn. unfold df_len in Hlen. lia. }
      eexists. split; [reflexivity|]. cbn [error].
      split; [done|]. split; [intros; simplify_eq|]. split; [intros; simplify_eq|].
      split; [|intros; simplify_eq].
      intros frames' pd' closes' ? ? Hclose' _. simplify_eq. fold n.
      split; [lia|].
      assert (∀ dates ps, zip_with (news_row ∅) dates ps = zip_with zero_row dates ps)
        as Hrows.
      { induction dates as [|d dates IH]; intros [|p ps]; simpl; try done.
        all: by rewrite news_row_empty, IH. }
      rewrite drop_0, Hrows. f_equal.
      * apply coefficient_of_no_negative.
        apply Forall_fmap, Forall_forall. intros row Hrow.
        apply elem_of_lookup_zip_with in Hrow as (i&d&p&->&_&_). done.
      * cbn [index df_tail].
        rewrite length_zip_with, !length_lastn. unfold df_len in *. lia.
    + destruct (correlation_rows _ _ _ _) as [rows|e]; simpl;
        (eexists; split; [reflexivity|]; cbn [error];
         split; [done|]; split; [intros; simplify_eq|]; split; [intros; simplify_eq|];
         split; [|intros; simplify_eq];
         intros frames' pd' closes' ? ? Hclose' Hwf; simplify_eq;
         by specialize (Hwf _ _ Hclose)).
  - assert (∃ d dates, index (df_tail n price_data) = d :: dates) as (d&dates&Hidx).
    { destruct (index (df_tail n price_data)) as [|d dates] eqn:Hidx; [|eauto].
      apply (f_equal length) in Hidx. cbn [index df_tail] in Hidx.
      rewrite length_lastn in Hidx. unfold df_len in *. simpl in Hidx. lia. }
    rewrite Hidx, correlation_rows_no_close.
    2: { simpl. by rewrite lookup_fmap, Hclose. }
    eexists. split; [reflexivity|]. cbn [error]. simpl.
    split; [done|]. split; [intros; simplify_eq|]. split; [intros; simplify_eq|].
    split; [intros; simplify_eq|]. done.
Qed.

(** ** Further properties: the cache *)

(** X1. Storing under a key and looking the same key up returns the stored
    value while the entry is younger than the expiry, and [None] from then
    on; a store leaves the lookups of every other key and the expiry as they
    were. *)
Theorem cache_store_then_get self now now' k d :
  _get_from_cache (_store_in_cache self now k d) now' k
  = Ret (if bool_decide (now' - now < cache_expiry self)%Z then Some d else None)
  ∧ (∀ k', k' ≠ k →
       _get_from_cache (_store_in_cache self now k d) now' k'
       = _get_from_cache self now' k')
  ∧ cache_expiry (_store_in_cache self now k d) = cache_expiry self.
Proof.
  split; [|split; [|done]].
  - unfold _get_from_cache, _store_in_cache; simpl.
    rewrite lookup_insert_eq. by case_bool_decide.
  - intros k' Hne. unfold _get_from_cache, _store_in_cache; simpl.
    by rewrite lookup_insert_ne.
Qed.

(** ** Further properties: text and counter *)

Lemma findall_from_total s : ∀ prev skip,
  sum_list_with String.length (findall_from prev skip s) + min skip (length s)
  ≤ length s.
Proof.
  induction s as [|c s IH]; intros prev skip; cbn [findall_from]; [simpl; lia|].
  destruct skip as [|skip].
  - destruct (match_at prev (c :: s)) as [tok|] eqn:Hm.
    + apply match_at_shape in Hm as (_&Hlen&[k Hpre]).
      apply (f_equal length) in Hpre. rewrite length_app in Hpre. simpl in Hpre.
      simpl.
      assert (String.length (string_of_list_ascii tok) = length tok) as ->.
      { clear. induction tok as [|x l IHl]; simpl; [done|by rewrite IHl]. }
      specialize (IH (Some c) (length tok - 1)). lia.
    + specialize (IH (Some c) 0). simpl in *. lia.
  - specialize (IH (Some c) skip). simpl. lia.
Qed.

Lemma length_list_ascii_of_string s :
  length (list_ascii_of_string s) = String.length s.
Proof. induction s as [|c s IH]; simpl; [done|by rewrite IH]. Qed.

(** X2. The tokens of [re.findall].  On any text, every token is a letter of
    ASCII followed by letters of ASCII or hyphens and has at least 3
    characters; the tokens do not overlap, so their lengths add up to at most
    the number of characters the pattern sees, which is at most the number of
    bytes of the text; on a text of ASCII the pattern sees the text itself.
    A text without capitals has tokens without capitals; so the tokens of a
    lowercased text are lowercase words, on a text of ASCII and on any text
    that [lower()] leaves without a capital of ASCII.  And every run of at
    least 3 letters of ASCII that stands between separators (characters that
    are neither word characters nor hyphens) or ends of the text is a
    token. *)
Theorem re_findall_words_tokens text :
  Forall (λ tok, word_chars (list_ascii_of_string tok) ∧ 3 ≤ String.length tok
                 ∧ (no_capital text → is_lower_word tok))
         (re_findall_words text)
  ∧ (ascii_text text = true ∨ no_capital (unicode_lower text) →
     Forall (λ tok, is_lower_word tok ∧ 3 ≤ String.length tok)
            (re_findall_words (py_lower text)))
  ∧ sum_list_with String.length (re_findall_words text)
    ≤ length (regex_view 0 (list_ascii_of_string text))
  ∧ length (regex_view 0 (list_ascii_of_string text)) ≤ String.length text
  ∧ (ascii_text text = true →
     regex_view 0 (list_ascii_of_string text) = list_ascii_of_string text)
  ∧ (∀ w, word_of_view 3 w (regex_view 0 (list_ascii_of_string text)) →
          string_of_list_ascii w ∈ re_findall_words text).
Proof.
  split; [|split; [|split; [|split; [|split]]]];
    [| | | | |intros w; apply re_findall_words_complete].
  - apply Forall_forall. intros tok Htok. by apply re_findall_words_shape.
  - intros Hlow. apply Forall_forall. intros tok Htok.
    by apply (re_findall_lower_words text).
  - unfold re_findall_words.
    pose proof (findall_from_total (regex_view 0 (list_ascii_of_string text)) None 0)
      as H.
    simpl in H. lia.
  - rewrite <-length_list_ascii_of_string. apply regex_view_length.
  - apply regex_view_ascii.
Qed.

Lemma counter_add_total w c :
  sum_list_with snd (counter_add w c) = S (sum_list_with snd c).
Proof.
  induction c as [|[k n] c IH]; simpl; [done|].
  destruct (String.eqb k w); simpl; [done|]. rewrite IH. lia.
Qed.

Lemma counter_update_total ws : ∀ c,
  sum_list_with snd (counter_update c ws) = sum_list_with snd c + length ws.
Proof.
  induction ws as [|w ws IH]; intros c; simpl; [lia|].
  unfold counter_update in *. simpl. rewrite IH, counter_add_total. lia.
Qed.

(** X3. A counter fed a stream of words from empty holds each distinct word
    once, with the number of its occurrences in the stream, the words in the
    order they were first met; a word that does not occur has no entry, and
    the counts add up to the length of the stream. *)
Theorem counter_update_counts ws :
  NoDup (fst <$> counter_update [] ws)
  ∧ (∀ w n, (w, n) ∈ counter_update [] ws ↔ w ∈ ws ∧ n = occurrences w ws)
  ∧ StronglySorted (λ a b, first_index a ws < first_index b ws)
                   (fst <$> counter_update [] ws)
  ∧ sum_list_with snd (counter_update [] ws) = length ws.
Proof.
  assert (fst <$> counter_update [] ws = distinct ws) as Hkeys.
  { rewrite counter_update_distinct, <-list_fmap_compose.
    replace (fst ∘ (λ k, (k, occurrences k ws)) <$> distinct ws)
      with (id <$> distinct ws); [by rewrite list_fmap_id|].
    by apply list_fmap_ext. }
  rewrite Hkeys. split; [apply NoDup_distinct|].
  split; [|split; [apply distinct_sorted|by rewrite counter_update_total]].
  intros w n. rewrite counter_update_distinct, list_elem_of_fmap. split.
  - intros (k&Heq&Hk). injection Heq as -> ->.
    split; [by apply (elem_of_distinct ws k)|done].
  - intros [Hw ->]. exists w. split; [done|]. by apply elem_of_distinct.
Qed.

(** ** Further properties: the news classifier *)

Lemma scores_of_raise items : ∀ st e,
  scores_of items = Raise e → ∃ e', process_items st items = Raise e'.
Proof.
  induction items as [|item rest IH]; intros st e Hsc; simpl in *; [done|].
  unfold process_item at 1.
  destruct (polarity (content_of item)) as [sc|e0] eqn:Hp; simpl in *; [|by eexists].
  destruct (scores_of rest) as [scs|e1] eqn:Hrest; simpl in Hsc; [done|].
  by eapply IH.
Qed.

(** X4. Without a valid item (an empty list, or only items whose title is
    missing or empty) the analysis is the fixed empty structure; and so it is
    when the scorer raises on a valid item, whatever was analysed before. *)
Theorem analyze_news_impact_empty_structure news_items :
  (valid_news_items news_items = [] →
     analyze_news_impact news_items = _get_empty_news_analysis)
  ∧ (∀ e, scores_of (valid_news_items news_items) = Raise e →
     analyze_news_impact news_items = _get_empty_news_analysis).
Proof.
  split; [apply analyze_news_impact_no_valid|].
  intros e Hraise. unfold analyze_news_impact, analyze_news_impact_body.
  destruct news_items as [|item0 rest0]; [done|].
  destruct (valid_news_items (item0 :: rest0)) as [|v vs]; [done|].
  destruct (scores_of_raise (v :: vs) initial_state e Hraise) as [e' He'].
  by rewrite He'.
Qed.

(** The loop, on every variable of the analysis. *)
Lemma process_items_fields items : ∀ st st',
  process_items st items = Ret st' →
  ∃ recs,
    sentiments (ls_analysis st') = sentiments (ls_analysis st) ++ recs
    ∧ sentiment_distribution (ls_analysis st')
      = fold_left (λ d rec, count_category (si_sentiment_category rec) d) recs
                  (sentiment_distribution (ls_analysis st))
    ∧ sources (ls_analysis st')
      = fold_left (λ m rec, incr (si_source rec) m) recs (sources (ls_analysis st))
    ∧ topics (ls_analysis st')
      = fold_left (λ m rec, foldr incr m (si_topics rec)) recs (topics (ls_analysis st))
    ∧ ls_news_items_with_sentiment st'
      = ls_news_items_with_sentiment st ++ ((λ rec, (rec, si_sentiment rec)) <$> recs)
    ∧ Forall2 (λ item rec,
                 si_title rec = default "" (ni_title item)
                 ∧ si_source rec = default "Unknown" (ni_source item)
                 ∧ si_topics rec = detect_topics (py_lower (content_of item))
                 ∧ si_sentiment_category rec = sentiment_category_of (si_sentiment rec)
                 ∧ polarity (content_of item) = Ret (si_sentiment rec))
              items recs.
Proof.
  induction items as [|item rest IH]; intros st st' Hrun; simpl in Hrun.
  - injection Hrun as <-. exists []. simpl. rewrite !app_nil_r. by repeat split.
  - unfold process_item in Hrun at 1.
    destruct (polarity (content_of item)) as [sc|e] eqn:Hp; simpl in Hrun; [|done].
    apply IH in Hrun as (recs&Hs&Hd&Hso&Ht&Hn&Hall). simpl in *.
    eexists (_ :: recs). simpl.
    rewrite Hs, Hd, Hso, Ht, Hn, <-!app_assoc. simpl.
    split; [reflexivity|]. split; [reflexivity|]. split; [reflexivity|].
    split; [reflexivity|]. split; [reflexivity|].
    constructor; [|done]. simpl. by repeat split.
Qed.

(** The finished analysis in terms of its own records; the empty structure
    fits with no record. *)
Lemma analysis_fields raw :
  let a := analyze_news_impact raw in
  sentiment_distribution a
    = fold_left (λ d rec, count_category (si_sentiment_category rec) d) (sentiments a)
                {| positive := 0; negative := 0; neutral := 0 |}
  ∧ sources a = fold_left (λ m rec, incr (si_source rec) m) (sentiments a) ∅
  ∧ topics a = fold_left (λ m rec, foldr incr m (si_topics rec)) (sentiments a) ∅
  ∧ (∃ ranked, news_items a = Some (fst <$> ranked)
       ∧ ranked = sort_desc impact_above ((λ rec, (rec, si_sentiment rec)) <$> sentiments a))
  ∧ Forall (λ rec, si_sentiment_category rec = sentiment_category_of (si_sentiment rec)
                   ∧ ∃ item, item ∈ valid_news_items raw
                       ∧ si_title rec = default "" (ni_title item)
                       ∧ si_source rec = default "Unknown" (ni_source item)
                       ∧ si_topics rec = detect_topics (py_lower (content_of item)))
           (sentiments a).
Proof.
  intros a. subst a. unfold analyze_news_impact, analyze_news_impact_body.
  assert (sentiment_distribution _get_empty_news_analysis
    = fold_left (λ d rec, count_category (si_sentiment_category rec) d)
                (sentiments _get_empty_news_analysis)
                {| positive := 0; negative := 0; neutral := 0 |}
  ∧ sources _get_empty_news_analysis
    = fold_left (λ m rec, incr (si_source rec) m) (sentiments _get_empty_news_analysis) ∅
  ∧ topics _get_empty_news_analysis
    = fold_left (λ m rec, foldr incr m (si_topics rec))
                (sentiments _get_empty_news_analysis) ∅
  ∧ (∃ ranked, news_items _get_empty_news_analysis = Some (fst <$> ranked)
       ∧ ranked = sort_desc impact_above
                    ((λ rec, (rec, si_sentiment rec)) <$> sentiments _get_empty_news_analysis))
  ∧ Forall (λ rec, si_sentiment_category rec = sentiment_category_of (si_sentiment rec)
                   ∧ ∃ item, item ∈ valid_news_items raw
                       ∧ si_title rec = default "" (ni_title item)
                       ∧ si_source rec = default "Unknown" (ni_source item)
                       ∧ si_topics rec = detect_topics (py_lower (content_of item)))
           (sentiments _get_empty_news_analysis)) as Hempty.
  { simpl. repeat split; try done. by exists []. }
  destruct raw as [|item0 rest0]; [done|].
  destruct (valid_news_items (item0 :: rest0)) as [|v vs] eqn:Hvalid; [done|].
  destruct (process_items initial_state (v :: vs)) as [st|e] eqn:Hrun; [|done].
  simpl. apply process_items_fields in Hrun as (recs&Hs&Hd&Hso&Ht&Hn&Hall).
  simpl in Hs, Hd, Hso, Ht, Hn. rewrite Hs, Hd, Hso, Ht, Hn.
  split; [done|]. split; [done|]. split; [done|]. split; [by eexists|].
  apply Forall_forall. intros rec Hrec.
  apply list_elem_of_lookup_1 in Hrec as [i Hi].
  destruct (Forall2_lookup_r _ _ _ _ _ Hall Hi) as (item&Hitem&Ht1&Ht2&Ht3&Ht4&_).
  split; [done|]. exists item. split; [by eapply list_elem_of_lookup_2|done].
Qed.

Lemma sentiment_category_of_range sc :
  sentiment_category_of sc = "positive" ∨ sentiment_category_of sc = "negative"
  ∨ sentiment_category_of sc = "neutral".
Proof.
  unfold sentiment_category_of.
  destruct (0.2 <? sc)%float; [by left|].
  destruct (sc <? -0.2)%float; [right; by left|right; by right].
Qed.

Lemma fold_count_category (recs : list SentimentItem) : ∀ d0,
  Forall (λ rec, si_sentiment_category rec = sentiment_category_of (si_sentiment rec)) recs →
  fold_left (λ d rec, count_category (si_sentiment_category rec) d) recs d0
  = {| positive := positive d0
         + length (filter (λ rec, si_sentiment_category rec = "positive") recs);
       negative := negative d0
         + length (filter (λ rec, si_sentiment_category rec = "negative") recs);
       neutral := neutral d0
         + length (filter (λ rec, si_sentiment_category rec = "neutral") recs) |}.
Proof.
  induction recs as [|rec recs IH]; intros d0 Hall; simpl.
  - destruct d0. simpl. f_equal; lia.
  - apply Forall_cons in Hall as [Hrec Hall]. rewrite IH by done.
    rewrite !filter_cons.
    destruct (sentiment_category_of_range (si_sentiment rec)) as [Hc|[Hc|Hc]];
      rewrite <-Hrec in Hc; rewrite Hc; simpl; f_equal; lia.
Qed.

Lemma lookup_incr k k' (m : gmap string nat) :
  default 0 (incr k m !! k') = default 0 (m !! k') + (if decide (k = k') then 1 else 0).
Proof.
  unfold incr. destruct (decide (k = k')) as [->|Hne].
  - rewrite lookup_insert_eq. simpl. lia.
  - rewrite lookup_insert_ne by done. lia.
Qed.

Lemma fold_incr {A} (f : A → string) (l : list A) k : ∀ m0 : gmap string nat,
  default 0 (fold_left (λ m x, incr (f x) m) l m0 !! k)
  = default 0 (m0 !! k) + length (filter (λ x, f x = k) l).
Proof.
  induction l as [|x l IH]; intros m0; simpl; [lia|].
  rewrite IH, lookup_incr, filter_cons.
  destruct (decide (f x = k)); simpl; lia.
Qed.

Lemma foldr_incr_keys (keys : list string) (m : gmap string nat) k :
  NoDup keys →
  default 0 (foldr incr m keys !! k)
  = default 0 (m !! k) + (if decide (k ∈ keys) then 1 else 0).
Proof.
  induction keys as [|x keys IH]; intros Hnd.
  - simpl. destruct (decide (k ∈ [])) as [Hin|_]; [by apply elem_of_nil in Hin|lia].
  - apply NoDup_cons in Hnd as [Hx Hnd]. cbn [foldr].
    rewrite lookup_incr, IH by done.
    destruct (decide (x = k)) as [->|Hne].
    + destruct (decide (k ∈ keys)); [done|].
      destruct (decide (k ∈ k :: keys)) as [_|Hout]; [lia|].
      exfalso. apply Hout. left.
    + destruct (decide (k ∈ keys)) as [Hin|Hout];
        destruct (decide (k ∈ x :: keys)) as [Hin'|Hout']; try lia.
      * exfalso. apply Hout'. by right.
      * exfalso. apply elem_of_cons in Hin' as [Heq|Hin']; [congruence|done].
Qed.

Lemma fold_topics (recs : list SentimentItem) k : ∀ m0 : gmap string nat,
  Forall (λ rec, NoDup (si_topics rec)) recs →
  default 0 (fold_left (λ m rec, foldr incr m (si_topics rec)) recs m0 !! k)
  = default 0 (m0 !! k) + length (filter (λ rec, k ∈ si_topics rec) recs).
Proof.
  induction recs as [|rec recs IH]; intros m0 Hall; simpl; [lia|].
  apply Forall_cons in Hall as [Hrec Hall].
  rewrite IH, foldr_incr_keys, filter_cons by done.
  destruct (decide (k ∈ si_topics rec)); simpl; lia.
Qed.

Lemma NoDup_detect_topics content : NoDup (detect_topics content).
Proof.
  unfold detect_topics.
  assert (NoDup (fst <$> topic_keywords)) as Hnd.
  { refine (bool_decide_unpack _ _). vm_compute. exact I. }
  revert Hnd. generalize topic_keywords. intros table.
  induction table as [|[t kws] table IH]; simpl; [constructor|].
  intros [Ht Hnd]%NoDup_cons. rewrite filter_cons. simpl.
  destruct (decide _); [|by apply IH]. simpl. apply NoDup_cons. split; [|by apply IH].
  intros Hin. apply Ht. apply list_elem_of_fmap in Hin as ([t' kws']&->&Hin).
  apply list_elem_of_filter in Hin as [_ Hin].
  apply list_elem_of_fmap. by exists (t', kws').
Qed.

Lemma detect_topics_names content t :
  t ∈ detect_topics content → t ∈ fst <$> topic_keywords.
Proof.
  unfold detect_topics. intros ([t' kws]&->&Hin)%list_elem_of_fmap.
  apply list_elem_of_filter in Hin as [_ Hin].
  apply list_elem_of_fmap. by exists (t', kws).
Qed.

(** X5. The sentiment distribution of an analysis counts its records: each
    of the three counters is the number of records of that category, and the
    three add up to the number of records. *)
Theorem sentiment_distribution_counts raw :
  let a := analyze_news_impact raw in
  positive (sentiment_distribution a)
    = length (filter (λ rec, si_sentiment_category rec = "positive") (sentiments a))
  ∧ negative (sentiment_distribution a)
    = length (filter (λ rec, si_sentiment_category rec = "negative") (sentiments a))
  ∧ neutral (sentiment_distribution a)
    = length (filter (λ rec, si_sentiment_category rec = "neutral") (sentiments a))
  ∧ positive (sentiment_distribution a) + negative (sentiment_distribution a)
    + neutral (sentiment_distribution a) = length (sentiments a).
Proof.
  intros a. destruct (analysis_fields raw) as (Hd&_&_&_&Hall). fold a in Hd, Hall.
  assert (Forall (λ rec, si_sentiment_category rec
                         = sentiment_category_of (si_sentiment rec)) (sentiments a))
    as Hcats by (eapply Forall_impl; [exact Hall|]; by intros rec [? _]).
  rewrite Hd, fold_count_category by done. simpl.
  split; [done|]. split; [done|]. split; [done|].
  clear -Hcats. induction Hcats as [|rec recs Hrec _ IH]; [done|].
  rewrite !filter_cons. simpl.
  destruct (sentiment_category_of_range (si_sentiment rec)) as [Hc|[Hc|Hc]];
    rewrite <-Hrec in Hc; rewrite Hc; simpl; lia.
Qed.

(** X6. The source counters of an analysis count its records: the counter
    of a label is the number of records with that source (no counter when
    there is none), and the source of a record is the source label of its
    item, "Unknown" for an item without one. *)
Theorem sources_count_records raw :
  let a := analyze_news_impact raw in
  (∀ s, default 0 (sources a !! s)
        = length (filter (λ rec, si_source rec = s) (sentiments a)))
  ∧ Forall (λ rec, ∃ item, item ∈ valid_news_items raw
                     ∧ si_title rec = default "" (ni_title item)
                     ∧ si_source rec = default "Unknown" (ni_source item))
           (sentiments a).
Proof.
  intros a. destruct (analysis_fields raw) as (_&Hs&_&_&Hall). fold a in Hs, Hall.
  split.
  - intros s. rewrite Hs, fold_incr, lookup_empty. simpl. lia.
  - eapply Forall_impl; [exact Hall|]. intros rec (_&item&?&?&?&_). eauto.
Qed.

(** X7. The topic counters of an analysis count its records, each once per
    topic: the counter of a topic is the number of records tagged with it;
    the tags of a record are distinct names of the topic table, those whose
    keyword list has a keyword occurring in the lowercased content. *)
Theorem topics_count_records raw :
  let a := analyze_news_impact raw in
  (∀ t, default 0 (topics a !! t)
        = length (filter (λ rec, t ∈ si_topics rec) (sentiments a)))
  ∧ Forall (λ rec, NoDup (si_topics rec)
                   ∧ (∀ t, t ∈ si_topics rec → t ∈ fst <$> topic_keywords)
                   ∧ ∃ item, item ∈ valid_news_items raw
                       ∧ ∀ t, t ∈ si_topics rec ↔
                           ∃ kws, (t, kws) ∈ topic_keywords
                                  ∧ ∃ kw, kw ∈ kws
                                      ∧ contains kw (py_lower (content_of item)) = true)
           (sentiments a).
Proof.
  intros a. destruct (analysis_fields raw) as (_&_&Ht&_&Hall). fold a in Ht, Hall.
  assert (Forall (λ rec, NoDup (si_topics rec)) (sentiments a)) as Hnd.
  { eapply Forall_impl; [exact Hall|]. intros rec (_&item&_&_&_&->).
    apply NoDup_detect_topics. }
  split.
  - intros t. rewrite Ht, fold_topics, lookup_empty by done. simpl. lia.
  - eapply Forall_impl; [exact Hall|]. intros rec (_&item&Hitem&_&_&->).
    split; [apply NoDup_detect_topics|]. split; [apply detect_topics_names|].
    exists item. split; [done|]. intros t. unfold detect_topics.
    rewrite list_elem_of_fmap. split.
    + intros ([t' kws]&->&Hin). apply list_elem_of_filter in Hin as [Hany Hin].
      exists kws. split; [done|]. simpl in Hany.
      apply existsb_exists in Hany as (kw&Hkw&Hc). exists kw.
      split; [by apply list_elem_of_In|done].
    + intros (kws&Hin&kw&Hkw&Hc). exists (t, kws). split; [done|].
      apply list_elem_of_filter. split; [|done]. simpl.
      apply existsb_exists. exists kw. split; [by apply list_elem_of_In|done].
Qed.

Lemma not_nan_rank x : is_nan x = false ↔ ∃ a, frank x = Some a.
Proof.
  unfold is_nan. rewrite negb_false_iff, eqb_rank. split.
  - intros (a&Ha&_). eauto.
  - intros (a&Ha). eauto.
Qed.

Lemma abs_not_nan x : is_nan x = false → is_nan (abs x) = false.
Proof.
  rewrite !not_nan_rank. unfold frank. rewrite abs_spec.
  destruct (Prim2SF x) as [[]|[]| |[] m e]; simpl; intros (a&Ha); by eauto.
Qed.

(** Among values that are not NaN, "not below" is transitive. *)
Lemma ltb_false_trans x y z :
  is_nan x = false → is_nan y = false → is_nan z = false →
  (x <? y)%float = false → (y <? z)%float = false → (x <? z)%float = false.
Proof.
  intros ([[x1 x2] x3]&Hx)%not_nan_rank ([[y1 y2] y3]&Hy)%not_nan_rank
         ([[z1 z2] z3]&Hz)%not_nan_rank Hxy Hyz.
  destruct (x <? z)%float eqn:Hxz; [|done].
  apply ltb_rank in Hxz as (a&b&Ha&Hb&Hlt).
  rewrite Hx in Ha. rewrite Hz in Hb. simplify_eq.
  apply lex_compare_Lt in Hlt.
  assert (¬ lex_compare (x1, x2, x3) (y1, y2, y3) = Lt) as Hn1.
  { intros H. rewrite (proj2 (ltb_rank x y)) in Hxy; [done|]. eauto 6. }
  assert (¬ lex_compare (y1, y2, y3) (z1, z2, z3) = Lt) as Hn2.
  { intros H. rewrite (proj2 (ltb_rank y z)) in Hyz; [done|]. eauto 6. }
  rewrite lex_compare_Lt in Hn1, Hn2. lia.
Qed.




Lemma insert_desc_sorted {A} (key : A → float) x l :
  is_nan (key x) = false → Forall (λ y, is_nan (key y) = false) l →
  StronglySorted (λ a b, (key a <? key b)%float = false) l →
  StronglySorted (λ a b, (key a <? key b)%float = false)
                 (insert_desc (λ a b, (key a <? key b)%float) x l).
Proof.
  intros Hx. induction l as [|y l IH]; intros Hl Hs; simpl.
  - repeat constructor.
  - apply Forall_cons in Hl as [Hy Hl]. apply StronglySorted_cons in Hs as [Hyl Hs].
    destruct (key x <? key y)%float eqn:Habove.
    + constructor; [by apply IH|]. rewrite insert_desc_perm.
      constructor; [by apply ltb_asym|done].
    + constructor; [by constructor|]. constructor; [done|].
      apply Forall_forall. intros z Hz.
      apply (ltb_false_trans _ (key y)); try done.
      * by eapply Forall_forall in Hl.
      * by eapply Forall_forall in Hyl.
Qed.

Lemma sort_desc_sorted {A} (key : A → float) l :
  Forall (λ y, is_nan (key y) = false) l →
  StronglySorted (λ a b, (key a <? key b)%float = false)
                 (sort_desc (λ a b, (key a <? key b)%float) l).
Proof.
  induction l as [|x l IH]; intros Hl; simpl; [constructor|].
  apply Forall_cons in Hl as [Hx Hl].
  apply insert_desc_sorted; [done| |by apply IH]. by rewrite sort_desc_perm.
Qed.

Lemma StronglySorted_fmap_on {A B} (f : A → B) (P : A → Prop)
    (R1 : relation A) (R2 : relation B) l :
  (∀ x y, P x → P y → R1 x y → R2 (f x) (f y)) →
  Forall P l → StronglySorted R1 l → StronglySorted R2 (f <$> l).
Proof.
  intros HR. induction l as [|x l IH]; intros Hl Hs; csimpl; [constructor|].
  apply Forall_cons in Hl as [Hx Hl]. apply StronglySorted_cons in Hs as [Hxl Hs].
  constructor; [by apply IH|]. apply Forall_fmap, Forall_forall. intros y Hy.
  apply HR; [done| |]; by eapply Forall_forall in Hy.
Qed.

(** X8. The [news_items] of an analysis are its records in another order:
    a permutation of [sentiments]; when no score is NaN they are in
    descending order of absolute score, the most impactful first. *)
Theorem news_items_most_impactful_first raw :
  let a := analyze_news_impact raw in
  ∃ l, news_items a = Some l
       ∧ l ≡ₚ sentiments a
       ∧ (Forall (λ rec, is_nan (si_sentiment rec) = false) (sentiments a) →
          StronglySorted (λ r1 r2, (abs (si_sentiment r1) <? abs (si_sentiment r2))%float
                                   = false) l).
Proof.
  intros a. destruct (analysis_fields raw) as (_&_&_&(ranked&Hn&Hranked)&_).
  fold a in Hn, Hranked. exists (fst <$> ranked). split; [done|].
  set (pairs := (λ rec, (rec, si_sentiment rec)) <$> sentiments a) in *.
  assert (fst <$> pairs = sentiments a) as Hfst.
  { subst pairs. rewrite <-list_fmap_compose.
    replace (fst ∘ (λ rec, (rec, si_sentiment rec)) <$> sentiments a)
      with (id <$> sentiments a); [by rewrite list_fmap_id|].
    by apply list_fmap_ext. }
  split.
  - rewrite Hranked, sort_desc_perm. by rewrite Hfst.
  - intros Hnan.
    assert (Forall (λ p : SentimentItem * float, snd p = si_sentiment (fst p)) pairs)
      as Hpairs.
    { subst pairs. apply Forall_fmap, Forall_forall. by intros rec _. }
    assert (Forall (λ p : SentimentItem * float, is_nan (abs (snd p)) = false) pairs)
      as Hkeys.
    { subst pairs. apply Forall_fmap. eapply Forall_impl; [exact Hnan|].
      intros rec Hrec. by apply abs_not_nan. }
    apply (StronglySorted_fmap_on fst
             (λ p : SentimentItem * float, snd p = si_sentiment (fst p))
             (λ p q, (abs (snd p) <? abs (snd q))%float = false)).
    + intros p q Hp Hq. by rewrite Hp, Hq.
    + by rewrite Hranked, sort_desc_perm.
    + rewrite Hranked. apply (sort_desc_sorted (λ p, abs (snd p))). exact Hkeys.
Qed.

(** ** Further properties: the correlation engine *)

Lemma before_char_prefix c s : ∃ rest, s = (before_char c s ++ rest)%string.
Proof.
  induction s as [|x s [rest IH]]; simpl; [by exists ""|].
  destruct (Ascii.eqb x c); [by exists (String x s)|].
  exists rest. exact (f_equal (String x) IH).
Qed.

Lemma before_char_clean c s : has_char c (before_char c s) = false.
Proof.
  induction s as [|x s IH]; simpl; [done|].
  destruct (Ascii.eqb x c) eqn:Hx; simpl; [done|]. by rewrite Hx.
Qed.

Lemma before_char_other c c' s :
  has_char c' s = false → has_char c' (before_char c s) = false.
Proof.
  induction s as [|x s IH]; simpl; [done|].
  intros [Hx Hs]%orb_false_elim.
  destruct (Ascii.eqb x c); simpl; [done|]. by rewrite Hx, IH.
Qed.

Lemma append_cons x s t : (String x s ++ t)%string = String x (s ++ t)%string.
Proof. reflexivity. Qed.

Lemma append_empty_r s : (s ++ "")%string = s.
Proof. induction s as [|x s IH]; [done|]. by rewrite append_cons, IH. Qed.

Lemma append_assoc s t u : ((s ++ t) ++ u)%string = (s ++ t ++ u)%string.
Proof. induction s as [|x s IH]; [done|]. by rewrite !append_cons, IH. Qed.

Lemma has_char_app c s t : has_char c (s ++ t)%string = has_char c s || has_char c t.
Proof.
  induction s as [|x s IH]; [done|].
  rewrite append_cons. simpl. by rewrite IH, orb_assoc.
Qed.

Lemma before_char_app c s t :
  has_char c s = false → before_char c (s ++ String c t)%string = s.
Proof.
  induction s as [|x s IH].
  - intros _. change ("" ++ String c t)%string with (String c t). simpl.
    by rewrite Ascii.eqb_refl.
  - rewrite append_cons. simpl. intros [Hx Hs]%orb_false_elim. by rewrite Hx, IH.
Qed.

Lemma substring_prefix n s : ∃ rest, s = (String.substring 0 n s ++ rest)%string.
Proof.
  revert s. induction n as [|n IH]; intros [|x s]; simpl;
    [by exists ""|by exists (String x s)|by exists ""|].
  destruct (IH s) as [rest Hrest]. exists rest. exact (f_equal (String x) Hrest).
Qed.

Lemma has_char_substring c n s :
  has_char c s = false → has_char c (String.substring 0 n s) = false.
Proof.
  revert s. induction n as [|n IH]; intros [|x s]; simpl; try done.
  intros [Hx Hs]%orb_false_elim. by rewrite Hx, IH.
Qed.

Lemma length_substring_0 n s :
  String.length (String.substring 0 n s) = min n (String.length s).
Proof.
  revert s. induction n as [|n IH]; intros [|x s]; simpl; try done. by rewrite IH.
Qed.

(** X9. The date of a timestamp.  A date the engine accepts has at least 10
    characters, is a prefix of the timestamp and holds no space.  The part
    before the first space is the date, whatever follows; without a space,
    the part before the first "T"; without either, the first 10 characters.
    A part shorter than 10 characters is no date: the item is skipped. *)
Theorem date_of_timestamp :
  (∀ timestamp d, date_of timestamp = Some d →
     10 ≤ String.length d
     ∧ (∃ rest, timestamp = (d ++ rest)%string)
     ∧ has_char " " d = false)
  ∧ (∀ d rest, has_char " " d = false →
       date_of (d ++ " " ++ rest)
       = if String.length d <? 10 then None else Some d)
  ∧ (∀ d rest, has_char " " d = false → has_char "T" d = false →
       has_char " " rest = false →
       date_of (d ++ "T" ++ rest)
       = if String.length d <? 10 then None else Some d)
  ∧ (∀ timestamp, has_char " " timestamp = false → has_char "T" timestamp = false →
       date_of timestamp
       = if String.length timestamp <? 10 then None
         else Some (String.substring 0 10 timestamp)).
Proof.
  split; [|split; [|split]].
  - intros timestamp d. unfold date_of.
    destruct (has_char " " timestamp) eqn:Hsp; [|destruct (has_char "T" timestamp) eqn:HT].
    + destruct (_ <? 10) eqn:Hlen; [done|]. intros [= <-].
      apply Nat.ltb_ge in Hlen.
      split; [done|]. split; [apply before_char_prefix|apply before_char_clean].
    + destruct (_ <? 10) eqn:Hlen; [done|]. intros [= <-].
      apply Nat.ltb_ge in Hlen.
      split; [done|]. split; [apply before_char_prefix|by apply before_char_other].
    + destruct (_ <? 10) eqn:Hlen; [done|]. intros [= <-].
      apply Nat.ltb_ge in Hlen.
      split; [done|]. split; [apply substring_prefix|by apply has_char_substring].
  - intros d rest Hd. unfold date_of.
    change (d ++ " " ++ rest)%string with (d ++ String " " rest)%string.
    rewrite has_char_app. simpl. rewrite orb_true_r.
    by rewrite before_char_app.
  - intros d rest Hd HT Hrest. unfold date_of.
    change (d ++ "T" ++ rest)%string with (d ++ String "T" rest)%string.
    rewrite !has_char_app. simpl. rewrite Hd, Hrest, orb_true_r. simpl.
    by rewrite before_char_app.
  - intros timestamp Hsp HT. unfold date_of. rewrite Hsp, HT.
    rewrite length_substring_0.
    destruct (String.length timestamp <? 10) eqn:Hlen.
    + apply Nat.ltb_lt in Hlen.
      by rewrite (proj2 (Nat.ltb_lt (min 10 (String.length timestamp)) 10)) by lia.
    + apply Nat.ltb_ge in Hlen.
      by rewrite (proj2 (Nat.ltb_ge (min 10 (String.length timestamp)) 10)) by lia.
Qed.

Lemma count_date_classes d dated :
  count_date d dated
  = count_class d "negative" dated + count_class d "neutral" dated
    + count_class d "positive" dated.
Proof.
  induction dated as [|[d' s] dated IH] using rev_ind; [done|].
  rewrite count_date_snoc, !count_class_snoc, IH; simpl.
  destruct (decide (d' = d)) as [->|Hne].
  - assert (∀ cls, (if decide (d = d ∧ news_class s = cls) then 1 else 0)
                   = (if decide (news_class s = cls) then 1 else 0)) as Hcls.
    { intros cls. destruct (decide (news_class s = cls)).
      - by rewrite decide_True by (by split).
      - by rewrite decide_False by (by intros [_ ?]). }
    rewrite !Hcls. unfold news_class.
    destruct (s <? -0.1)%float; [simpl; lia|].
    destruct (0.1 <? s)%float; simpl; lia.
  - rewrite !decide_False by (by intros [? _]). lia.
Qed.

Lemma news_row_counts news_items d p :
  let row := news_row (group_news_by_date news_items) d p in
  date row = d ∧ price row = p
  ∧ total_news row = count_date d (dated_news news_items)
  ∧ negative_news row = count_class d "negative" (dated_news news_items)
  ∧ neutral_news row = count_class d "neutral" (dated_news news_items)
  ∧ positive_news row = count_class d "positive" (dated_news news_items).
Proof.
  unfold news_row, group_news_by_date. cbv zeta. by rewrite fold_add_news.
Qed.

Lemma correlation_rows_dates price_data news_by_date dates : ∀ i rows,
  correlation_rows price_data news_by_date i dates = Ret rows →
  date <$> rows = dates
  ∧ Forall (λ row, ∃ p, row = news_row news_by_date (date row) p) rows.
Proof.
  induction dates as [|d dates IH]; intros i rows; simpl.
  - intros [= <-]. by split.
  - unfold correlation_row.
    destruct (getitem price_data "Close") as [close|]; [|done]. simpl.
    destruct (iloc close i) as [p|]; [|done]. simpl.
    destruct (correlation_rows _ _ (S i) dates) as [rows'|] eqn:Hrows; [|done].
    simpl. intros [= <-]. destruct (IH _ _ Hrows) as [Hd Hall]. split.
    + csimpl. by rewrite Hd.
    + constructor; [by exists p|done].
Qed.

(** X10. The shape of every result of the correlation engine.  The call
    returns; [days_analyzed] is the number of rows, at most 10; the error is
    null exactly when there is a row; a coefficient is reported only without
    error and from at least two rows; and in every row the total news count
    is the sum of the negative, neutral and positive counts. *)
Theorem correlation_result_shape security_data news_items :
  ∃ r, compute_price_news_correlation security_data news_items = Ret r
    ∧ days_analyzed r = length (data r)
    ∧ days_analyzed r ≤ 10
    ∧ (error r = None ↔ 1 ≤ days_analyzed r)
    ∧ (is_Some (correlation_coefficient r) → error r = None ∧ 2 ≤ days_analyzed r)
    ∧ Forall (λ row, total_news row
                     = negative_news row + neutral_news row + positive_news row)
             (data r).
Proof.
  assert (∀ m, ∃ r, Ret (error_result m) = Ret r
    ∧ days_analyzed r = length (data r)
    ∧ days_analyzed r ≤ 10
    ∧ (error r = None ↔ 1 ≤ days_analyzed r)
    ∧ (is_Some (correlation_coefficient r) → error r = None ∧ 2 ≤ days_analyzed r)
    ∧ Forall (λ row, total_news row
                     = negative_news row + neutral_news row + positive_news row)
             (data r)) as Herr.
  { intros m. exists (error_result m). split; [done|]. simpl.
    split; [done|]. split; [lia|]. split; [split; [done|lia]|].
    split; [by intros [? ?]|constructor]. }
  destruct (security_data ≫= sd_data) as [frames|] eqn:Hframes.
  2: { unfold compute_price_news_correlation, correlation_body. rewrite Hframes.
       apply Herr. }
  destruct (select_price_data frames) as [price_data|] eqn:Hsel.
  2: { unfold compute_price_news_correlation, correlation_body. rewrite Hframes, Hsel.
       destruct (news_is_empty news_items); apply Herr. }
  rewrite (correlation_body_selected _ _ frames price_data) by done.
  destruct (news_is_empty news_items); [apply Herr|]. cbv zeta.
  pose proof (selected_frame_nonempty _ _ Hsel) as Hpos.
  set (n := min 10 (df_len price_data)) in *.
  destruct (correlation_rows _ _ _ _) as [rows|e] eqn:Hrows; [|apply Herr].
  apply correlation_rows_dates in Hrows as [Hdates Hall].
  assert (length rows = n) as Hlen.
  { apply (f_equal length) in Hdates. rewrite length_fmap in Hdates.
    rewrite Hdates. cbn [index df_tail]. rewrite length_lastn.
    unfold df_len in *. lia. }
  eexists. split; [reflexivity|]. cbn [days_analyzed data error correlation_coefficient].
  split; [done|]. split; [lia|]. split; [split; [lia|done]|]. split.
  - intros Hc. split; [done|].
    destruct (decide (2 ≤ length rows)) as [?|Hshort]; [done|].
    rewrite coefficient_of_short in Hc; [by destruct Hc|].
    rewrite length_fmap. lia.
  - eapply Forall_impl; [exact Hall|]. intros row [p ->].
    destruct (news_row_counts news_items (date (news_row (group_news_by_date news_items)
                                                   (date row) p)) p)
      as (_&_&Ht&Hn&Hu&Hp).
    simpl in *. rewrite Ht, Hn, Hu, Hp. apply count_date_classes.
Qed.

(** X11. The rows of a successful analysis.  With news and a selected frame
    whose closing column is as long as its index, the call reports no error
    and one row for each of the last 10 rows of the frame (all of them when
    there are fewer), in order: the row carries the date and the closing
    price of its price row, and counts exactly the news dated that day, in
    total and by class. *)
Theorem correlation_rows_of_selected_frame
    security_data news_items frames price_data closes :
  security_data ≫= sd_data = Some frames →
  select_price_data frames = Some price_data →
  news_is_empty news_items = false →
  columns price_data !! "Close" = Some closes →
  length closes = df_len price_data →
  ∃ r, compute_price_news_correlation security_data news_items = Ret r
    ∧ error r = None
    ∧ days_analyzed r = min 10 (df_len price_data)
    ∧ date <$> data r = lastn (min 10 (df_len price_data)) (index price_data)
    ∧ price <$> data r = lastn (min 10 (df_len price_data)) closes
    ∧ Forall (λ row,
        let dated := dated_news news_items in
        total_news row = count_date (date row) dated
        ∧ negative_news row = count_class (date row) "negative" dated
        ∧ neutral_news row = count_class (date row) "neutral" dated
        ∧ positive_news row = count_class (date row) "positive" dated) (data r).
Proof.
  intros Hframes Hsel Hnews Hclose Hlen.
  rewrite (correlation_body_selected _ _ frames price_data) by done.
  rewrite Hnews. cbv zeta. set (n := min 10 (df_len price_data)).
  rewrite (correlation_rows_ok _ _ (lastn n closes)).
  2: { simpl. by rewrite lookup_fmap, Hclose. }
  2: { simpl. rewrite !length_lastn. unfold df_len in Hlen. lia. }
  rewrite drop_0. cbn [index df_tail].
  assert (length (lastn n (index price_data)) = length (lastn n closes)) as Hsame.
  { rewrite !length_lastn. unfold df_len in Hlen. lia. }
  set (dates := lastn n (index price_data)) in *.
  set (ps := lastn n closes) in *.
  assert (date <$> zip_with (news_row (group_news_by_date news_items)) dates ps = dates
          ∧ price <$> zip_with (news_row (group_news_by_date news_items)) dates ps = ps)
    as [Hdates Hprices].
  { clearbody dates ps. revert ps Hsame.
    induction dates as [|d dates IH]; intros [|p ps] Hsame; simplify_eq/=; [done|].
    destruct (IH ps) as [-> ->]; [lia|done]. }
  eexists. split; [reflexivity|]. cbn [error days_analyzed data].
  split; [done|]. split.
  { rewrite length_zip_with. subst dates ps. rewrite !length_lastn.
    unfold df_len in *. lia. }
  split; [done|]. split; [done|].
  apply Forall_forall. intros row Hrow.
  apply elem_of_lookup_zip_with in Hrow as (i&d&p&->&_&_).
  destruct (news_row_counts news_items d p) as (Hd&_&Ht&Hn&Hu&Hp).
  cbv zeta in *. rewrite Hd. done.
Qed.

(** X12. The frame is chosen by emptiness alone.  A week frame with rows
    and columns but without a closing column is selected, whatever the month
    and year frames hold, and the call returns the handler's error for the
    missing column. *)
Theorem correlation_week_without_close security_data news_items frames week :
  security_data ≫= sd_data = Some frames →
  frames !! "week" = Some week →
  df_empty week = false →
  columns week !! "Close" = None →
  news_is_empty news_items = false →
  compute_price_news_correlation security_data news_items
  = Ret (error_result "Error in correlation calculation: 'Close'").
Proof.
  intros Hframes Hweek Hempty Hclose Hnews.
  assert (select_price_data frames = Some week) as Hsel.
  { unfold select_price_data, nonempty_frame. by rewrite Hweek, Hempty. }
  pose proof (selected_frame_nonempty _ _ Hsel) as Hpos.
  rewrite (correlation_body_selected _ _ frames week) by done.
  rewrite Hnews. cbv zeta. set (n := min 10 (df_len week)).
  assert (∃ d dates, index (df_tail n week) = d :: dates) as (d&dates&Hidx).
  { destruct (index (df_tail n week)) as [|d dates] eqn:Hidx; [|eauto].
    apply (f_equal length) in Hidx. cbn [index df_tail] in Hidx.
    rewrite length_lastn in Hidx. unfold df_len in *. simpl in Hidx. lia. }
  rewrite Hidx, correlation_rows_no_close; [done|].
  simpl. by rewrite lookup_fmap, Hclose.
Qed.

(** ** Further properties: the indicator engine *)

Lemma bind_ret {A B} (m : py A) (k : A → py B) b :
  m ≫= k = Ret b → ∃ a, m = Ret a ∧ k a = Ret b.
Proof. destruct m as [a|e]; [by exists a|done]. Qed.

Lemma sma_block_words df s :
  sma_block df = Ret s →
  sma5_signal s ∈ ["buy"; "sell"] ∧ sma10_signal s ∈ ["buy"; "sell"]
  ∧ crossover s ∈ ["bullish"; "bearish"].
Proof.
  unfold sma_block.
  intros (close&_&H)%bind_ret. cbv zeta in H.
  apply bind_ret in H as (c&_&H). apply bind_ret in H as (s5&_&H).
  apply bind_ret in H as (s10&_&H). injection H as <-. simpl.
  destruct (s5 <? c)%float, (s10 <? c)%float, (s10 <? s5)%float;
    repeat split; by repeat constructor.
Qed.

Lemma rsi_block_words df r sg :
  rsi_block df = Ret (r, sg) →
  sg = rsi_signal_of r ∧ sg ∈ ["buy"; "sell"; "neutral"].
Proof.
  unfold rsi_block.
  intros (close&_&H)%bind_ret. cbv zeta in H.
  apply bind_ret in H as (r'&_&H). injection H as <- <-. split; [done|].
  unfold rsi_signal_of.
  destruct (70 <? r')%float; [|destruct (r' <? 30)%float]; by repeat constructor.
Qed.

Lemma macd_block_words df m sg h :
  macd_block df = Ret (m, sg, h) → sg ∈ ["buy"; "sell"].
Proof.
  unfold macd_block.
  intros (close&_&H)%bind_ret. cbv zeta in H.
  apply bind_ret in H as (m'&_&H). apply bind_ret in H as (s'&_&H).
  apply bind_ret in H as (h'&_&H). injection H as <- <- <-.
  destruct (s' <? m')%float; by repeat constructor.
Qed.

Lemma bollinger_block_words df bb :
  bollinger_block df = Ret bb → signal bb ∈ ["buy"; "sell"; "neutral"].
Proof.
  unfold bollinger_block.
  intros (close&_&H)%bind_ret. cbv zeta in H.
  apply bind_ret in H as (c&_&H). apply bind_ret in H as (u&_&H).
  apply bind_ret in H as (l&_&H). apply bind_ret in H as (m&_&H).
  injection H as <-. simpl.
  destruct (u <? c)%float; [|destruct (c <? l)%float]; by repeat constructor.
Qed.

Lemma attempt_some {A} (block : py A) a : attempt block = Some a → block = Ret a.
Proof. destruct block; simpl; congruence. Qed.

(** X13. The words of the indicator engine.  In every bundle the engine
    returns, the two moving-average signals and the MACD signal are "buy" or
    "sell", the crossover is "bullish" or "bearish", the RSI and Bollinger
    signals and the four aggregate entries are "buy", "sell" or "neutral";
    the RSI signal is "sell" above 70, "buy" below 30 and "neutral"
    otherwise, a NaN reading included; and the RSI and its signal, and the
    MACD, its signal and its histogram, are present together. *)
Theorem technical_signal_words price_data :
  ∃ b, _get_technical_analysis price_data = Ret b
    ∧ (∀ s, ta_sma b = Some s →
         sma5_signal s ∈ ["buy"; "sell"] ∧ sma10_signal s ∈ ["buy"; "sell"]
         ∧ crossover s ∈ ["bullish"; "bearish"])
    ∧ (∀ sg, ta_rsi_signal b = Some sg → sg ∈ ["buy"; "sell"; "neutral"])
    ∧ (∀ sg, ta_macd_signal b = Some sg → sg ∈ ["buy"; "sell"])
    ∧ (∀ bb, ta_bollinger b = Some bb → signal bb ∈ ["buy"; "sell"; "neutral"])
    ∧ (∀ sg, ta_signals b = Some sg →
         Forall (λ w, w ∈ ["buy"; "sell"; "neutral"])
                [sig_sma sg; sig_rsi sg; sig_macd sg; sig_bollinger sg])
    ∧ ta_rsi_signal b
      = (λ r, if (70 <? r)%float then "sell"
              else if (r <? 30)%float then "buy" else "neutral") <$> ta_rsi b
    ∧ (is_Some (ta_macd b) ↔ is_Some (ta_macd_signal b))
    ∧ (is_Some (ta_macd b) ↔ is_Some (ta_macd_histogram b)).
Proof.
  assert (∃ b, Ret empty_bundle = Ret b
    ∧ (∀ s, ta_sma b = Some s →
         sma5_signal s ∈ ["buy"; "sell"] ∧ sma10_signal s ∈ ["buy"; "sell"]
         ∧ crossover s ∈ ["bullish"; "bearish"])
    ∧ (∀ sg, ta_rsi_signal b = Some sg → sg ∈ ["buy"; "sell"; "neutral"])
    ∧ (∀ sg, ta_macd_signal b = Some sg → sg ∈ ["buy"; "sell"])
    ∧ (∀ bb, ta_bollinger b = Some bb → signal bb ∈ ["buy"; "sell"; "neutral"])
    ∧ (∀ sg, ta_signals b = Some sg →
         Forall (λ w, w ∈ ["buy"; "sell"; "neutral"])
                [sig_sma sg; sig_rsi sg; sig_macd sg; sig_bollinger sg])
    ∧ ta_rsi_signal b
      = (λ r, if (70 <? r)%float then "sell"
              else if (r <? 30)%float then "buy" else "neutral") <$> ta_rsi b
    ∧ (is_Some (ta_macd b) ↔ is_Some (ta_macd_signal b))
    ∧ (is_Some (ta_macd b) ↔ is_Some (ta_macd_histogram b))) as Hempty.
  { exists empty_bundle. split; [done|]. simpl. repeat split; try done.
    all: by intros [? ?]. }
  unfold _get_technical_analysis.
  destruct price_data as [data|]; [|exact Hempty].
  destruct (data !! "week") as [week|]; [|exact Hempty].
  destruct (df_empty week); [exact Hempty|].
  destruct (df_len week <? 10)%nat; [exact Hempty|].
  eexists. split; [reflexivity|]. cbv zeta.
  cbn [ta_sma ta_rsi ta_rsi_signal ta_macd ta_macd_signal ta_macd_histogram
       ta_bollinger ta_signals].
  assert (∀ sg, snd <$> attempt (rsi_block week) = Some sg →
                sg ∈ ["buy"; "sell"; "neutral"]) as Hrsi.
  { intros sg. destruct (attempt (rsi_block week)) as [[r sg']|] eqn:Hb; [|done].
    intros [= <-]. apply attempt_some in Hb. by apply rsi_block_words in Hb as [_ ?]. }
  assert (∀ sg, (λ m, snd (fst m)) <$> attempt (macd_block week) = Some sg →
                sg ∈ ["buy"; "sell"]) as Hmacd.
  { intros sg. destruct (attempt (macd_block week)) as [[[m sg'] h]|] eqn:Hb; [|done].
    intros [= <-]. apply attempt_some in Hb. by apply macd_block_words in Hb. }
  assert (∀ s, attempt (sma_block week) = Some s →
               sma5_signal s ∈ ["buy"; "sell"] ∧ sma10_signal s ∈ ["buy"; "sell"]
               ∧ crossover s ∈ ["bullish"; "bearish"]) as Hsma.
  { intros s Hb. apply attempt_some in Hb. by apply sma_block_words in Hb. }
  assert (∀ bb, attempt (bollinger_block week) = Some bb →
                signal bb ∈ ["buy"; "sell"; "neutral"]) as Hboll.
  { intros bb Hb. apply attempt_some in Hb. by apply bollinger_block_words in Hb. }
  split; [exact Hsma|]. split; [exact Hrsi|]. split; [exact Hmacd|].
  split; [exact Hboll|]. split; [|split; [|split]].
  - intros sg [= <-]. unfold aggregate_signals, get_or_neutral. simpl.
    assert ("neutral" ∈ ["buy"; "sell"; "neutral"]) as Hneutral
      by (by repeat constructor).
    repeat (apply Forall_cons; split); [| | | |by constructor].
    + destruct (attempt (sma_block week)) as [s|] eqn:Hs; [|done]. simpl.
      destruct (Hsma s eq_refl) as (H5&_&_).
      apply elem_of_cons in H5 as [->|H5]; [by repeat constructor|].
      apply list_elem_of_singleton in H5 as ->. by repeat constructor.
    + destruct (snd <$> attempt (rsi_block week)) as [sg|] eqn:Hs; [|done]. simpl.
      by apply Hrsi.
    + destruct ((λ m, snd (fst m)) <$> attempt (macd_block week)) as [sg|] eqn:Hs;
        [|done]. simpl.
      specialize (Hmacd sg eq_refl).
      apply elem_of_cons in Hmacd as [->|H5]; [by repeat constructor|].
      apply list_elem_of_singleton in H5 as ->. by repeat constructor.
    + destruct (attempt (bollinger_block week)) as [bb|] eqn:Hs; [|done]. simpl.
      by apply Hboll.
  - destruct (attempt (rsi_block week)) as [[r sg']|] eqn:Hb; [|done]. simpl.
    apply attempt_some in Hb. by apply rsi_block_words in Hb as [-> _].
  - destruct (attempt (macd_block week)) as [[[m sg'] h]|]; simpl; [|done].
    split; eauto.
  - destruct (attempt (macd_block week)) as [[[m sg'] h]|]; simpl; [|done].
    split; eauto.
Qed.

(** X14. A week of at least 10 rows that has columns but no closing column
    makes the four indicator computations fail one by one; the engine does
    not raise and returns a bundle without any indicator whose aggregate
    reads "neutral" four times, which is not the empty bundle of a short
    series. *)
Theorem technical_analysis_without_close data week :
  data !! "week" = Some week →
  df_empty week = false →
  10 ≤ df_len week →
  columns week !! "Close" = None →
  ∃ b, _get_technical_analysis (Some data) = Ret b
    ∧ b ≠ empty_bundle
    ∧ ta_sma b = None ∧ ta_rsi b = None ∧ ta_macd b = None ∧ ta_bollinger b = None
    ∧ ta_signals b = Some {| sig_sma := "neutral"; sig_rsi := "neutral";
                             sig_macd := "neutral"; sig_bollinger := "neutral" |}.
Proof.
  intros Hweek Hempty Hlen Hclose. unfold _get_technical_analysis.
  rewrite Hweek, Hempty. apply Nat.ltb_ge in Hlen. rewrite Hlen. cbv zeta.
  unfold sma_block, rsi_block, macd_block, bollinger_block, getitem.
  rewrite Hclose. simpl. eexists. split; [reflexivity|]. simpl.
  split; [discriminate|]. done.
Qed.

(** ** Further properties: the price paragraph *)

Lemma getitem_ret df name col :
  getitem df name = Ret col ↔ columns df !! name = Some col.
Proof.
  unfold getitem. destruct (columns df !! name); split; congruence.
Qed.

Lemma iloc_last_ret col x : iloc_last col = Ret x ↔ last col = Some x.
Proof. unfold iloc_last. destruct (last col); split; congruence. Qed.

Lemma iloc_first_ret col x : iloc_first col = Ret x ↔ head col = Some x.
Proof.
  unfold iloc_first, iloc. rewrite head_lookup.
  destruct (col !! 0); split; congruence.
Qed.

(** What a summary that is produced was produced from. *)
Lemma price_summary_body_some sd ticker s :
  price_summary_body (Some sd) ticker = Ret (Some s) →
  ∃ data today close open high low c o,
    sd_data sd = Some data ∧ data !! "today" = Some today ∧ df_empty today = false
    ∧ columns today !! "Close" = Some close ∧ columns today !! "Open" = Some open
    ∧ columns today !! "High" = Some high ∧ columns today !! "Low" = Some low
    ∧ last close = Some c ∧ head open = Some o
    ∧ ps_volume_desc s
      = match columns today !! "Volume" with
        | Some volume =>
            match sd_stats sd with
            | Some stats =>
                match stats !! "Average Volume" with
                | Some avg_volume => volume_desc_of (series_sum volume) avg_volume
                | None => None
                end
            | None => None
            end
        | None => None
        end.
Proof.
  unfold price_summary_body.
  destruct (sd_data sd) as [data|] eqn:Hdata; [|done].
  destruct (data !! "today") as [today|] eqn:Htoday; [|done].
  destruct (df_empty today) eqn:Hne; [done|].
  intros H. apply bind_ret in H as (close&Hclose&H).
  apply bind_ret in H as (c&Hc&H). apply bind_ret in H as (open&Hopen&H).
  apply bind_ret in H as (o&Ho&H). cbv beta zeta in H.
  apply bind_ret in H as (high&Hhigh&H). apply bind_ret in H as (low&Hlow&H).
  injection H as <-. cbn [ps_volume_desc].
  apply getitem_ret in Hclose, Hopen, Hhigh, Hlow.
  apply iloc_last_ret in Hc. apply iloc_first_ret in Ho.
  exists data, today, close, open, high, low, c, o. done.
Qed.

Lemma price_summary_parts_ret security_data ticker :
  ∃ o, price_summary_parts security_data ticker = Ret o
       ∧ (∀ s, o = Some s → price_summary_body security_data ticker = Ret (Some s)).
Proof.
  unfold price_summary_parts.
  destruct (price_summary_body security_data ticker) as [o|e]; simpl.
  - exists o. split; [done|]. by intros s ->.
  - exists None. by split.
Qed.

(** X15. The price paragraph is never an exception.  The call returns, and it
    returns a text exactly when the security data hold a frame of the day
    that is not empty, has the columns Close, Open, High and Low, and has a
    last close and a first open; in every other case, a missing column
    included, it returns [None]. *)
Theorem price_summary_defined security_data ticker :
  ∃ o, _generate_price_summary security_data ticker = Ret o
    ∧ (is_Some o ↔
         ∃ sd data today,
           security_data = Some sd ∧ sd_data sd = Some data
           ∧ data !! "today" = Some today ∧ df_empty today = false
           ∧ has_columns today ["Close"; "Open"; "High"; "Low"]
           ∧ is_Some (intraday today)).
Proof.
  unfold _generate_price_summary.
  destruct (price_summary_parts_ret security_data ticker) as (o&Ho&Hbody).
  rewrite Ho. destruct o as [s|].
  - eexists. split; [reflexivity|]. split; [intros _|by eauto].
    specialize (Hbody s eq_refl).
    destruct security_data as [sd|]; [|done].
    apply price_summary_body_some in Hbody
      as (data&today&close&open&high&low&c&o&Hd&Ht&Hne&Hc&Hop&Hh&Hl&Hlast&Hhead&_).
    exists sd, data, today. repeat (split; [done|]). split.
    + repeat constructor; eauto.
    + unfold intraday. rewrite Hc. simpl. rewrite Hlast. simpl. rewrite Hop. simpl.
      rewrite Hhead. simpl. eauto.
  - exists None. split; [done|]. split; [by intros [? ?]|].
    intros (sd&data&today&->&Hd&Ht&Hne&Hcols&[[c o] Hco]).
    destruct (price_summary_parts_some sd ticker data today c o) as (s&Hs&_);
      [done..|].
    rewrite Hs in Ho. done.
Qed.

Lemma volume_desc_of_cases current_volume avg_volume w :
  volume_desc_of current_volume avg_volume = Some w ↔
    ∃ avg, avg_volume = Some avg ∧ (0 <? avg)%float = true
           ∧ w = (if (1.2 <? current_volume / avg)%float then "higher than"
                  else if (current_volume / avg <? 0.8)%float then "lower than"
                  else "in line with").
Proof.
  unfold volume_desc_of. destruct avg_volume as [avg|].
  - destruct (0 <? avg)%float eqn:Hpos.
    + assert ((avg =? 0)%float = false) as ->.
      { destruct (avg =? 0)%float eqn:Hz; [|done].
        apply eqb_not_ltb in Hz as [_ Hz]. congruence. }
      simpl. split.
      * intros [= <-]. by exists avg.
      * intros (avg'&[= <-]&_&->). done.
    + rewrite andb_false_r. split; [done|].
      intros (avg'&[= <-]&?&_). congruence.
  - split; [done|]. by intros (avg&?&_).
Qed.

(** What a paragraph that is produced was produced from, and its text. *)
Lemma price_summary_text_inv sd ticker text :
  _generate_price_summary (Some sd) ticker = Ret (Some text) →
  ∃ data today close open high low c o,
    sd_data sd = Some data ∧ data !! "today" = Some today
    ∧ columns today !! "Close" = Some close ∧ columns today !! "Open" = Some open
    ∧ columns today !! "High" = Some high ∧ columns today !! "Low" = Some low
    ∧ last close = Some c ∧ head open = Some o
    ∧ text
      = (ticker ++ " is " ++ direction_of (c - o) ++ " "
         ++ magnitude_of ((c - o) / o * 100) ++ " by "
         ++ format_2f (abs ((c - o) / o * 100))
         ++ "% today, currently trading at $" ++ format_2f c ++ "."
         ++ " The stock opened at $" ++ format_2f o
         ++ " and has ranged from $" ++ format_2f (series_min low) ++ " to $"
         ++ format_2f (series_max high) ++ " during the session."
         ++ match
              volume ← columns today !! "Volume";
              stats ← sd_stats sd;
              avg_volume ← stats !! "Average Volume";
              volume_desc_of (series_sum volume) avg_volume
            with
            | Some volume_desc => " Trading volume is " ++ volume_desc ++ " average."
            | None => ""
            end)%string.
Proof.
  intros Htext. pose proof Htext as Hcall. unfold _generate_price_summary in Hcall.
  destruct (price_summary_parts_ret (Some sd) ticker) as (r&Hr&Hbody).
  rewrite Hr in Hcall. destruct r as [s|]; [|done]. specialize (Hbody s eq_refl).
  apply price_summary_body_some in Hbody
    as (data&today&close&open&high&low&c&o&Hd&Ht&Hne&Hc&Hop&Hh&Hl&Hlast&Hhead&_).
  exists data, today, close, open, high, low, c, o.
  repeat (split; [done|]).
  rewrite (price_summary_text sd ticker data today close open high low c o)
    in Htext by done.
  by injection Htext as <-.
Qed.

(** X16. The volume sentence of the price paragraph.  A paragraph that is
    produced consists of its two sentences on the day's prices, followed by
    " Trading volume is <qualifier> average." exactly when the frame of the
    day has a Volume column and the statistics hold an average volume that is
    a number above zero; the qualifier is "higher than" when the day's volume
    is more than 1.2 times the average, "lower than" when it is less than 0.8
    times, and "in line with" otherwise. *)
Theorem price_summary_volume sd ticker text :
  _generate_price_summary (Some sd) ticker = Ret (Some text) →
  ∃ data today close open high low c o,
    sd_data sd = Some data ∧ data !! "today" = Some today
    ∧ columns today !! "Close" = Some close ∧ columns today !! "Open" = Some open
    ∧ columns today !! "High" = Some high ∧ columns today !! "Low" = Some low
    ∧ last close = Some c ∧ head open = Some o
    ∧ let prices :=
        (ticker ++ " is " ++ (if (0 <? c - o)%float then "up" else "down") ++ " "
         ++ magnitude_of ((c - o) / o * 100) ++ " by "
         ++ format_2f (abs ((c - o) / o * 100))
         ++ "% today, currently trading at $" ++ format_2f c ++ "."
         ++ " The stock opened at $" ++ format_2f o
         ++ " and has ranged from $" ++ format_2f (series_min low) ++ " to $"
         ++ format_2f (series_max high) ++ " during the session.")%string in
      (∀ volume stats avg,
         columns today !! "Volume" = Some volume →
         sd_stats sd = Some stats →
         stats !! "Average Volume" = Some (Some avg) →
         (0 <? avg)%float = true →
         text
         = (prices ++ " Trading volume is "
            ++ (if (1.2 <? series_sum volume / avg)%float then "higher than"
                else if (series_sum volume / avg <? 0.8)%float then "lower than"
                else "in line with")
            ++ " average.")%string)
      ∧ (¬ (∃ volume stats avg,
              columns today !! "Volume" = Some volume
              ∧ sd_stats sd = Some stats
              ∧ stats !! "Average Volume" = Some (Some avg)
              ∧ (0 <? avg)%float = true) →
         text = prices).
Proof.
  intros Htext.
  apply price_summary_text_inv in Htext
    as (data&today&close&open&high&low&c&o&Hd&Ht&Hc&Hop&Hh&Hl&Hlast&Hhead&->).
  exists data, today, close, open, high, low, c, o.
  repeat (split; [done|]). intros prices.
  assert (∀ tail : string,
            (ticker ++ " is " ++ direction_of (c - o) ++ " "
             ++ magnitude_of ((c - o) / o * 100) ++ " by "
             ++ format_2f (abs ((c - o) / o * 100))
             ++ "% today, currently trading at $" ++ format_2f c ++ "."
             ++ " The stock opened at $" ++ format_2f o
             ++ " and has ranged from $" ++ format_2f (series_min low) ++ " to $"
             ++ format_2f (series_max high) ++ " during the session." ++ tail)%string
            = (prices ++ tail)%string) as Hsplit.
  { intros tail. subst prices. unfold direction_of.
    by rewrite !append_assoc. }
  rewrite Hsplit. split.
  - intros volume stats avg Hvol Hstats Havg Hpos.
    rewrite Hvol, Hstats. cbn [mbind option_bind]. rewrite Havg.
    cbn [mbind option_bind].
    by rewrite (proj2 (volume_desc_of_cases (series_sum volume) (Some avg) _)
                  (ex_intro _ avg (conj eq_refl (conj Hpos eq_refl)))).
  - intros Hnone.
    destruct (columns today !! "Volume" ≫= _) as [w|] eqn:Hw.
    + exfalso. apply Hnone.
      destruct (columns today !! "Volume") as [volume|]; [|done]. simpl in Hw.
      destruct (sd_stats sd) as [stats|]; [|done]. simpl in Hw.
      destruct (stats !! "Average Volume") as [avg_volume|] eqn:Havg; [|done].
      simpl in Hw. apply volume_desc_of_cases in Hw as (avg&->&Hpos&_).
      by exists volume, stats, avg.
    + apply append_empty_r.
Qed.

(** ** Further properties: the price history *)

Lemma historical_data_lookup history tf :
  _get_historical_data history !! tf
  = if bool_decide (tf = "year") then Some (fetch_frame history ("1y", "1d"))
    else if bool_decide (tf = "month") then Some (fetch_frame history ("1mo", "1d"))
    else if bool_decide (tf = "week") then Some (fetch_frame history ("5d", "1h"))
    else if bool_decide (tf = "today") then Some (fetch_frame history ("1d", "5m"))
    else None.
Proof.
  unfold _get_historical_data, timeframes. cbn [fold_left fst snd].
  repeat case_bool_decide; subst;
    repeat (rewrite lookup_insert_eq || rewrite lookup_insert_ne by done); try done.
Qed.

Lemma fetch_frame_cases history params :
  fetch_frame history params = pd_DataFrame
  ∨ (df_empty (fetch_frame history params) = false
     ∧ history params.1 params.2 = Ret (fetch_frame history params)).
Proof.
  unfold fetch_frame. destruct (history params.1 params.2) as [df|e]; [|by left].
  destruct (df_empty df) eqn:Hdf; [by left|by right].
Qed.

(** X17. The frames of a security.  Whatever the four requests do, the
    result holds exactly the keys today, week, month and year; the frame of
    a timeframe is the frame its request returned when the request returned
    a frame with rows and columns, and the empty frame [pd.DataFrame()] when
    the request raised or returned an empty frame. *)
Theorem historical_data_frames history :
  let data := _get_historical_data history in
  (∀ tf, is_Some (data !! tf) ↔ tf ∈ ["today"; "week"; "month"; "year"])
  ∧ (∀ tf period interval, (tf, (period, interval)) ∈ timeframes →
       ∃ df, data !! tf = Some df
         ∧ (∀ fetched, history period interval = Ret fetched →
              df_empty fetched = false → df = fetched)
         ∧ (∀ fetched, history period interval = Ret fetched →
              df_empty fetched = true → df = pd_DataFrame)
         ∧ (∀ e, history period interval = Raise e → df = pd_DataFrame))
  ∧ (∀ tf df, data !! tf = Some df → df_empty df = true → df = pd_DataFrame).
Proof.
  intros data. subst data. split; [|split].
  - intros tf. rewrite historical_data_lookup, !elem_of_cons, elem_of_nil.
    repeat case_bool_decide; subst; split; eauto 6.
    + by intros [? ?].
    + intros [?|[?|[?|[?|[]]]]]; done.
  - intros tf period interval Hin. unfold timeframes in Hin.
    rewrite !elem_of_cons, elem_of_nil in Hin.
    rewrite historical_data_lookup.
    destruct Hin as [Hin|[Hin|[Hin|[Hin|[]]]]]; injection Hin as -> -> ->;
      (eexists; split; [reflexivity|]; unfold fetch_frame; cbn [fst snd];
       split; [by intros fetched -> ->|];
       split; [by intros fetched -> ->|by intros e ->]).
  - intros tf df. rewrite historical_data_lookup.
    assert (∀ params, df_empty (fetch_frame history params) = true →
                      fetch_frame history params = pd_DataFrame) as Hfetch.
    { intros params Hdf. destruct (fetch_frame_cases history params) as [?|[Hne _]];
        [done|congruence]. }
    repeat case_bool_decide; try done; intros [= <-]; apply Hfetch.
Qed.

Lemma nonempty_frame_pd data tf :
  data !! tf = Some pd_DataFrame → nonempty_frame data tf = None.
Proof. unfold nonempty_frame. by intros ->. Qed.

(** X18. A security without data.  When every request raises or returns an
    empty frame, the results built on the frames degrade without an
    exception: the indicator engine returns the empty bundle, the price
    paragraph is [None], and the correlation engine reports "No news items
    available" without news and "No historical price data available" with
    news. *)
Theorem historical_data_unavailable history stats ticker news_items :
  (∀ period interval df, history period interval = Ret df → df_empty df = true) →
  let data := _get_historical_data history in
  let security_data := Some {| sd_data := Some data; sd_stats := stats |} in
  (∀ tf, tf ∈ ["today"; "week"; "month"; "year"] → data !! tf = Some pd_DataFrame)
  ∧ _get_technical_analysis (Some data) = Ret empty_bundle
  ∧ _generate_price_summary security_data ticker = Ret None
  ∧ compute_price_news_correlation security_data news_items
    = Ret (error_result (if news_is_empty news_items
                         then "No news items available"
                         else "No historical price data available")).
Proof.
  intros Hnone data security_data.
  assert (∀ params, fetch_frame history params = pd_DataFrame) as Hfetch.
  { intros params. destruct (fetch_frame_cases history params) as [?|[Hne Hret]];
      [done|]. apply Hnone in Hret. congruence. }
  assert (∀ tf, tf ∈ ["today"; "week"; "month"; "year"] →
                data !! tf = Some pd_DataFrame) as Hdata.
  { intros tf Htf. subst data. rewrite historical_data_lookup, !Hfetch.
    rewrite !elem_of_cons, elem_of_nil in Htf.
    destruct Htf as [->|[->|[->|[->|[]]]]]; reflexivity. }
  assert ("today" ∈ ["today"; "week"; "month"; "year"]) as Htoday
    by (by repeat constructor).
  assert ("week" ∈ ["today"; "week"; "month"; "year"]) as Hweek
    by (by repeat constructor).
  assert ("month" ∈ ["today"; "week"; "month"; "year"]) as Hmonth
    by (by repeat constructor).
  assert ("year" ∈ ["today"; "week"; "month"; "year"]) as Hyear
    by (by repeat constructor).
  split; [exact Hdata|]. split; [|split].
  - unfold _get_technical_analysis. by rewrite (Hdata "week" Hweek).
  - unfold _generate_price_summary, price_summary_parts, price_summary_body.
    subst security_data. cbn [sd_data]. by rewrite (Hdata "today" Htoday).
  - unfold compute_price_news_correlation, correlation_body.
    subst security_data. cbn [mbind option_bind sd_data].
    destruct (news_is_empty news_items); [done|].
    unfold select_price_data.
    rewrite !nonempty_frame_pd by (by apply Hdata). done.
Qed.

(** X19. The two engines read the frames differently.  When the week request
    gives nothing and the month request returns a frame with rows and
    columns, the correlation engine falls back on the month frame, while the
    indicator engine, which reads the week frame only, returns the empty
    bundle. *)
Theorem historical_data_week_unavailable history month :
  (∀ df, history "5d" "1h" = Ret df → df_empty df = true) →
  history "1mo" "1d" = Ret month →
  df_empty month = false →
  let data := _get_historical_data history in
  select_price_data data = Some month
  ∧ _get_technical_analysis (Some data) = Ret empty_bundle.
Proof.
  intros Hweek Hmonth Hne data.
  assert (data !! "week" = Some pd_DataFrame) as Hw.
  { subst data. rewrite historical_data_lookup. simpl.
    destruct (fetch_frame_cases history ("5d", "1h")) as [->|[Hne' Hret]]; [done|].
    apply Hweek in Hret. congruence. }
  assert (data !! "month" = Some month) as Hm.
  { subst data. rewrite historical_data_lookup. simpl.
    unfold fetch_frame. cbn [fst snd]. by rewrite Hmonth, Hne. }
  split.
  - unfold select_price_data. rewrite nonempty_frame_pd by done.
    unfold nonempty_frame. by rewrite Hm, Hne.
  - unfold _get_technical_analysis. by rewrite Hw.
Qed.

(** ** Further properties: the key statistics *)

Lemma statistics_lookup info key :
  _calculate_statistics info !! key
  = if bool_decide (key = "Market Cap") then Some (info_get info "marketCap")
    else if bool_decide (key = "PE Ratio") then Some (info_get info "trailingPE")
    else if bool_decide (key = "EPS") then Some (info_get info "trailingEps")
    else if bool_decide (key = "Dividend Yield") then Some (info_get info "dividendYield")
    else if bool_decide (key = "52 Week High")
         then Some (info_get info "fiftyTwoWeekHigh")
    else if bool_decide (key = "52 Week Low") then Some (info_get info "fiftyTwoWeekLow")
    else if bool_decide (key = "Average Volume")
         then Some (info_get info "averageVolume")
    else if bool_decide (key = "Beta") then Some (info_get info "beta")
    else None.
Proof.
  unfold _calculate_statistics. cbn [list_to_map foldr fst snd uncurry].
  repeat case_bool_decide; subst;
    repeat (rewrite lookup_insert_eq || rewrite lookup_insert_ne by done); try done.
Qed.

(** X20. The statistics and the volume sentence.  The statistics always hold
    their eight keys, each with the value of its [info] entry or [None]; so
    in a security whose statistics were computed from [info], the price
    paragraph ends with " Trading volume is <qualifier> average." exactly
    when the frame of the day has a Volume column and [info] holds an average
    volume above zero, and with " during the session." in every other
    case. *)
Theorem statistics_average_volume info data ticker text :
  let stats := _calculate_statistics info in
  _generate_price_summary
    (Some {| sd_data := Some data; sd_stats := Some stats |}) ticker
  = Ret (Some text) →
  (∀ key, is_Some (stats !! key) ↔
     key ∈ ["Market Cap"; "PE Ratio"; "EPS"; "Dividend Yield"; "52 Week High";
            "52 Week Low"; "Average Volume"; "Beta"])
  ∧ ∃ today prices,
      data !! "today" = Some today
      ∧ (∀ volume avg,
           columns today !! "Volume" = Some volume →
           info !! "averageVolume" = Some (Some avg) →
           (0 <? avg)%float = true →
           text
           = (prices ++ " during the session." ++ " Trading volume is "
              ++ (if (1.2 <? series_sum volume / avg)%float then "higher than"
                  else if (series_sum volume / avg <? 0.8)%float then "lower than"
                  else "in line with")
              ++ " average.")%string)
      ∧ (¬ (is_Some (columns today !! "Volume")
            ∧ ∃ avg, info !! "averageVolume" = Some (Some avg)
                     ∧ (0 <? avg)%float = true) →
         text = (prices ++ " during the session.")%string).
Proof.
  intros stats Htext. split.
  - intros key. subst stats. rewrite statistics_lookup, !elem_of_cons, elem_of_nil.
    repeat case_bool_decide; subst; split; eauto 10.
    + by intros [? ?].
    + intros [?|[?|[?|[?|[?|[?|[?|[?|[]]]]]]]]]; done.
  - apply price_summary_text_inv in Htext
      as (data'&today&close&open&high&low&c&o&Hd&Ht&_&_&_&_&_&_&->).
    cbn [sd_data sd_stats] in *. injection Hd as <-.
    exists today.
    exists (ticker ++ " is " ++ direction_of (c - o) ++ " "
            ++ magnitude_of ((c - o) / o * 100) ++ " by "
            ++ format_2f (abs ((c - o) / o * 100))
            ++ "% today, currently trading at $" ++ format_2f c ++ "."
            ++ " The stock opened at $" ++ format_2f o
            ++ " and has ranged from $" ++ format_2f (series_min low) ++ " to $"
            ++ format_2f (series_max high))%string.
    split; [done|].
    assert (stats !! "Average Volume" = Some (info_get info "averageVolume")) as Hstat
      by (subst stats; by rewrite statistics_lookup).
    split.
    + intros volume avg Hvol Havg Hpos. rewrite Hvol. cbn [mbind option_bind].
      rewrite Hstat. cbn [mbind option_bind].
      unfold info_get. rewrite Havg. cbn [default mjoin option_join id].
      rewrite (proj2 (volume_desc_of_cases (series_sum volume) (Some avg) _)
                 (ex_intro _ avg (conj eq_refl (conj Hpos eq_refl)))).
      by rewrite !append_assoc.
    + intros Hnone.
      destruct (columns today !! "Volume" ≫= _) as [w|] eqn:Hw.
      * exfalso. apply Hnone.
        destruct (columns today !! "Volume") as [volume|]; [|done]. simpl in Hw.
        rewrite Hstat in Hw. simpl in Hw.
        apply volume_desc_of_cases in Hw as (avg&Havg&Hpos&_).
        split; [by eauto|]. exists avg. split; [|done]. unfold info_get in Havg.
        destruct (info !! "averageVolume") as [[avg'|]|]; simpl in Havg; congruence.
      * by rewrite append_empty_r, !append_assoc.
Qed.

(** ** Further properties: the indicator paragraph *)

Lemma bundle_is_empty_spec b : bundle_is_empty b = true ↔ b = empty_bundle.
Proof.
  destruct b as [[?|] [?|] [?|] [?|] [?|] [?|] [?|] [?|]]; by split.
Qed.

Lemma count_signal_words sg :
  Forall (λ w, w ∈ ["buy"; "sell"; "neutral"]) (signal_values sg) →
  count_signal "buy" sg + count_signal "sell" sg + count_signal "neutral" sg = 4.
Proof.
  unfold count_signal. destruct sg as [a b c d]. unfold signal_values. simpl.
  intros H. apply Forall_cons in H as [Ha H]. apply Forall_cons in H as [Hb H].
  apply Forall_cons in H as [Hc H]. apply Forall_cons in H as [Hd _].
  rewrite !elem_of_cons, elem_of_nil in Ha, Hb, Hc, Hd.
  destruct Ha as [->|[->|[->|[]]]], Hb as [->|[->|[->|[]]]],
           Hc as [->|[->|[->|[]]]], Hd as [->|[->|[->|[]]]]; reflexivity.
Qed.

Lemma signal_summary_of_cases sg :
  (signal_summary_of sg = "bullish" ↔
     count_signal "sell" sg < count_signal "buy" sg
     ∧ count_signal "neutral" sg < count_signal "buy" sg)
  ∧ (signal_summary_of sg = "bearish" ↔
       count_signal "buy" sg < count_signal "sell" sg
       ∧ count_signal "neutral" sg < count_signal "sell" sg).
Proof.
  unfold signal_summary_of. cbv zeta.
  destruct (count_signal "sell" sg <? count_signal "buy" sg) eqn:H1;
    destruct (count_signal "neutral" sg <? count_signal "buy" sg) eqn:H2;
    destruct (count_signal "buy" sg <? count_signal "sell" sg) eqn:H3;
    destruct (count_signal "neutral" sg <? count_signal "sell" sg) eqn:H4;
    simpl;
    repeat match goal with
    | H : (_ <? _) = true |- _ => apply Nat.ltb_lt in H
    | H : (_ <? _) = false |- _ => apply Nat.ltb_ge in H
    end;
    (split; (split; [intros ?; try discriminate; lia|intros [? ?]; try done; lia])).
Qed.

(** The words of a bundle of the engine, as the paragraph needs them. *)
Lemma engine_bundle price_data :
  ∃ b, _get_technical_analysis price_data = Ret b
    ∧ (b = empty_bundle
       ∨ ∃ sg, b ≠ empty_bundle ∧ ta_signals b = Some sg
           ∧ Forall (λ w, w ∈ ["buy"; "sell"; "neutral"]) (signal_values sg)
           ∧ sig_rsi sg = default "neutral" (rsi_signal_of <$> ta_rsi b)).
Proof.
  unfold _get_technical_analysis.
  destruct price_data as [data|]; [|by eauto].
  destruct (data !! "week") as [week|]; [|by eauto].
  destruct (df_empty week); [by eauto|].
  destruct (df_len week <? 10)%nat; [by eauto|].
  eexists. split; [reflexivity|]. right. eexists. split; [done|].
  split; [reflexivity|]. cbn [ta_rsi].
  assert ("neutral" ∈ ["buy"; "sell"; "neutral"]) as Hneutral
    by (by repeat constructor).
  split.
  - unfold signal_values, aggregate_signals, get_or_neutral.
    cbn [sig_sma sig_rsi sig_macd sig_bollinger].
    repeat (apply Forall_cons; split); [| | | |by constructor].
    + destruct (attempt (sma_block week)) as [s|] eqn:Hs; [|done]. simpl.
      apply attempt_some, sma_block_words in Hs as (H5&_&_).
      apply elem_of_cons in H5 as [->|H5]; [by repeat constructor|].
      apply list_elem_of_singleton in H5 as ->. by repeat constructor.
    + destruct (attempt (rsi_block week)) as [[r sg]|] eqn:Hs; [|done]. simpl.
      by apply attempt_some, rsi_block_words in Hs as [_ ?].
    + destruct (attempt (macd_block week)) as [[[m sg] h]|] eqn:Hs; [|done]. simpl.
      apply attempt_some, macd_block_words in Hs.
      apply elem_of_cons in Hs as [->|H5]; [by repeat constructor|].
      apply list_elem_of_singleton in H5 as ->. by repeat constructor.
    + destruct (attempt (bollinger_block week)) as [bb|] eqn:Hs; [|done]. simpl.
      by apply attempt_some, bollinger_block_words in Hs.
  - unfold aggregate_signals, get_or_neutral. cbn [sig_rsi].
    destruct (attempt (rsi_block week)) as [[r sg]|] eqn:Hs; [|done]. simpl.
    by apply attempt_some, rsi_block_words in Hs as [-> _].
Qed.

(** X21. The indicator paragraph of a bundle of the engine.  The paragraph
    is [None] exactly when the engine returned the empty bundle.  Otherwise
    its verdict is drawn from four signals: it is "bullish" exactly with
    three or four buys, or with two buys, one sell and one neutral;
    "bearish" exactly with three or four sells, or with two sells, one buy
    and one neutral; "neutral" in every other case, every tie included.  The
    RSI wording follows the RSI signal: "overbought" with "sell", "oversold"
    with "buy". *)
Theorem technical_summary_of_engine price_data a :
  ∃ b, _get_technical_analysis price_data = Ret b
    ∧ (an_technical_analysis a = Some b →
       (_generate_technical_summary a = None ↔ b = empty_bundle)
       ∧ (b ≠ empty_bundle →
          ∃ sg, ta_signals b = Some sg
            ∧ _generate_technical_summary a
              = Some (technical_summary_text (signal_summary_of sg)
                                             (key_indicators_of b))
            ∧ (signal_summary_of sg = "bullish" ↔
                 3 ≤ count_signal "buy" sg
                 ∨ (count_signal "buy" sg = 2 ∧ count_signal "sell" sg = 1))
            ∧ (signal_summary_of sg = "bearish" ↔
                 3 ≤ count_signal "sell" sg
                 ∨ (count_signal "sell" sg = 2 ∧ count_signal "buy" sg = 1))
            ∧ (∀ rsi, ta_rsi b = Some rsi →
                 (rsi_desc_of rsi = "overbought" ↔ sig_rsi sg = "sell")
                 ∧ (rsi_desc_of rsi = "oversold" ↔ sig_rsi sg = "buy")))).
Proof.
  destruct (engine_bundle price_data) as (b&Hb&Hcases).
  exists b. split; [done|]. intros Ha. unfold _generate_technical_summary.
  rewrite Ha. destruct Hcases as [->|(sg&Hne&Hsg&Hwords&Hrsi)].
  - simpl. split; [done|]. by intros [].
  - assert (bundle_is_empty b = false) as Hfalse.
    { destruct (bundle_is_empty b) eqn:E; [|done].
      by apply bundle_is_empty_spec in E. }
    rewrite Hfalse, Hsg. split; [split; [done|by intros ?]|].
    intros _. exists sg. split; [done|]. split; [done|].
    pose proof (count_signal_words sg Hwords) as Hsum.
    destruct (signal_summary_of_cases sg) as [Hbull Hbear].
    split; [rewrite Hbull; lia|]. split; [rewrite Hbear; lia|].
    intros rsi Hr. rewrite Hrsi, Hr. simpl.
    unfold rsi_desc_of, rsi_signal_of.
    destruct (70 <? rsi)%float; [by split; split|].
    destruct (rsi <? 30)%float; by split; split.
Qed.

(** ** Further properties: the market paragraph *)

Lemma index_direction_cases change :
  (index_direction change = "up" ↔ (0 <? change)%float = true)
  ∧ (index_direction change = "down" ↔ (0 <? change)%float = false).
Proof.
  unfold index_direction. destruct (0 <? change)%float; by repeat split.
Qed.

Lemma length_filter_split {A} (P Q : A → Prop) `{∀ x, Decision (P x)}
    `{∀ x, Decision (Q x)} (l : list A) :
  (∀ x, P x ↔ ¬ Q x) →
  length (filter P l) + length (filter Q l) = length l.
Proof.
  intros HPQ. induction l as [|x l IH]; [done|].
  rewrite !filter_cons. specialize (HPQ x).
  destruct (decide (P x)) as [p|np], (decide (Q x)) as [q|nq]; simpl;
    [exfalso; by apply HPQ in p|lia|lia|exfalso; apply np, HPQ, nq].
Qed.

Lemma length_filter_le {A} (P Q : A → Prop) `{∀ x, Decision (P x)}
    `{∀ x, Decision (Q x)} (l : list A) :
  (∀ x, P x → Q x) →
  length (filter P l) ≤ length (filter Q l)
  ∧ (length (filter P l) = length (filter Q l) ↔ Forall (λ x, Q x → P x) l).
Proof.
  intros HPQ. induction l as [|x l [IH1 IH2]]; [by split|].
  rewrite !filter_cons, Forall_cons. specialize (HPQ x).
  destruct (decide (P x)) as [p|np], (decide (Q x)) as [q|nq]; simpl.
  - split; [lia|]. rewrite <-IH2. split; [intros ?; split; [done|lia]|intros [_ ?]; lia].
  - exfalso. apply nq, HPQ, p.
  - split; [lia|]. split; [lia|]. intros [Hqp _]. exfalso. apply np, Hqp, q.
  - split; [lia|]. rewrite <-IH2. split; [intros ?; split; [done|lia]|intros [_ ?]; lia].
Qed.

Lemma length_filter_ext {A} (P Q : A → Prop) `{∀ x, Decision (P x)}
    `{∀ x, Decision (Q x)} (l : list A) :
  (∀ x, P x ↔ Q x) → length (filter P l) = length (filter Q l).
Proof.
  intros HPQ. induction l as [|x l IH]; [done|].
  rewrite !filter_cons. specialize (HPQ x).
  destruct (decide (P x)) as [p|np], (decide (Q x)) as [q|nq]; simpl;
    [lia|exfalso; by apply nq, HPQ|exfalso; by apply np, HPQ|lia].
Qed.

Lemma fmap_nil_iff {A B} (f : A → B) l : f <$> l = [] ↔ l = [].
Proof. destruct l; by split. Qed.

(** X22. The market paragraph.  The paragraph is [None] exactly when no
    value of the context carries a change; otherwise it lists every such
    index, each as "up" or "down", and closes with the mood of the market.
    An index is listed as "up" when its change is above zero and as "down"
    otherwise, but the mood counts as falling only the changes below zero:
    the indices counted up are the ones listed as up, those counted down are
    among the ones listed as down, and the two numbers agree exactly when no
    listed change is zero or NaN.  On a day when every listed index is
    unchanged, each is listed as "down" and the mood is "mixed". *)
Theorem market_context_mood a context :
  an_market_context a = Some context →
  let listed := listed_indices context in
  let ups := filter (λ entry, index_direction entry.2 = "up") listed in
  let downs := filter (λ entry, index_direction entry.2 = "down") listed in
  (_generate_market_context a = None ↔ listed = [])
  ∧ (listed ≠ [] →
     _generate_market_context a
     = Some ("Market Context: " ++ join ", " (index_perf <$> listed) ++ "."
             ++ market_mood context)%string)
  ∧ length ups + length downs = length listed
  ∧ up_count context = length ups
  ∧ down_count context ≤ length downs
  ∧ (down_count context = length downs ↔
       Forall (λ entry, (0 <? entry.2)%float = true ∨ (entry.2 <? 0)%float = true)
              listed)
  ∧ (listed ≠ [] → Forall (λ entry, (entry.2 =? 0)%float = true) listed →
     downs = listed
     ∧ market_mood context = " Market sentiment is mixed today.").
Proof.
  intros Ha listed ups downs.
  assert (∀ entry : string * float,
            index_direction entry.2 = "up" ↔ ¬ index_direction entry.2 = "down")
    as Hupdown.
  { intros entry. unfold index_direction. destruct (0 <? entry.2)%float; by split. }
  assert (_generate_market_context a
          = match listed with
            | [] => None
            | _ => Some ("Market Context: " ++ join ", " (index_perf <$> listed) ++ "."
                         ++ market_mood context)%string
            end) as Htext.
  { unfold _generate_market_context. rewrite Ha. subst listed.
    destruct context as [|entry context]; [done|]. cbv zeta.
    destruct (listed_indices (entry :: context)); done. }
  split; [|split; [|split; [|split; [|split; [|split]]]]].
  - rewrite Htext. destruct listed; by split.
  - intros Hne. rewrite Htext. by destruct listed.
  - apply length_filter_split. exact Hupdown.
  - unfold up_count. apply length_filter_ext. intros entry.
    by destruct (index_direction_cases entry.2) as [-> _].
  - unfold down_count.
    apply (length_filter_le (λ entry : string * float, (entry.2 <? 0)%float = true)).
    intros entry Hneg. apply index_direction_cases. by apply ltb_asym.
  - unfold down_count. subst downs. fold listed.
    destruct (length_filter_le
                (λ entry : string * float, (entry.2 <? 0)%float = true)
                (λ entry : string * float, index_direction entry.2 = "down") listed)
      as [_ ->].
    { intros entry Hneg. apply index_direction_cases. by apply ltb_asym. }
    apply Forall_iff. intros entry.
    destruct (index_direction_cases entry.2) as [_ ->].
    destruct (0 <? entry.2)%float; split; try done; eauto.
    + by intros [?|?].
  - intros Hne Hflat.
    assert (Forall (λ entry : string * float,
                      (0 <? entry.2)%float = false ∧ (entry.2 <? 0)%float = false)
                   listed) as Hzero.
    { eapply Forall_impl; [exact Hflat|]. intros entry Hz.
      apply eqb_not_ltb in Hz as [? ?]. by split. }
    split.
    + subst downs. clear -Hzero. induction listed as [|entry listed IH]; [done|].
      apply Forall_cons in Hzero as [[Hup _] Hzero]. rewrite filter_cons.
      rewrite decide_True by (by apply index_direction_cases).
      by rewrite IH.
    + unfold market_mood, up_count, down_count. fold listed.
      assert (filter (λ entry : string * float, (0 <? entry.2)%float = true) listed = []
              ∧ filter (λ entry : string * float, (entry.2 <? 0)%float = true) listed = [])
        as [-> ->]; [|done].
      clear -Hzero. induction listed as [|entry listed IH]; [done|].
      apply Forall_cons in Hzero as [[Hup Hdown] Hzero]. rewrite !filter_cons.
      rewrite !decide_False by congruence. by apply IH.
Qed.

(** ** Further properties: the sector paragraph *)

Lemma frank_abs x :
  frank (abs x)
  = match frank x with
    | Some (s, a, b) => if (s <? 0)%Z then Some (- s, - a, - b)%Z else Some (s, a, b)
    | None => None
    end.
Proof.
  unfold frank. rewrite abs_spec.
  destruct (Prim2SF x) as [[]|[]| |[] m e]; simpl; try done.
  by rewrite Z.opp_involutive.
Qed.

(** Below zero, the larger loss has the larger magnitude. *)
Lemma abs_ltb_negative x y :
  (x <? y)%float = true → (y <? 0)%float = true → (abs y <? abs x)%float = true.
Proof.
  intros Hxy Hy.
  apply ltb_rank in Hxy as ([[x1 x2] x3]&[[y1 y2] y3]&Hx&Hy'&Hlt).
  apply ltb_rank in Hy as (a&[[z1 z2] z3]&Ha&Hz&Hneg).
  rewrite Hy' in Ha. injection Ha as <-.
  assert (z1 = 0 ∧ z2 = 0 ∧ z3 = 0)%Z as (->&->&->).
  { vm_compute in Hz. by injection Hz as <- <- <-. }
  apply lex_compare_Lt in Hlt, Hneg.
  apply ltb_rank. rewrite !frank_abs, Hx, Hy'.
  assert (y1 < 0)%Z as Hy1.
  { assert (y1 ≤ 0)%Z by lia. destruct (decide (y1 = 0%Z)) as [->|?]; [|lia].
    unfold frank in Hy'. destruct (Prim2SF y) as [[]|[]| |[] m e]; simpl in Hy';
      simplify_eq; lia. }
  assert (x1 < 0)%Z as Hx1 by lia.
  rewrite (proj2 (Z.ltb_lt x1 0)), (proj2 (Z.ltb_lt y1 0)) by done.
  eexists _, _. split; [done|]. split; [done|]. apply lex_compare_Lt. lia.
Qed.

Lemma sector_comparison_cases a perf :
  (∀ data today, sd_data (an_security a) = Some data → data !! "today" = Some today →
     df_empty today = false →
     match intraday today with
     | Some (c, o) =>
         sector_comparison a perf = Ret (sector_relative ((c - o) / o * 100) perf)
     | None => ∃ e, sector_comparison a perf = Raise e
     end)
  ∧ ((∀ data today, sd_data (an_security a) = Some data → data !! "today" = Some today →
        df_empty today = true) →
     sector_comparison a perf = Ret "").
Proof.
  unfold sector_comparison. split.
  - intros data today -> -> ->. unfold intraday, getitem, iloc_last, iloc_first, iloc.
    destruct (columns today !! "Close") as [close|]; simpl; [|by eauto].
    destruct (last close) as [c|]; simpl; [|by eauto].
    destruct (columns today !! "Open") as [open|]; simpl; [|by eauto].
    rewrite head_lookup. destruct (open !! 0) as [o|]; simpl; [done|by eauto].
  - intros Hempty. destruct (sd_data (an_security a)) as [data|]; [|done].
    destruct (data !! "today") as [today|] eqn:Htoday; [|done].
    by rewrite (Hempty data today eq_refl Htoday).
Qed.

(** X23. The sector paragraph.  The call never raises.  It returns [None]
    when the sector of the security is unknown, empty or without an entry in
    the sector context; and also when the frame of the day has rows but no
    last close or first open, the failure of the comparison taking the whole
    paragraph with it.  With a change of the day, the paragraph is the
    sentence on the sector followed by the comparison: "contrary" unless the
    two changes are both above or both below zero, so also when either is
    zero; and of two falls the larger one is called "outperforming". *)
Theorem sector_summary_cases a :
  ∃ r, _generate_sector_summary a = Ret r
    ∧ (an_sector_context a = None → r = None)
    ∧ (∀ sector_context, an_sector_context a = Some sector_context →
         (sector_perf_of a sector_context = None → r = None)
         ∧ (sector_perf_of a sector_context = None ↔
              ∀ sector, an_sector a = Some sector →
                        sector = "" ∨ sector_context !! sector = None)
         ∧ ∀ sector perf data today,
             sector_perf_of a sector_context = Some (sector, perf) →
             sd_data (an_security a) = Some data → data !! "today" = Some today →
             df_empty today = false →
             (intraday today = None → r = None)
             ∧ ∀ c o, intraday today = Some (c, o) →
                 let pct := ((c - o) / o * 100)%float in
                 r = Some (sector_headline sector perf ++ sector_relative pct perf)%string
                 ∧ ((pct =? 0)%float = true ∨ (perf =? 0)%float = true →
                    sector_relative pct perf
                    = " The stock is moving contrary to its sector today.")
                 ∧ ((pct <? perf)%float = true → (perf <? 0)%float = true →
                    sector_relative pct perf
                    = " The stock is outperforming its sector.")).
Proof.
  unfold _generate_sector_summary, sector_summary_body.
  destruct (an_sector_context a) as [sector_context|] eqn:Hsc.
  2: { exists None. split; [done|]. split; [done|]. by intros sc [=]. }
  assert (sector_perf_of a sector_context = None ↔
            ∀ sector, an_sector a = Some sector →
                      sector = "" ∨ sector_context !! sector = None) as Hnone.
  { unfold sector_perf_of. destruct (an_sector a) as [sector|]; [|by split].
    destruct (String.eqb sector "") eqn:Hempty.
    - apply String.eqb_eq in Hempty as ->. split; [|done]. intros _ ? [= <-]. by left.
    - apply String.eqb_neq in Hempty.
      destruct (sector_context !! sector) eqn:Hlook.
      + split; [done|]. intros H. destruct (H sector eq_refl); congruence.
      + split; [|done]. intros _ ? [= <-]. by right. }
  case_bool_decide as Hctx.
  { exists None. split; [done|]. split; [done|]. intros sc [= <-].
    assert (sector_perf_of a sector_context = None) as Hperf.
    { apply Hnone. intros sector _. right. by rewrite Hctx, lookup_empty. }
    split; [done|]. split; [exact Hnone|]. intros ? ? ? ? Hsome. congruence. }
  destruct (sector_perf_of a sector_context) as [[sector perf]|] eqn:Hperf.
  2: { exists None. split; [done|]. split; [done|]. intros sc [= <-].
       rewrite Hperf. split; [done|]. split; [exact Hnone|]. by intros ? ? ? ? [=]. }
  destruct (sector_comparison_cases a perf) as [Hday _]. cbv zeta.
  destruct (sector_comparison a perf) as [comparison|e] eqn:Hcmp; simpl.
  - eexists. split; [reflexivity|]. split; [done|]. intros sc [= <-].
    rewrite Hperf. split; [done|]. split; [exact Hnone|].
    intros sector' perf' data today [= <- <-] Hdata Htoday Hne.
    specialize (Hday data today Hdata Htoday Hne). split.
    + intros Hco. rewrite Hco in Hday. destruct Hday as [e He]. congruence.
    + intros c o Hco. rewrite Hco in Hday. injection Hday as ->.
      set (pct := ((c - o) / o * 100)%float).
      split; [done|]. split.
      * unfold sector_relative. intros [Hz|Hz].
        -- apply eqb_not_ltb in Hz as [Hz1 Hz2]. by rewrite Hz1, Hz2.
        -- apply eqb_not_ltb in Hz as [Hz1 Hz2]. rewrite Hz1, Hz2.
           by rewrite !andb_false_r.
      * intros Hlt Hneg. unfold sector_relative.
        rewrite (ltb_trans pct perf 0) by done. rewrite Hneg.
        rewrite (abs_ltb_negative pct perf) by done.
        by destruct (0 <? pct)%float, (0 <? perf)%float.
  - exists None. split; [reflexivity|]. split; [done|]. intros sc [= <-].
    rewrite Hperf. split; [done|]. split; [exact Hnone|].
    intros sector' perf' data today [= <- <-] Hdata Htoday Hne.
    specialize (Hday data today Hdata Htoday Hne). split; [done|].
    intros c o Hco. rewrite Hco in Hday. congruence.
Qed.

End MarketAnalyzer.

(** * Part III: the theorems at concrete inputs *)

(** ** The cache *)

(** C9 at 09:30:00, 09:59:59.999999 and 10:00:00 of the day: the two
    entries stamped 09:00:00 are served before 10:00:00 and not from then on;
    the entry whose stamp does not parse is a miss. *)
Lemma get_from_cache_examples :
  _get_from_cache ref_strptime (with_cache example_cache)
    (t0 + 1800000000) "MSFT_security_20250414_09" = Ret (Some "msft")
  ∧ _get_from_cache ref_strptime (with_cache example_cache)
      (t0 + 3599999999) "AAPL_security_20250414_09" = Ret (Some "aapl")
  ∧ _get_from_cache ref_strptime (with_cache example_cache)
      (t0 + 3600000000) "AAPL_security_20250414_09" = Ret None
  ∧ _get_from_cache ref_strptime (with_cache example_cache)
      (t0 + 1800000000) "TSLA_security_20250414_09" = Ret None.
Proof.
  destruct (get_from_cache_ttl ref_strptime example_cache (t0 + 1800000000)
              "MSFT_security_20250414_09") as (_&_&Hfresh&_).
  destruct (get_from_cache_ttl ref_strptime example_cache (t0 + 1800000000)
              "TSLA_security_20250414_09") as (_&_&_&Hbad&_).
  split; [|split; [reflexivity|split; [reflexivity|]]].
  - apply (Hfresh (CacheStr "2025-04-14 09:00:00") "msft" t0); [reflexivity..|].
    unfold t0. lia.
  - apply (Hbad "yesterday" "tsla"); reflexivity.
Defined.

(** ** The price paragraph *)

(** C8 at open = 100, close = 97: the change is exactly -3 percent, printed
    as 3.00, and the word is "moderately". *)
Lemma price_summary_magnitude_100_97 :
  ∃ rest,
    _generate_price_summary ref_series_max ref_series_min ref_series_sum ref_format_2f
      (Some (security_with [("today", today_100_97)])) "ACME"
    = Ret (Some ("ACME is down moderately by 3.00% today, currently trading at $97.00."
                 ++ " The stock opened at $100.00 and has ranged from $" ++ rest)).
Proof.
  destruct (price_summary_magnitude ref_series_max ref_series_min ref_series_sum
              ref_format_2f (security_with [("today", today_100_97)]) "ACME"
              (list_to_map [("today", today_100_97)]) today_100_97
              97%float 100%float)
    as (word & rest & Htext & _ & _ & _ & Hmod).
  - reflexivity.
  - reflexivity.
  - reflexivity.
  - repeat constructor; eexists; reflexivity.
  - reflexivity.
  - exists rest. rewrite Htext, (Hmod eq_refl). reflexivity.
Defined.

(** C10 at open = close = 50: the change is zero and the direction is
    "down". *)
Lemma price_summary_direction_flat :
  ∃ rest,
    _generate_price_summary ref_series_max ref_series_min ref_series_sum ref_format_2f
      (Some (security_with [("today", today_flat)])) "ACME"
    = Ret (Some ("ACME is down " ++ rest)).
Proof.
  destruct (price_summary_direction ref_series_max ref_series_min ref_series_sum
              ref_format_2f (security_with [("today", today_flat)]) "ACME"
              (list_to_map [("today", today_flat)]) today_flat
              50%float 50%float)
    as (direction & rest & Htext & _ & _ & Hzero).
  - reflexivity.
  - reflexivity.
  - reflexivity.
  - repeat constructor; eexists; reflexivity.
  - reflexivity.
  - exists rest. rewrite Htext, (Hzero eq_refl). reflexivity.
Defined.

(** The paragraphs of the two days in full. *)
Lemma price_summary_texts :
  _generate_price_summary ref_series_max ref_series_min ref_series_sum ref_format_2f
    (Some (security_with [("today", today_100_97)])) "ACME"
  = Ret (Some ("ACME is down moderately by 3.00% today, currently trading at $97.00."
               ++ " The stock opened at $100.00 and has ranged from $96.00 to $101.00"
               ++ " during the session."))
  ∧ _generate_price_summary ref_series_max ref_series_min ref_series_sum ref_format_2f
      (Some (security_with [("today", today_flat)])) "ACME"
    = Ret (Some ("ACME is down slightly by 0.00% today, currently trading at $50.00."
                 ++ " The stock opened at $50.00 and has ranged from $49.00 to $51.00"
                 ++ " during the session.")).
Proof. split; reflexivity. Qed.

(** ** The indicator engine *)

(** C7 at a week of nine rows, and at the empty frame [pd.DataFrame()]. *)
Lemma technical_analysis_nine_rows :
  _get_technical_analysis ref_rolling_mean ref_rolling_std ref_ewm_mean
    (Some {[ "week" := week_nine ]}) = Ret empty_bundle
  ∧ _get_technical_analysis ref_rolling_mean ref_rolling_std ref_ewm_mean
      (Some {[ "week" := pd_DataFrame ]}) = Ret empty_bundle.
Proof.
  split; apply technical_analysis_short_series; intros data week [= <-] Hweek;
    rewrite lookup_singleton_eq in Hweek; injection Hweek as <-;
    vm_compute; lia.
Defined.

(** C3 as stated fails: ten rows without a closing column make the four
    computations fail; the bundle holds no family, and its aggregate still
    has an entry, "neutral", for each of them. *)
Lemma technical_signals_absent_family_neutral :
  _get_technical_analysis ref_rolling_mean ref_rolling_std ref_ewm_mean
    (Some {[ "week" := week_no_close ]})
  = Ret {| ta_sma := None; ta_rsi := None; ta_rsi_signal := None; ta_macd := None;
           ta_macd_signal := None; ta_macd_histogram := None; ta_bollinger := None;
           ta_signals := Some {| sig_sma := "neutral"; sig_rsi := "neutral";
                                 sig_macd := "neutral"; sig_bollinger := "neutral" |} |}.
Proof. reflexivity. Qed.

(** C3 (amended) at ten rows with their closing column: the 14-row and
    20-row windows are not filled, the bundle holds them as NaN with the
    signal "neutral", and the aggregate repeats each family's signal. *)
Lemma technical_signals_ten_rows :
  ∃ b sg, _get_technical_analysis ref_rolling_mean ref_rolling_std ref_ewm_mean
            (Some {[ "week" := week_ten ]}) = Ret b
          ∧ ta_signals b = Some sg
          ∧ ta_rsi b = Some nan
          ∧ aggregate_entry sg "rsi" = Some "neutral"
          ∧ aggregate_entry sg "sma" = Some "buy".
Proof.
  destruct (technical_signals_aggregate ref_rolling_mean ref_rolling_std ref_ewm_mean
              (Some {[ "week" := week_ten ]})) as (b&Hb&Hcases).
  assert (ta_rsi b = Some nan ∧ family_signal b "rsi" = Some "neutral"
          ∧ family_signal b "sma" = Some "buy") as (Hrsi&Hfrsi&Hfsma).
  { vm_compute in Hb. injection Hb as <-. repeat split. }
  destruct Hcases as [->|(sg&Hsg&Hfam)]; [discriminate|].
  exists b, sg. split; [exact Hb|]. split; [exact Hsg|]. split; [exact Hrsi|].
  split.
  - destruct (Hfam "rsi") as [Hpresent _]; [right; left|].
    exact (Hpresent _ Hfrsi).
  - destruct (Hfam "sma") as [Hpresent _]; [left|].
    exact (Hpresent _ Hfsma).
Defined.

(** ** The news classifier *)

(** C6 at scores 0.2, 0.25, -0.2 and -0.5. *)
Lemma sentiment_categories_at_boundaries :
  (λ rec, (si_sentiment rec, si_sentiment_category rec))
    <$> sentiments (analyze_news_impact ref_polarity ref_clock ref_unicode_lower
                      ref_unicode_word boundary_news)
  = [(0.2%float, "neutral"); (0.25%float, "positive");
     ((-0.2)%float, "neutral"); ((-0.5)%float, "negative")].
Proof. reflexivity. Qed.

(** C6 on the same items, from the theorem: the records carry the scores
    of the items, and the second one, 0.25, is "positive". *)
Lemma sentiment_category_boundaries_scores :
  si_sentiment <$> sentiments (analyze_news_impact ref_polarity ref_clock
                                 ref_unicode_lower ref_unicode_word boundary_news)
  = [0.2; 0.25; -0.2; -0.5]%float
  ∧ Forall (λ rec, (0.2 <? si_sentiment rec)%float = true →
                   si_sentiment_category rec = "positive")
      (sentiments (analyze_news_impact ref_polarity ref_clock ref_unicode_lower
                     ref_unicode_word boundary_news)).
Proof.
  destruct (sentiment_category_boundaries ref_polarity ref_clock ref_unicode_lower
              ref_unicode_word boundary_news)
    as [Hcat Hscores].
  split.
  - apply Hscores; [discriminate|reflexivity].
  - eapply Forall_impl; [exact Hcat|]. intros rec (Hpos&_) Habove. by apply Hpos.
Defined.

(** The tokens of three texts.  A letter outside ASCII is a word character:
    no boundary follows "Nestl" in "Nestlé", and in "ab-cdé" the match falls
    back to "ab-", the longest that ends at a boundary. *)
Lemma re_findall_words_examples :
  re_findall_words ref_unicode_word "well-known brands rise" =
    ["well-known"; "brands"; "rise"]
  ∧ re_findall_words ref_unicode_word "Nestlé shares" = ["shares"]
  ∧ re_findall_words ref_unicode_word "ab-cdé rises" = ["ab-"; "rises"].
Proof. repeat split; reflexivity. Qed.

(** C4 as stated fails: the three-letter words "tax" and "cut" are tokens and
    no stop words, and the keyword list leaves them out. *)
Lemma keywords_drop_three_letter_words :
  keywords (analyze_news_impact ref_polarity ref_clock ref_unicode_lower
              ref_unicode_word tax_news)
    = ["lifts"; "retail"; "stocks"; "debate"; "ends"]
  ∧ keywords_claimed ref_unicode_lower ref_unicode_word tax_news
    = ["tax"; "cut"; "lifts"; "retail"; "stocks"; "debate"; "ends"].
Proof. split; reflexivity. Qed.

(** C4 (amended) at the same item: five words are kept, each met once, and
    they rank in the order they were met. *)
Lemma keywords_top_twenty_tax_news :
  keywords (analyze_news_impact ref_polarity ref_clock ref_unicode_lower
              ref_unicode_word tax_news)
    = ["lifts"; "retail"; "stocks"; "debate"; "ends"]
  ∧ ranks_before ["lifts"; "retail"; "stocks"; "debate"; "ends"] "lifts" "ends".
Proof.
  destruct (keywords_top_twenty ref_polarity ref_clock ref_unicode_lower
              ref_unicode_word tax_news [0%float])
    as (_&_&_&_&_&_&Hrank&_).
  - reflexivity.
  - split; [reflexivity|]. apply (Hrank 0 4); [lia|reflexivity|reflexivity].
Defined.

(** ** The correlation engine *)

(** C1 as stated fails: with ten weekly rows the empty news-analysis
    structure yields no error and ten rows; and without security data the
    error is another one. *)
Lemma empty_analysis_is_not_no_news :
  compute_price_news_correlation ref_polarity ref_corrcoef ref_pow
    (Some (security_with [("week", week_ten)])) (Analysed _get_empty_news_analysis)
  = Ret {| correlation_coefficient := None;
           days_analyzed := 10;
           data := zip_with zero_row ten_days ten_closes;
           error := None |}
  ∧ compute_price_news_correlation ref_polarity ref_corrcoef ref_pow
      None (Analysed _get_empty_news_analysis)
    = Ret (error_result "No security data available").
Proof. split; reflexivity. Qed.

(** C2 as stated fails: a score of -0.15 is not below -0.2, the classifier
    calls the item "neutral", and the engine counts it as negative. *)
Lemma news_counts_below_tenth_are_negative :
  (λ rec, (si_sentiment rec, si_sentiment_category rec))
    <$> sentiments (analyze_news_impact ref_polarity ref_clock ref_unicode_lower
                      ref_unicode_word dip_news)
  = [((-0.15)%float, "neutral")]
  ∧ group_news_by_date ref_polarity
      (Analysed (analyze_news_impact ref_polarity ref_clock ref_unicode_lower
                   ref_unicode_word dip_news)) !! "2025-04-14"
    = Some {| total := 1; c_negative := 1; c_neutral := 0; c_positive := 0 |}
  ∧ ((-0.15) <? (-0.2))%float = false.
Proof. repeat split; reflexivity. Qed.

(** C2 (amended) on the same item given raw. *)
Lemma news_counts_by_date_dip :
  c_negative (default zero_counts
                (group_news_by_date ref_polarity (RawItems dip_news) !! "2025-04-14")) = 1.
Proof.
  destruct (news_counts_by_date ref_polarity (RawItems dip_news) "2025-04-14")
    as (_&Hneg&_).
  rewrite Hneg. reflexivity.
Defined.



(** C1 (amended) at ten weekly rows. *)
Lemma correlation_of_empty_analysis_week_ten :
  ∃ r, compute_price_news_correlation ref_polarity ref_corrcoef ref_pow
         (Some (security_with [("week", week_ten)])) (Analysed _get_empty_news_analysis)
       = Ret r
       ∧ days_analyzed r = 10 ∧ error r = None.
Proof.
  destruct (correlation_of_empty_analysis ref_polarity ref_corrcoef ref_pow
              (Some (security_with [("week", week_ten)])))
    as (r&Hr&_&_&_&Hrows&_).
  exists r. split; [exact Hr|].
  destruct (Hrows (list_to_map [("week", week_ten)]) week_ten ten_closes)
    as [_ ->]; try reflexivity.
  - intros name col Hcol. unfold week_ten, frame in Hcol; simpl in Hcol.
    apply lookup_insert_Some in Hcol as [[_ <-]|[_ Hcol]]; [reflexivity|].
    by rewrite lookup_empty in Hcol.
  - split; reflexivity.
Defined.

(** ** Further properties at concrete inputs *)

(** X11 at two weekly rows and one item dated on the second: the rows carry
    the two dates, and the item is counted on its day. *)
Lemma correlation_rows_of_selected_frame_two_rows :
  ∃ r, compute_price_news_correlation ref_polarity ref_corrcoef ref_pow
         (Some (security_with [("week", week_two)])) (RawItems dip_news) = Ret r
       ∧ date <$> data r = ["2025-04-11"; "2025-04-14"]
       ∧ price <$> data r = [61.32; 167.01]%float
       ∧ negative_news <$> data r = [0; 1].
Proof.
  destruct (correlation_rows_of_selected_frame ref_polarity ref_corrcoef ref_pow
              (Some (security_with [("week", week_two)])) (RawItems dip_news)
              (list_to_map [("week", week_two)]) week_two [61.32; 167.01]%float)
    as (r&Hr&_&_&Hdates&Hprices&_); try reflexivity.
  exists r. split; [exact Hr|]. split; [exact Hdates|]. split; [exact Hprices|].
  vm_compute in Hr. injection Hr as <-. reflexivity.
Defined.

(** X12 at a week of ten rows without closing column beside a complete
    month. *)
Lemma correlation_week_without_close_month_complete :
  compute_price_news_correlation ref_polarity ref_corrcoef ref_pow
    (Some (security_with [("week", week_no_close); ("month", week_ten)]))
    (RawItems dip_news)
  = Ret (error_result "Error in correlation calculation: 'Close'").
Proof.
  apply (correlation_week_without_close ref_polarity ref_corrcoef ref_pow
           (Some (security_with [("week", week_no_close); ("month", week_ten)]))
           (RawItems dip_news)
           (list_to_map [("week", week_no_close); ("month", week_ten)])
           week_no_close); reflexivity.
Defined.

(** X14 at ten rows that hold their opening prices only. *)
Lemma technical_analysis_without_close_ten_rows :
  ∃ b, _get_technical_analysis ref_rolling_mean ref_rolling_std ref_ewm_mean
         (Some {[ "week" := week_no_close ]}) = Ret b
       ∧ b ≠ empty_bundle
       ∧ ta_rsi b = None
       ∧ (sig_rsi <$> ta_signals b) = Some "neutral".
Proof.
  destruct (technical_analysis_without_close ref_rolling_mean ref_rolling_std
              ref_ewm_mean {[ "week" := week_no_close ]} week_no_close)
    as (b&Hb&Hne&_&Hrsi&_&_&Hsg).
  - reflexivity.
  - reflexivity.
  - vm_compute. lia.
  - reflexivity.
  - exists b. split; [exact Hb|]. split; [exact Hne|]. split; [exact Hrsi|].
    rewrite Hsg. reflexivity.
Defined.

(** X16 at a day's volume of 1000 against an average of 500. *)
Lemma price_summary_volume_twice_average :
  _generate_price_summary ref_series_max ref_series_min ref_series_sum ref_format_2f
    (Some security_with_volume) "ACME"
  = Ret (Some ("ACME is down moderately by 3.00% today, currently trading at $97.00."
               ++ " The stock opened at $100.00 and has ranged from $96.00 to $101.00"
               ++ " during the session."
               ++ " Trading volume is higher than average.")).
Proof.
  assert (∃ text, _generate_price_summary ref_series_max ref_series_min ref_series_sum
                    ref_format_2f (Some security_with_volume) "ACME"
                  = Ret (Some text)) as [text Htext]
    by (eexists; reflexivity).
  rewrite Htext.
  destruct (price_summary_volume ref_series_max ref_series_min ref_series_sum
              ref_format_2f security_with_volume "ACME" text Htext)
    as (data&today&close&open&high&low&c&o&Hd&Ht&Hc&Hop&Hh&Hl&Hlast&Hhead&Hvol&_).
  injection Hd as <-. vm_compute in Ht. injection Ht as <-.
  vm_compute in Hc, Hop, Hh, Hl.
  injection Hc as <-. injection Hop as <-. injection Hh as <-. injection Hl as <-.
  injection Hlast as <-. injection Hhead as <-.
  rewrite (Hvol [1000%float]
             (_calculate_statistics {[ "averageVolume" := Some 500%float ]})
             500%float eq_refl eq_refl eq_refl eq_refl).
  reflexivity.
Defined.

(** X18 at a security whose every request raises. *)
Lemma historical_data_unavailable_delisted :
  _get_technical_analysis ref_rolling_mean ref_rolling_std ref_ewm_mean
    (Some (_get_historical_data history_unavailable)) = Ret empty_bundle
  ∧ _generate_price_summary ref_series_max ref_series_min ref_series_sum ref_format_2f
      (Some {| sd_data := Some (_get_historical_data history_unavailable);
               sd_stats := None |}) "ACME" = Ret None
  ∧ compute_price_news_correlation ref_polarity ref_corrcoef ref_pow
      (Some {| sd_data := Some (_get_historical_data history_unavailable);
               sd_stats := None |}) (RawItems dip_news)
    = Ret (error_result "No historical price data available").
Proof.
  destruct (historical_data_unavailable ref_series_max ref_series_min ref_series_sum
              ref_format_2f ref_rolling_mean ref_rolling_std ref_ewm_mean
              ref_polarity ref_corrcoef ref_pow history_unavailable None "ACME"
              (RawItems dip_news)) as (_&Hta&Hprice&Hcorr).
  - intros period interval df Hdf. discriminate Hdf.
  - split; [exact Hta|]. split; [exact Hprice|exact Hcorr].
Defined.

(** X19 at a security with a month of ten rows and nothing else. *)
Lemma historical_data_week_unavailable_month_only :
  select_price_data (_get_historical_data history_month_only) = Some week_ten
  ∧ _get_technical_analysis ref_rolling_mean ref_rolling_std ref_ewm_mean
      (Some (_get_historical_data history_month_only)) = Ret empty_bundle.
Proof.
  apply (historical_data_week_unavailable ref_rolling_mean ref_rolling_std
           ref_ewm_mean history_month_only week_ten).
  - intros df Hdf. discriminate Hdf.
  - reflexivity.
  - reflexivity.
Defined.

(** X20 at statistics computed from an average volume of 500. *)
Lemma statistics_average_volume_on_record :
  ∃ prices,
    _generate_price_summary ref_series_max ref_series_min ref_series_sum ref_format_2f
      (Some security_with_volume) "ACME"
    = Ret (Some (prices ++ " during the session."
                 ++ " Trading volume is higher than average.")).
Proof.
  assert (∃ text, _generate_price_summary ref_series_max ref_series_min ref_series_sum
                    ref_format_2f (Some security_with_volume) "ACME"
                  = Ret (Some text)) as [text Htext]
    by (eexists; reflexivity).
  destruct (statistics_average_volume ref_series_max ref_series_min ref_series_sum
              ref_format_2f {[ "averageVolume" := Some 500%float ]}
              (list_to_map [("today", today_100_97)]) "ACME" text Htext)
    as (_&today&prices&Ht&Hvol&_).
  exists prices. rewrite Htext. vm_compute in Ht. injection Ht as <-.
  rewrite (Hvol [1000%float] 500%float eq_refl eq_refl eq_refl).
  reflexivity.
Defined.

(** X21 at ten weekly rows: two buys and two neutrals make the verdict
    "neutral"; the RSI window is not filled. *)
Lemma technical_summary_of_engine_ten_rows :
  ∃ b, _get_technical_analysis ref_rolling_mean ref_rolling_std ref_ewm_mean
         (Some {[ "week" := week_ten ]}) = Ret b
       ∧ _generate_technical_summary ref_format_1f
           (analysis_with [] "Technology" 0%float [] (Some b))
         = Some ("Technical Analysis: Technical indicators are showing neutral signals."
                 ++ " RSI is nan (neutral), MACD is bullish.").
Proof.
  destruct (technical_summary_of_engine ref_format_1f ref_rolling_mean ref_rolling_std
              ref_ewm_mean (Some {[ "week" := week_ten ]})
              (analysis_with [] "Technology" 0%float []
                 (attempt (_get_technical_analysis ref_rolling_mean ref_rolling_std
                             ref_ewm_mean (Some {[ "week" := week_ten ]})))))
    as (b&Hb&Hcases).
  exists b. split; [exact Hb|].
  vm_compute in Hb. injection Hb as <-.
  destruct Hcases as [_ Hsummary]; [reflexivity|].
  destruct Hsummary as (sg&Hsg&_); [discriminate|].
  injection Hsg as <-. reflexivity.
Defined.

(** X22 on a day with the S&P 500 at -0.5 percent and the VIX unchanged: both
    are listed as down, one is counted as falling. *)
Lemma market_context_mood_falling_day :
  _generate_market_context ref_format_2f falling_day
  = Some ("Market Context: S&P 500 is down 0.50%, VIX is down 0.00%."
          ++ " The broader market is trending lower today.")
  ∧ down_count [("S&P 500", Some (-0.5)%float); ("VIX", Some 0%float)] = 1.
Proof.
  destruct (market_context_mood ref_format_2f falling_day
              [("S&P 500", Some (-0.5)%float); ("VIX", Some 0%float)] eq_refl)
    as (_&Htext&_&_&_&_&_).
  split; [|reflexivity]. rewrite Htext; [reflexivity|discriminate].
Defined.

(** X23 on the same day: the stock loses 3 percent, its sector 1 percent. *)
Lemma sector_summary_cases_falling_day :
  _generate_sector_summary ref_format_2f falling_day
  = Ret (Some ("Sector Performance: The Technology sector is down 1.00% today."
               ++ " The stock is outperforming its sector.")).
Proof.
  destruct (sector_summary_cases ref_format_2f falling_day) as (r&Hr&_&Hcases).
  destruct (Hcases {[ "Technology" := (-1)%float ]} eq_refl) as (_&_&Hday).
  destruct (Hday "Technology" (-1)%float (list_to_map [("today", today_100_97)])
              today_100_97 eq_refl eq_refl eq_refl eq_refl) as [_ Hco].
  destruct (Hco 97%float 100%float eq_refl) as (Hr'&_&Hout).
  rewrite Hr, Hr', Hout; reflexivity.
Defined.
